(* ===== verification/_CoqProject ===== *)
-Q . S2P
Prelude.v
Async.v
Runtime.v
Model.v
BlogList.v
BlogDetail.v
Url.v
FindJobs.v
Crud.v
CategoryAdmin.v
IndustryAdmin.v
ApplicantList.v
VacancyEditAdmin.v
VacancyViewAdmin.v
JobDetails.v
Browse.v
BlogAdmin.v
VacancyForms.v
VacancyEdit.v
Navbar.v
