(* ===== verification/Prelude.v ===== *)
(** * A verification development of the job-portal front end

    The program is a React single-page front end (under [src/src/]): pages
    that load data from an HTTP API with [axios] or [fetch], keep it in
    [useState] hooks, re-run [useEffect] callbacks when their dependencies
    change, and react to clicks, typing and route changes. The pages do not
    call each other; they share the HTTP client, the React runtime and a
    few data types. This library models them in three layers.

    ** Layer 1: the shared machinery
    - [Prelude] (this file): the JavaScript string and array primitives the
      pages call ([toLowerCase], [includes], [substring], [trim],
      [Array.filter], [indexOf], [Array.from(new Set(...))]), their lemmas,
      the notation scope [jp_scope], the hint databases [jp] and [jp_rw] and
      the tactics [decide_closed], [bool_hyps] and [case_eqb].
    - [Async]: an async function as a program of a free monad [Prog]
      ([Ret], [Throw], [Update] for a state setter, [Emit] for a log, toast
      or navigation, [Fetch] for an awaited request); [axios] rejects on a
      non-2xx reply and on a network failure, [fetch] only on the latter;
      [catch_]/[finally_] are [try]/[catch]/[finally]; [run] is the
      sequential semantics against a server function, [prog_equiv] its
      observational equivalence with the monad laws.
    - [Runtime]: a page as an instance of the class [Component] (initial
      state, effects to run at a commit, events offered by the rendered
      page, handlers) and the step relation [step] on [World]s: a user
      event on the committed render, the delivery of any pending response
      (in any order: this is where the races are), a render commit running
      the changed effects. The adequacy lemma [advance_run] links it to
      [run]; [drain] shows that delivering the pending responses
      terminates (each thread awaits finitely many: [fetch_depth],
      [weight]) and [settles] that a page whose effects depend only on
      state no thread writes reaches a quiet, committed world;
      [state_invariant] and [state_invariant_sync] are the
      invariance principles (a handler's synchronous prefix runs from the
      state it closes over, [preserves_from]); [run_render],
      [run_deliver] and [run_event] replay concrete executions.
    - [Model]: the records of the API ([Blog], [Category], [Industry],
      [Application], [Vacancy], [Job], [Company]); [Url]: URL encoding,
      [URLSearchParams.toString] ([serialize]) and the server's decoding
      ([parse_query]) with the round trip [parse_serialize].

    ** Layer 2: one file per page (its Module, state Record, requests,
       async functions, events, handlers, effects and rendered view)
    - [BlogList] ([Components/Blog/Blogs.jsx]), [BlogDetail]
      ([Components/Blog/BlogDetail.jsx]),
    - [FindJobs] ([Components/Find-Jobs/FindJobs.jsx]), with the
      uncontrolled remote radio and salary selects as part of the state,
    - [Crud], a Section over the class [CrudApi] modelling the two admin
      CRUD pages at once, and its instances [CategoryAdmin]
      ([Pages/Admin/CategoryPage.tsx]) and [IndustryAdmin]
      ([Pages/Admin/IndustryPage.tsx]),
    - [ApplicantList] ([Pages/ApplicantList.tsx]), with the uncontrolled
      status [Select],
    - [VacancyEditAdmin] ([Pages/Admin/VacancyEditAdmin.tsx]) and
      [VacancyViewAdmin] ([Pages/Admin/VacancyViewAdmin.tsx]), whose route
      parameter is part of the state,
    - [JobDetails] ([Components/Find-Jobs/JobDetails.jsx]) and [Browse]
      ([Components/BrowseSturtups/Browse.jsx]), whose bundled JSON files
      (not in the repository) are Section variables,
    - [BlogAdmin] with [BlogTable] ([Pages/Admin/BlogPage.tsx]) and
      [BlogEdit] ([Pages/Admin/BlogEditPage.tsx]),
    - [VacancyForms] with the form operations [FormOps] shared by the two
      vacancy forms ([countryMapping], the index-based list handlers,
      [parseFloat]) and [AddVacancy] ([Pages/AddVacancy.tsx]), and
      [VacancyEdit] ([Pages/VacancyEdit.tsx]),
    - [Navbar] ([Components/Navbar.jsx]), whose [AuthContext] user is a
      Section variable.
    Every definition keeps the source's name ([fetchJobs],
    [handleClearFilters], [handleStatusChange], ...); an async function is
    a [Prog] computed from the state of the render it was created in, as
    the code's closures are.

    ** Layer 3: the theorems, by kind
    - functional behaviour on every branch, errors included, as equations
      of [run] ([fetchJobs_run], [fetchApplications_run],
      [handleStatusChange_run], [fetchVacancy_run], [handleSubmit_run],
      [fetchJobDetails_run], [submitApplication_run], [fetchIndustries_run],
      [blogSave_run], [addVacancy_submit_run], [editVacancy_submit_run],
      [primary_failure_no_secondary], [secondary_keeps_primary],
      [array_body_fetches_related], ...);
    - invariants and safety of every reachable state, by induction on
      [step] ([blogs_page_invariant], [currentPage_always_1],
      [panel_needs_selection], [remote_filter_lost_after_clear],
      [job_not_found_everywhere], [remote_filter_sticky],
      [one_save_in_flight], [requirements_never_sent]);
    - liveness: [browse_settles], from [Runtime.drain] and
      [Runtime.settles];
    - types of the values sent, where the handlers turn numbers into
      strings ([edited_categoryId_sent_as_string],
      [edited_salary_sent_as_string]);
    - equivalence of the code's index-based list handlers with stdpp's
      [insert] and [delete] ([index_ops_equiv], a lemma of [FormOps]);
    - refinement of the admin pages against abstract finite maps
      ([Crud.abs] to [gmap], [server_post]): [create_refines],
      [delete_refines], [category_update_refines],
      [industry_update_refines], [save_refines];
    - round trips of the query strings and texts the pages build
      ([jobs_query_roundtrip], [applications_query_roundtrip],
      [block_url_roundtrip], [salary_text_roundtrip]) and bounds
      ([related_spec], [getStageProgress_spec], [truncateTitle_spec]);
    - races and stale closures as concrete executions of [step]
      ([clear_race_shows_old_results], [stale_response_shows_wrong_blog],
      [stale_search_results], [status_reply_reselects_old],
      [stale_category_after_route_change], [select_keeps_previous_status],
      [stale_blog_saved_to_new_id]).
    Each theorem with hypotheses has a witness lemma instantiating it.

    ** Bounds and fuel
    No definition needs fuel: every loop of the code is over a finite list
    ([countLoop], [count_all], [filterBlogs], [group_rev], [map_at],
    [digits10]) and is structural; the termination of response delivery
    is proved with the measure [weight], which drops by one per
    delivery. Servers are
    functions from requests to responses, so every theorem holds for every
    server; the executions use small concrete servers and at most a dozen
    steps, enough to exhibit each interleaving.

    ** Not modelled
    [AdminDashboardLayout.tsx] is a constant sidebar list around an
    [Outlet], with no state and no operation. In [Browse.jsx] the unused
    [calculateJobCounts] and [handleRemoteFilter] are not modelled, and
    [Promise.all] is run one request after the other (same requests, same
    result). [parseFloat] is exact on decimal literals: the rounding to a
    double and the [Infinity] literal are not modelled. The markup
    and styling of the pages are modelled only as far as the texts and
    controls the theorems need; [toLocaleString] of dates, toasts'
    descriptions, [date-fns] formatting, and the [axiosInstance] and
    [AuthContext] modules (imported but not in the repository) are not
    modelled. *)

From stdpp Require Import base list strings sets.
From Stdlib Require Import ZArith String Ascii DecimalString.

Declare Scope jp_scope.
Delimit Scope jp_scope with jp.
Open Scope string_scope.

(** JavaScript strict equality on strings and on (integral) numbers. *)
Notation "a === b" := (String.eqb a b) (at level 70, no associativity) : jp_scope.
Notation "a =Z= b" := (Z.eqb a b) (at level 70, no associativity) : jp_scope.
Open Scope jp_scope.

Create HintDb jp.
Create Rewrite HintDb jp_rw.

(** ** Strings *)

(** [String.prototype.toLowerCase] on the ASCII range: the letters
    [A]..[Z] are shifted by 32, every other character is kept. *)
Definition lower_ascii (c : ascii) : ascii :=
  let n := nat_of_ascii c in
  if (65 <=? n)%nat && (n <=? 90)%nat then ascii_of_nat (n + 32) else c.

Fixpoint lower (s : string) : string :=
  match s with
  | EmptyString => EmptyString
  | String c s' => String (lower_ascii c) (lower s')
  end.

(** [haystack.includes(needle)]: [needle] occurs at some position of
    [haystack]; the empty needle occurs everywhere. *)
Fixpoint includes (haystack needle : string) : bool :=
  String.prefix needle haystack ||
  match haystack with
  | EmptyString => false
  | String _ h' => includes h' needle
  end.

(** JavaScript truthiness of a string: only the empty string is falsy. *)
Definition truthy (s : string) : bool := negb (s === "").

(** [s.trim()] over the ASCII white-space characters. *)
Definition is_ws (c : ascii) : bool :=
  let n := nat_of_ascii c in
  (n =? 32)%nat || (n =? 9)%nat || (n =? 10)%nat || (n =? 11)%nat
  || (n =? 12)%nat || (n =? 13)%nat.

Fixpoint trim_start (s : string) : string :=
  match s with
  | EmptyString => EmptyString
  | String c s' => if is_ws c then trim_start s' else s
  end.

Definition trim (s : string) : string := String.rev (trim_start (String.rev (trim_start s))).

(** [s.replace(/\s+/g, r)]: every maximal run of white space becomes [r]. *)
Fixpoint replace_ws_runs_go (r : string) (in_run : bool) (s : string) : string :=
  match s with
  | EmptyString => EmptyString
  | String c s' =>
      if is_ws c then (if in_run then EmptyString else r) ++ replace_ws_runs_go r true s'
      else String c (replace_ws_runs_go r false s')
  end.

Definition replace_ws_runs (s r : string) : string := replace_ws_runs_go r false s.

(** Template-literal interpolation of an integral number, [`${n}`]. *)
Definition z_to_string (z : Z) : string := NilZero.string_of_int (Z.to_int z).

(** The global [parseInt(s)] without a radix: leading white space is
    skipped, an optional sign is read, a [0x]/[0X] prefix selects radix 16
    (radix 10 otherwise), and the longest run of digits of that radix is
    read; no digit at all gives [NaN], modelled as [None]. *)
Definition digit_value (c : ascii) : option Z :=
  let n := Z.of_nat (nat_of_ascii c) in
  if (48 <=? n)%Z && (n <=? 57)%Z then Some (n - 48)%Z
  else if (97 <=? n)%Z && (n <=? 122)%Z then Some (n - 87)%Z
  else if (65 <=? n)%Z && (n <=? 90)%Z then Some (n - 55)%Z
  else None.

(** Digits of radix [radix] read from [s] after [acc]: the value and how
    many digits were read. *)
Fixpoint read_digits (radix acc : Z) (n : nat) (s : string) : Z * nat :=
  match s with
  | EmptyString => (acc, n)
  | String c s' =>
      match digit_value c with
      | Some d => if (d <? radix)%Z then read_digits radix (acc * radix + d)%Z (S n) s' else (acc, n)
      | None => (acc, n)
      end
  end.

Definition parseInt (s : string) : option Z :=
  let s1 := trim_start s in
  let '(sign, s2) :=
    match s1 with
    | String "-" r => ((-1)%Z, r)
    | String "+" r => (1%Z, r)
    | _ => (1%Z, s1)
    end in
  let '(radix, s3) :=
    if String.prefix "0x" s2 || String.prefix "0X" s2
    then (16%Z, String.substring 2 (String.length s2 - 2) s2) else (10%Z, s2) in
  let '(v, n) := read_digits radix 0 0 s3 in
  if (n =? 0)%nat then None else Some (sign * v)%Z.

(** [x !== y] for a number [x] and a possibly-[NaN] number [y]. *)
Definition num_neq (x : Z) (y : option Z) : bool :=
  match y with Some v => negb (x =? v)%Z | None => true end.

(** ** Lemmas on strings *)

Lemma lower_ascii_idem c : lower_ascii (lower_ascii c) = lower_ascii c.
Proof. destruct c as [[] [] [] [] [] [] [] []]; reflexivity. Qed.

Lemma lower_idem s : lower (lower s) = lower s.
Proof. induction s as [|c s IH]; simpl; [done|]. by rewrite lower_ascii_idem, IH. Qed.

Lemma length_lower s : String.length (lower s) = String.length s.
Proof. induction s; simpl; auto. Qed.

Lemma prefix_empty s : String.prefix "" s = true.
Proof. by destruct s. Qed.

Lemma prefix_refl s : String.prefix s s = true.
Proof. induction s as [|c s IH]; simpl; [done|]. by destruct (ascii_dec c c). Qed.

Lemma prefix_append s t : String.prefix s (s ++ t) = true.
Proof. induction s as [|c s IH]; simpl; [apply prefix_empty|]. by destruct (ascii_dec c c). Qed.

Lemma string_length_app s t : String.length (s ++ t) = (String.length s + String.length t)%nat.
Proof. induction s; simpl; auto. Qed.

Lemma includes_empty s : includes s "" = true.
Proof. destruct s; reflexivity. Qed.

Lemma includes_refl s : includes s s = true.
Proof. destruct s as [|c s]; simpl; [done|]. destruct (ascii_dec c c); [|done]. by rewrite prefix_refl. Qed.

Lemma includes_of_prefix h n : String.prefix n h = true -> includes h n = true.
Proof. destruct h; simpl; intros ->; done. Qed.

Lemma length_substring_0 n s :
  String.length (String.substring 0 n s) = Nat.min n (String.length s).
Proof.
  revert n. induction s as [|c s IH]; intros [|n]; simpl; auto.
Qed.

Lemma substring_0_full n s :
  (String.length s <= n)%nat -> String.substring 0 n s = s.
Proof.
  revert n. induction s as [|c s IH]; intros [|n] H; simpl in *; try lia; auto.
  rewrite IH; [done | lia].
Qed.

Lemma prefix_substring_0 n s : String.prefix (String.substring 0 n s) s = true.
Proof.
  revert n. induction s as [|c s IH]; intros [|n]; simpl; auto.
  - destruct (ascii_dec c c); [|done]. by rewrite IH.
Qed.

(** The [title.length > n ? title.substring(0, n) + '...' : title] idiom. *)
Lemma truncate_spec (n : nat) (t : string) :
  let r := if (n <? String.length t)%nat then String.substring 0 n t ++ "..." else t in
  ((String.length t <= n)%nat -> r = t) /\
  ((n < String.length t)%nat ->
     String.prefix (String.substring 0 n t) r = true /\ String.length r = (n + 3)%nat).
Proof.
  simpl. split; intros H.
  - destruct (Nat.ltb_spec n (String.length t)); [lia | done].
  - destruct (Nat.ltb_spec n (String.length t)); [|lia]. split.
    + apply prefix_append.
    + rewrite string_length_app, length_substring_0, Nat.min_l by lia. reflexivity.
Qed.

Lemma truthy_false s : truthy s = false <-> s = "".
Proof. unfold truthy. destruct (String.eqb_spec s ""); naive_solver. Qed.

(** ** Arrays: [Array.prototype.filter] and [slice(0, n)] *)

Section ListLemmas.
Context {A : Type}.
Implicit Types (l : list A) (f g : A -> bool).

Lemma filter_all l f : Forall (fun x => f x = true) l -> List.filter f l = l.
Proof. induction 1; simpl; [done|]. by rewrite H, IHForall. Qed.

Lemma filter_none l f : Forall (fun x => f x = false) l -> List.filter f l = [].
Proof. induction 1; simpl; [done|]. by rewrite H. Qed.

Lemma filter_filter_same l f : List.filter f (List.filter f l) = List.filter f l.
Proof. apply filter_all, List.Forall_forall. intros x Hx. by apply filter_In in Hx as [_ ->]. Qed.

Lemma filter_filter_comm l f g :
  List.filter f (List.filter g l) = List.filter (fun x => g x && f x) l.
Proof.
  induction l as [|x l IH]; simpl; [done|].
  destruct (g x); simpl; [destruct (f x); simpl|]; by rewrite IH.
Qed.

Lemma filter_sublist l f : sublist (List.filter f l) l.
Proof.
  induction l as [|x l IH]; simpl; [constructor|].
  destruct (f x); by constructor.
Qed.

Lemma length_filter_le l f : (List.length (List.filter f l) <= List.length l)%nat.
Proof. apply sublist_length, filter_sublist. Qed.

Lemma filter_ext_in l f g :
  (forall x, In x l -> f x = g x) -> List.filter f l = List.filter g l.
Proof. apply List.filter_ext_in. Qed.

Lemma take_sublist n l : sublist (take n l) l.
Proof.
  revert n. induction l as [|x l IH]; intros [|n]; simpl;
    [constructor | constructor | apply sublist_nil_l | by constructor].
Qed.

Lemma in_take_in n l x : In x (take n l) -> In x l.
Proof.
  intros H. apply list_elem_of_In in H. apply list_elem_of_In.
  eapply elem_of_sublist; [exact H | apply take_sublist].
Qed.
End ListLemmas.

(** [Array.from(new Set(xs))]: the first occurrence of every value, in
    order of first occurrence. *)
Fixpoint uniq_from {A} `{EqDecision A} (seen : list A) (l : list A) : list A :=
  match l with
  | [] => []
  | x :: l' => if decide (x ∈ seen) then uniq_from seen l' else x :: uniq_from (x :: seen) l'
  end.

Definition set_from {A} `{EqDecision A} (l : list A) : list A := uniq_from [] l.

Section SetFrom.
Context {A : Type} `{EqDecision A}.
Implicit Types (l seen : list A).

Lemma elem_of_uniq_from seen l x : x ∈ uniq_from seen l <-> x ∈ l /\ x ∉ seen.
Proof.
  revert seen. induction l as [|y l IH]; intros seen; simpl.
  - rewrite elem_of_nil. naive_solver.
  - destruct (decide (y ∈ seen)).
    + rewrite IH, elem_of_cons. naive_solver.
    + rewrite elem_of_cons, IH, !elem_of_cons. split.
      * intros [->|[Hl Hn]]; split; tauto.
      * intros [Hxl Hs]. destruct (decide (x = y)); [by left|].
        right. split; [tauto | intros [?|?]; tauto].
Qed.

Lemma NoDup_uniq_from seen l : NoDup (uniq_from seen l).
Proof.
  revert seen. induction l as [|y l IH]; intros seen; simpl; [constructor|].
  destruct (decide (y ∈ seen)); [done|]. constructor; [|done].
  rewrite elem_of_uniq_from, elem_of_cons. naive_solver.
Qed.

Lemma elem_of_set_from l x : x ∈ set_from l <-> x ∈ l.
Proof. unfold set_from. rewrite elem_of_uniq_from, elem_of_nil. naive_solver. Qed.

Lemma NoDup_set_from l : NoDup (set_from l).
Proof. apply NoDup_uniq_from. Qed.
End SetFrom.

#[export] Hint Resolve NoDup_set_from : jp.

(** [Array.prototype.indexOf]: the index of the first element equal to
    [x], or [-1]. *)
Fixpoint index_of {A} `{EqDecision A} (x : A) (l : list A) : Z :=
  match l with
  | [] => (-1)%Z
  | y :: l' => if decide (x = y) then 0%Z
               else let i := index_of x l' in if (i <? 0)%Z then i else (i + 1)%Z
  end.

Section IndexOf.
Context {A : Type} `{EqDecision A}.
Implicit Types (l : list A).

Lemma index_of_not_in x l : x ∉ l -> index_of x l = (-1)%Z.
Proof.
  induction l as [|y l IH]; intros Hx; [done|]. rewrite elem_of_cons in Hx. simpl.
  rewrite decide_False by tauto. rewrite IH by tauto. reflexivity.
Qed.

Lemma index_of_lookup x l i : NoDup l -> l !! i = Some x -> index_of x l = Z.of_nat i.
Proof.
  revert i. induction l as [|y l IH]; intros i Hnd Hi; [done|].
  inversion Hnd as [|? ? Hy Hnd']; subst. destruct i as [|i]; simpl in *.
  - injection Hi as ->. by rewrite decide_True.
  - rewrite decide_False; [rewrite (IH i) by done; case_match; lia|].
    intros ->. apply Hy. by eapply list_elem_of_lookup_2.
Qed.
End IndexOf.

#[export] Hint Resolve filter_sublist take_sublist length_filter_le : jp.
#[export] Hint Rewrite lower_idem length_lower includes_empty includes_refl
  length_substring_0 @filter_filter_same : jp_rw.

(** Close a decidable proposition on closed data by evaluation. *)
Ltac decide_closed := refine (bool_decide_unpack _ _); vm_compute; exact I.

(** Turn hypotheses that are boolean conjunctions and [bool_decide]s
    (the [offered] predicates of the pages) into propositions. *)
Ltac bool_hyps :=
  repeat match goal with
  | H : _ && _ = true |- _ => apply andb_prop in H as [? ?]
  | H : negb _ = true |- _ => apply negb_true_iff in H
  | H : bool_decide _ = true |- _ => apply bool_decide_eq_true in H
  | H : bool_decide _ = false |- _ => apply bool_decide_eq_false in H
  end.

(** Case analysis on the boolean equalities the components test. *)
Ltac case_eqb :=
  repeat match goal with
  | |- context [String.eqb ?a ?b] => destruct (String.eqb_spec a b); subst
  | |- context [Z.eqb ?a ?b] => destruct (Z.eqb_spec a b); subst
  | H : context [String.eqb ?a ?b] |- _ => destruct (String.eqb_spec a b); subst
  | H : context [Z.eqb ?a ?b] |- _ => destruct (Z.eqb_spec a b); subst
  end.
