(* ===== verification/Async.v ===== *)
(** * Async: the async functions of the components as programs

    Every data-loading function of the front end is a JavaScript [async]
    function that awaits HTTP requests ([axios] or [fetch]), calls React
    state setters, logs, shows toasts and navigates. This file models such
    a function as a program of a free monad [Prog Q B S A]:
    - [Q] is the type of request bodies the component sends,
    - [B] the type of (parsed) response bodies it reads,
    - [S] the component's React state, changed only through [Update]
      (a [setX(v)] or [setX(prev => ...)] call),
    - [A] the value the async function resolves with.
    [Fetch] suspends on a request until its response arrives; [Throw] is a
    rejection, and [catch_]/[finally_] are [try]/[catch]/[finally].

    The library's two HTTP clients differ in what they reject on, and the
    code relies on the difference: [axios] rejects on every status outside
    200..299 and on a network failure; [fetch] resolves on every status
    and rejects only on a network failure, so callers test [response.ok].

    [run] is the sequential semantics (every request answered at once by a
    server function); the interleaved semantics of several pending
    requests is in [Runtime]. [prog_equiv] is observational equivalence
    under [run], with the monad laws and [Proper] instances for [bind]. *)

From stdpp Require Import base list strings.
From Stdlib Require Import ZArith String.
From S2P Require Import Prelude.

Inductive Method := GET | POST | PUT | DELETE.

#[export] Instance Method_eq_dec : EqDecision Method.
Proof. solve_decision. Defined.

(** An HTTP request: method, URL (base URL included, as the code writes
    it) and an optional body. *)
Record Request (Q : Type) := mkRequest {
  req_method : Method;
  req_url : string;
  req_body : option Q
}.
Arguments mkRequest {Q}.
Arguments req_method {Q}.
Arguments req_url {Q}.
Arguments req_body {Q}.

Definition GetReq {Q} (url : string) : Request Q := mkRequest GET url None.

(** What comes back: nothing (a network failure) or a status and a body. *)
Inductive Response (B : Type) :=
| NetworkFailure
| Reply (status : Z) (body : B).
Arguments NetworkFailure {B}.
Arguments Reply {B}.

(** Rejection reasons. *)
Inductive Err :=
| AxiosError (status : option Z)   (** axios: [Some st] for a non-2xx reply, [None] for no reply *)
| FetchTypeError                   (** fetch: network failure *)
| JsonSyntaxError                  (** [response.json()] on a body that is not JSON *)
| TypeError (msg : string)         (** a property or method missing on the value read *)
| ThrownError (msg : string).      (** [throw new Error(msg)] *)

#[export] Instance Err_eq_dec : EqDecision Err.
Proof. solve_decision. Defined.

(** Observable outputs other than state and requests. *)
Inductive Out :=
| Console (msg : string)                    (** [console.log] / [console.error] *)
| Toast (title : string) (destructive : bool)
| Navigate (path : string)
| Unhandled (e : Err).                      (** rejection of a promise nobody awaits *)

#[export] Instance Out_eq_dec : EqDecision Out.
Proof. solve_decision. Defined.

Inductive Prog (Q B S A : Type) : Type :=
| Ret (a : A)
| Throw (e : Err)
| Update (f : S -> S) (k : Prog Q B S A)
| Emit (o : Out) (k : Prog Q B S A)
| Fetch (r : Request Q) (k : Response B -> Prog Q B S A).
Arguments Ret {Q B S A}.
Arguments Throw {Q B S A}.
Arguments Update {Q B S A}.
Arguments Emit {Q B S A}.
Arguments Fetch {Q B S A}.

Section Monad.
Context {Q B S : Type}.
Abbreviation P := (Prog Q B S).

Fixpoint bind {A C} (p : P A) (f : A -> P C) : P C :=
  match p with
  | Ret a => f a
  | Throw e => Throw e
  | Update g k => Update g (bind k f)
  | Emit o k => Emit o (bind k f)
  | Fetch r k => Fetch r (fun x => bind (k x) f)
  end.

(** [try { p } catch (e) { h(e) }] *)
Fixpoint catch_ {A} (p : P A) (h : Err -> P A) : P A :=
  match p with
  | Ret a => Ret a
  | Throw e => h e
  | Update g k => Update g (catch_ k h)
  | Emit o k => Emit o (catch_ k h)
  | Fetch r k => Fetch r (fun x => catch_ (k x) h)
  end.

(** [try { p } finally { q }] *)
Definition finally_ {A} (p : P A) (q : P unit) : P A :=
  bind (catch_ (bind p (fun a => Ret (inl a))) (fun e => Ret (inr e)))
    (fun r => bind q (fun _ => match r with inl a => Ret a | inr e => Throw e end)).

Definition set (f : S -> S) : P unit := Update f (Ret tt).
Definition emit (o : Out) : P unit := Emit o (Ret tt).

(** Calling an async function without awaiting it, as the last thing the
    caller does: its rejection reaches nobody and is reported as
    unhandled. *)
Definition detach (p : P unit) : P unit := catch_ p (fun e => emit (Unhandled e)).

Definition is_2xx (st : Z) : bool := (200 <=? st)%Z && (st <? 300)%Z.

(** [await axios(r)]: resolves with status and body on a 2xx reply. *)
Definition axios (r : Request Q) : P (Z * B) :=
  Fetch r (fun resp =>
    match resp with
    | NetworkFailure => Throw (AxiosError None)
    | Reply st b => if is_2xx st then Ret (st, b) else Throw (AxiosError (Some st))
    end).

(** [await fetch(r)]: resolves on every reply; [ok] is [response.ok]. *)
Definition fetch (r : Request Q) : P (Z * B) :=
  Fetch r (fun resp =>
    match resp with
    | NetworkFailure => Throw FetchTypeError
    | Reply st b => Ret (st, b)
    end).

Definition ok (st : Z) : bool := is_2xx st.

(** [await response.json()]: a body is [Some v] when it parses. *)
Definition json {X} (b : option X) : P X :=
  match b with Some v => Ret v | None => Throw JsonSyntaxError end.
(** The body [await axios(r)] resolves with, or [None] when it rejects. *)
Definition axios_ok (resp : Response B) : option B :=
  match resp with
  | Reply st b => if is_2xx st then Some b else None
  | NetworkFailure => None
  end.
End Monad.

Declare Scope prog_scope.
Delimit Scope prog_scope with prog.
Notation "x <- p ;; k" := (bind p (fun x => k))
  (at level 100, p at next level, right associativity) : prog_scope.
Notation "p ;; k" := (bind p (fun _ => k))
  (at level 100, right associativity) : prog_scope.

(** ** Sequential semantics *)

Inductive Outcome (A : Type) := Done (a : A) | Failed (e : Err).
Arguments Done {A}.
Arguments Failed {A}.

Record Run (Q S A : Type) := mkRun {
  outcome : Outcome A;
  final : S;
  emitted : list Out;
  sent : list (Request Q)
}.
Arguments mkRun {Q S A}.
Arguments outcome {Q S A}.
Arguments final {Q S A}.
Arguments emitted {Q S A}.
Arguments sent {Q S A}.

Section Run.
Context {Q B S : Type} (srv : Request Q -> Response B).

Fixpoint run {A} (p : Prog Q B S A) (s : S) : Run Q S A :=
  match p with
  | Ret a => mkRun (Done a) s [] []
  | Throw e => mkRun (Failed e) s [] []
  | Update f k => run k (f s)
  | Emit o k => let r := run k s in mkRun (outcome r) (final r) (o :: emitted r) (sent r)
  | Fetch q k => let r := run (k (srv q)) s in mkRun (outcome r) (final r) (emitted r) (q :: sent r)
  end.

(** Sequencing two runs: outputs and requests are concatenated. *)
Definition then_run {A C} (r1 : Run Q S A) (r2 : Run Q S C) : Run Q S C :=
  mkRun (outcome r2) (final r2) (emitted r1 ++ emitted r2) (sent r1 ++ sent r2).

Definition fail_run {A C} (r : Run Q S A) (e : Err) : Run Q S C :=
  mkRun (Failed e) (final r) (emitted r) (sent r).

Lemma run_bind {A C} (p : Prog Q B S A) (f : A -> Prog Q B S C) s :
  run (bind p f) s =
    let r := run p s in
    match outcome r with
    | Done a => then_run r (run (f a) (final r))
    | Failed e => fail_run r e
    end.
Proof.
  revert s. induction p as [a|e|g k IH|o k IH|q k IH]; intros s; simpl.
  - by destruct (run (f a) s).
  - done.
  - apply IH.
  - rewrite IH. destruct (run k s) as [[a|e] fs em se]; simpl; [|done].
    by destruct (run (f a) fs).
  - rewrite IH. destruct (run (k (srv q)) s) as [[a|e] fs em se]; simpl; [|done].
    by destruct (run (f a) fs).
Qed.

Lemma run_catch {A} (p : Prog Q B S A) (h : Err -> Prog Q B S A) s :
  run (catch_ p h) s =
    let r := run p s in
    match outcome r with
    | Done a => r
    | Failed e => then_run r (run (h e) (final r))
    end.
Proof.
  revert s. induction p as [a|e|g k IH|o k IH|q k IH]; intros s; simpl.
  - done.
  - by destruct (run (h e) s).
  - apply IH.
  - rewrite IH. destruct (run k s) as [[a|e] fs em se]; simpl; [done|].
    by destruct (run (h e) fs).
  - rewrite IH. destruct (run (k (srv q)) s) as [[a|e] fs em se]; simpl; [done|].
    by destruct (run (h e) fs).
Qed.

Lemma run_set s f : run (set f) s = mkRun (Done tt) (f s) [] [].
Proof. reflexivity. Qed.
End Run.

(** ** Observational equivalence *)

Definition prog_equiv {Q B S A} (p1 p2 : Prog Q B S A) : Prop :=
  forall srv s, run srv p1 s = run srv p2 s.

Infix "≡p" := prog_equiv (at level 70) : prog_scope.
Open Scope prog_scope.

#[export] Instance prog_equiv_equivalence {Q B S A} : Equivalence (@prog_equiv Q B S A).
Proof.
  split; red; unfold prog_equiv; [done | by intros ?? H ?? | by intros ??? H1 H2 ??; rewrite H1].
Qed.

#[export] Instance bind_proper {Q B S A C} :
  Proper (prog_equiv ==> pointwise_relation A prog_equiv ==> prog_equiv)
    (@bind Q B S A C).
Proof.
  intros p1 p2 Hp f1 f2 Hf srv s. rewrite !run_bind, Hp.
  destruct (run srv p2 s) as [[a|e] fs em se]; simpl; [by rewrite Hf | done].
Qed.

#[export] Instance catch_proper {Q B S A} :
  Proper (prog_equiv ==> pointwise_relation Err prog_equiv ==> prog_equiv)
    (@catch_ Q B S A).
Proof.
  intros p1 p2 Hp h1 h2 Hh srv s. rewrite !run_catch, Hp.
  destruct (run srv p2 s) as [[a|e] fs em se]; simpl; [done | by rewrite Hh].
Qed.

Section Laws.
Context {Q B S : Type}.

Lemma bind_ret_l {A C} (a : A) (f : A -> Prog Q B S C) : bind (Ret a) f = f a.
Proof. reflexivity. Qed.

Lemma bind_ret_r {A} (p : Prog Q B S A) : bind p Ret ≡p p.
Proof.
  intros srv s. revert s. induction p; intros s; simpl; rewrite ?IHp, ?H; done.
Qed.

Lemma bind_assoc {A C D} (p : Prog Q B S A) (f : A -> Prog Q B S C) (g : C -> Prog Q B S D) :
  bind (bind p f) g ≡p bind p (fun x => bind (f x) g).
Proof.
  intros srv s. revert s. induction p; intros s; simpl; rewrite ?IHp, ?H; done.
Qed.

Lemma catch_ret {A} (a : A) (h : Err -> Prog Q B S A) : catch_ (Ret a) h = Ret a.
Proof. reflexivity. Qed.

Lemma catch_throw {A} e (h : Err -> Prog Q B S A) : catch_ (Throw e) h = h e.
Proof. reflexivity. Qed.
End Laws.

#[export] Hint Rewrite @run_bind @run_catch : jp_rw.
