(* ===== verification/Runtime.v ===== *)
(** * Runtime: a React function component as a transition system

    A page of the front end is a React function component: its state is
    changed by state setters, user events run handlers, and after every
    commit of a render React runs the [useEffect] callbacks whose
    dependency arrays changed (all of them at mount). Async functions
    started by handlers and effects suspend on their requests; responses
    come back in any order, which is where the code's races live.

    [Component] is the interface a page implements: its initial state,
    the effects to run at a commit given the previously committed state
    ([None] at mount) and the new one, the events its JSX offers in a
    state, and the handler of each event. [World] is the running page:
    current state, last committed state, pending requests with the
    continuation awaiting each one, outputs and the requests sent.
    [step] has three rules: a user event on the committed render (its
    handler is the closure of that render, so it reads the committed
    state; React flushes pending updates before a discrete event), the
    delivery of the response to one pending request (any of them), and a
    render commit.

    [advance] runs a thread up to its first [await]; a rejection that
    reaches the top of a thread is an unhandled rejection. The adequacy
    lemma [advance_run] shows that delivering a single thread's responses
    one after the other reaches exactly what the sequential [run] of
    [Async] computes, so component theorems may be stated on [run]. *)

From stdpp Require Import base list strings relations.
From Stdlib Require Import ZArith String.
From S2P Require Import Prelude Async.

Class Component (Q B S Ev : Type) := {
  comp_init : S;
  comp_effects : option S -> S -> list (Prog Q B S unit);
  comp_offered : Ev -> S -> bool;
  comp_handle : Ev -> S -> Prog Q B S unit
}.

Record World (Q B S : Type) := mkWorld {
  w_state : S;
  w_rendered : option S;
  w_pending : list (Request Q * (Response B -> Prog Q B S unit));
  w_out : list Out;
  w_sent : list (Request Q)
}.
Arguments mkWorld {Q B S}.
Arguments w_state {Q B S}.
Arguments w_rendered {Q B S}.
Arguments w_pending {Q B S}.
Arguments w_out {Q B S}.
Arguments w_sent {Q B S}.

Section Runtime.
Context {Q B S Ev : Type} `{!Component Q B S Ev}.
Abbreviation Thread := (Prog Q B S unit).
Abbreviation W := (World Q B S).
Implicit Types (w : W) (t : Thread).

Definition with_state (s : S) w : W :=
  mkWorld s (w_rendered w) (w_pending w) (w_out w) (w_sent w).
Definition with_out (o : list Out) w : W :=
  mkWorld (w_state w) (w_rendered w) (w_pending w) (w_out w ++ o) (w_sent w).
Definition with_pending (p : list (Request Q * (Response B -> Thread))) w : W :=
  mkWorld (w_state w) (w_rendered w) p (w_out w) (w_sent w).
Definition with_rendered (r : option S) w : W :=
  mkWorld (w_state w) r (w_pending w) (w_out w) (w_sent w).

(** Run the synchronous prefix of a thread. *)
Fixpoint advance t w : W :=
  match t with
  | Ret _ => w
  | Throw e => with_out [Unhandled e] w
  | Update f k => advance k (with_state (f (w_state w)) w)
  | Emit o k => advance k (with_out [o] w)
  | Fetch r k =>
      mkWorld (w_state w) (w_rendered w) (w_pending w ++ [(r, k)]) (w_out w) (w_sent w ++ [r])
  end.

Definition spawn_all (ts : list Thread) w : W := fold_left (fun w t => advance t w) ts w.

Definition mount : W := mkWorld comp_init None [] [] [].

Inductive step (srv : Request Q -> Response B) : W -> W -> Prop :=
| step_event ev w :
    w_rendered w = Some (w_state w) ->
    comp_offered ev (w_state w) = true ->
    step srv w (advance (comp_handle ev (w_state w)) w)
| step_deliver w i r k :
    w_pending w !! i = Some (r, k) ->
    step srv w (advance (k (srv r)) (with_pending (delete i (w_pending w)) w))
| step_render w :
    w_rendered w <> Some (w_state w) ->
    step srv w (spawn_all (comp_effects (w_rendered w) (w_state w))
                  (with_rendered (Some (w_state w)) w)).

Definition reachable srv (w : W) : Prop := rtc (step srv) mount w.

(** The world a sequential run of a thread leads to. *)
Definition unhandled_of {A} (o : Outcome A) : list Out :=
  match o with Done _ => [] | Failed e => [Unhandled e] end.

Definition after_run (r : Run Q S unit) w : W :=
  mkWorld (final r) (w_rendered w) (w_pending w)
    (w_out w ++ emitted r ++ unhandled_of (outcome r)) (w_sent w ++ sent r).

(** Adequacy: with nothing else pending, the runtime delivers the
    thread's responses one by one and ends where [run] ends. *)
Lemma advance_run srv t w :
  w_pending w = [] ->
  rtc (step srv) (advance t w) (after_run (run srv t (w_state w)) w).
Proof.
  revert w. induction t as [[]|e|f k IH|o k IH|q k IH]; intros w Hp.
  - destruct w; unfold after_run; simpl in *. rewrite !app_nil_r. apply rtc_refl.
  - destruct w; unfold after_run; simpl in *. rewrite app_nil_r. apply rtc_refl.
  - destruct w as [s rd pd o sn]; simpl in *.
    exact (IH (mkWorld (f s) rd pd o sn) Hp).
  - destruct w as [s rd pd o' sn]; simpl in *.
    specialize (IH (mkWorld s rd pd (o' ++ [o]) sn) Hp).
    unfold after_run in *; simpl in *. rewrite <- app_assoc in IH. exact IH.
  - simpl. eapply rtc_l.
    + apply (step_deliver srv _ 0 q k). by rewrite Hp.
    + destruct w as [s rd pd o sn]; simpl in *; subst pd.
      specialize (IH (srv q) (mkWorld s rd [] o (sn ++ [q])) eq_refl).
      unfold with_pending; simpl.
      unfold after_run in *; simpl in *. rewrite <- app_assoc in IH. exact IH.
Qed.
(** ** State invariants *)

(** [preserves R t]: every state update [t] can perform, whatever the
    responses, keeps [R]. *)
Inductive preserves {A} (R : S -> Prop) : Prog Q B S A -> Prop :=
| pres_ret a : preserves R (Ret a)
| pres_throw e : preserves R (Throw e)
| pres_update f k : (forall s, R s -> R (f s)) -> preserves R k -> preserves R (Update f k)
| pres_emit o k : preserves R k -> preserves R (Emit o k)
| pres_fetch r k : (forall x, preserves R (k x)) -> preserves R (Fetch r k).

Lemma preserves_bind {A C} R (p : Prog Q B S A) (f : A -> Prog Q B S C) :
  preserves R p -> (forall a, preserves R (f a)) -> preserves R (bind p f).
Proof.
  induction 1; intros Hf; simpl; [apply Hf | constructor | constructor; auto ..].
Qed.

Lemma preserves_catch {A} R (p : Prog Q B S A) h :
  preserves R p -> (forall e, preserves R (h e)) -> preserves R (catch_ p h).
Proof.
  induction 1; intros Hh; simpl; [constructor | apply Hh | constructor; auto ..].
Qed.

Lemma preserves_set R f : (forall s, R s -> R (f s)) -> preserves R (set f).
Proof. repeat constructor; auto. Qed.

Lemma preserves_emit R o : preserves R (emit o).
Proof. repeat constructor. Qed.

Lemma preserves_finally {A} R (p : Prog Q B S A) q :
  preserves R p -> preserves R q -> preserves R (finally_ p q).
Proof.
  intros Hp Hq. unfold finally_. apply preserves_bind.
  - apply preserves_catch; [apply preserves_bind; [done | constructor] | constructor].
  - intros [a|e]; apply preserves_bind; [done | constructor | done | constructor].
Qed.

Lemma preserves_detach R (p : Prog Q B S unit) : preserves R p -> preserves R (detach p).
Proof. intros Hp. apply preserves_catch; [done | intros; apply preserves_emit]. Qed.

Lemma preserves_axios R r : preserves R (axios r).
Proof. constructor. intros [|st b]; [constructor|]. simpl. destruct (is_2xx st); constructor. Qed.

Lemma preserves_fetch R r : preserves R (fetch r).
Proof. constructor. intros [|st b]; constructor. Qed.

Lemma preserves_json {X} R (b : option X) : preserves R (json b).
Proof. destruct b; constructor. Qed.

Definition pending_ok (R : S -> Prop) (w : W) : Prop :=
  Forall (fun e => forall x, preserves R (e.2 x)) (w_pending w).

Lemma advance_preserves R t w :
  preserves R t -> R (w_state w) -> pending_ok R w ->
  R (w_state (advance t w)) /\ pending_ok R (advance t w).
Proof.
  intros Ht. revert w. induction Ht; intros w Hs Hp; simpl; auto.
  - apply IHHt; simpl; [by apply H | done].
  - split; [done|]. unfold pending_ok; simpl. apply Forall_app; split; [done|].
    repeat constructor. simpl. auto.
Qed.

Lemma spawn_all_preserves R ts w :
  Forall (preserves R) ts -> R (w_state w) -> pending_ok R w ->
  R (w_state (spawn_all ts w)) /\ pending_ok R (spawn_all ts w).
Proof.
  intros Hts. revert w. induction Hts as [|t ts Ht Hts IH]; intros w Hs Hp; [done|].
  simpl. destruct (advance_preserves R t w Ht Hs Hp). by apply IH.
Qed.

(** [preserves_from R s t]: run from the state [s], the synchronous prefix
    of [t] ends in a state satisfying [R] (the states in between are not
    observed: nothing else runs before the first [await]), and every
    continuation it leaves pending preserves [R]. A handler runs from the
    committed state it closes over, so its prefix may rely on that state. *)
Inductive preserves_from (R : S -> Prop) : S -> Thread -> Prop :=
| pf_ret s a : R s -> preserves_from R s (Ret a)
| pf_throw s e : R s -> preserves_from R s (Throw e)
| pf_update s f k : preserves_from R (f s) k -> preserves_from R s (Update f k)
| pf_emit s o k : preserves_from R s k -> preserves_from R s (Emit o k)
| pf_fetch s r k : R s -> (forall x, preserves R (k x)) -> preserves_from R s (Fetch r k).

Lemma preserves_from_of R s t : preserves R t -> R s -> preserves_from R s t.
Proof. intros Ht. revert s. induction Ht; intros s0 Hs; constructor; auto. Qed.

Lemma advance_preserves_from R t w :
  preserves_from R (w_state w) t -> pending_ok R w ->
  R (w_state (advance t w)) /\ pending_ok R (advance t w).
Proof.
  intros Ht. remember (w_state w) as s0 eqn:Hs0. revert w Hs0.
  induction Ht as [s a Hs|s e Hs|s f k _ IH|s o k _ IH|s r k Hs Hk];
    intros w Hs0 Hp; subst; simpl.
  - by split.
  - by split.
  - by apply IH.
  - by apply IH.
  - split; [done|]. unfold pending_ok; simpl. apply Forall_app; split; [done|].
    repeat constructor. simpl. auto.
Qed.

(** One step keeps a predicate of the state and of the pending
    continuations that every offered handler (from the state it closes
    over) and every effect preserves. *)
Lemma step_preserves R srv w w' :
  (forall ev s, R s -> comp_offered ev s = true -> preserves_from R s (comp_handle ev s)) ->
  (forall prev s, R s -> Forall (preserves R) (comp_effects prev s)) ->
  R (w_state w) -> pending_ok R w ->
  step srv w w' -> R (w_state w') /\ pending_ok R w'.
Proof.
  intros Hev Heff Hs Hp Hstep.
  destruct Hstep as [ev w _ Hoff|w i r k Hi|w Hne].
  - by apply advance_preserves_from; [apply Hev|].
  - apply advance_preserves; [|done|].
    + unfold pending_ok in Hp. rewrite Forall_lookup in Hp. exact (Hp i _ Hi (srv r)).
    + unfold pending_ok in *. simpl. by apply Forall_delete.
  - apply spawn_all_preserves; [by apply Heff | done | done].
Qed.

(** Invariance principle: such a predicate holds along every execution. *)
Lemma invariant_sync R srv w w' :
  (forall ev s, R s -> comp_offered ev s = true -> preserves_from R s (comp_handle ev s)) ->
  (forall prev s, R s -> Forall (preserves R) (comp_effects prev s)) ->
  R (w_state w) -> pending_ok R w ->
  rtc (step srv) w w' -> R (w_state w') /\ pending_ok R w'.
Proof.
  intros Hev Heff Hs0 Hp0 Hsteps. revert Hs0 Hp0.
  induction Hsteps as [|w1 w2 w3 Hstep _ IH]; [done|]. intros Hs Hp.
  destruct (step_preserves R srv w1 w2 Hev Heff Hs Hp Hstep). by apply IH.
Qed.

Lemma invariant_from R srv w w' :
  (forall ev s, R s -> comp_offered ev s = true -> preserves R (comp_handle ev s)) ->
  (forall prev s, R s -> Forall (preserves R) (comp_effects prev s)) ->
  R (w_state w) -> pending_ok R w ->
  rtc (step srv) w w' -> R (w_state w') /\ pending_ok R w'.
Proof.
  intros Hev. apply invariant_sync. intros ev s Hs Hoff. apply preserves_from_of; auto.
Qed.

Lemma state_invariant_sync R srv w :
  R comp_init ->
  (forall ev s, R s -> comp_offered ev s = true -> preserves_from R s (comp_handle ev s)) ->
  (forall prev s, R s -> Forall (preserves R) (comp_effects prev s)) ->
  reachable srv w -> R (w_state w).
Proof.
  intros Hinit Hev Heff Hreach.
  apply (invariant_sync R srv mount w Hev Heff Hinit); [constructor | exact Hreach].
Qed.

Lemma state_invariant R srv w :
  R comp_init ->
  (forall ev s, R s -> comp_offered ev s = true -> preserves R (comp_handle ev s)) ->
  (forall prev s, R s -> Forall (preserves R) (comp_effects prev s)) ->
  reachable srv w -> R (w_state w).
Proof.
  intros Hinit Hev. apply state_invariant_sync; [done|].
  intros ev s Hs Hoff. apply preserves_from_of; auto.
Qed.
(** [resumes R t]: whatever [t] does before its first [await], every
    continuation it leaves pending keeps [R]. *)
Inductive resumes (R : S -> Prop) : Thread -> Prop :=
| res_ret a : resumes R (Ret a)
| res_throw e : resumes R (Throw e)
| res_update f k : resumes R k -> resumes R (Update f k)
| res_emit o k : resumes R k -> resumes R (Emit o k)
| res_fetch r k : (forall x, preserves R (k x)) -> resumes R (Fetch r k).

Lemma preserves_resumes R t : preserves R t -> resumes R t.
Proof. induction 1; constructor; auto. Qed.

Lemma advance_resumes R t w :
  resumes R t -> pending_ok R w -> pending_ok R (advance t w).
Proof.
  intros Ht. revert w.
  induction Ht as [a|e|f k _ IH|o k _ IH|r k Hk]; intros w Hp; simpl; auto.
  unfold pending_ok; simpl. apply Forall_app; split; [done|]. repeat constructor. auto.
Qed.

Lemma spawn_all_resumes R ts w :
  Forall (resumes R) ts -> pending_ok R w -> pending_ok R (spawn_all ts w).
Proof.
  intros Hts. revert w. induction Hts as [|t ts Ht _ IH]; intros w Hp; simpl; [done|].
  apply IH. by apply advance_resumes.
Qed.

(** Every continuation pending in a reachable world keeps [R] when the
    handlers and effects leave only such continuations. *)
Lemma reachable_pending_ok R srv w :
  (forall ev s, comp_offered ev s = true -> resumes R (comp_handle ev s)) ->
  (forall prev s, Forall (resumes R) (comp_effects prev s)) ->
  reachable srv w -> pending_ok R w.
Proof.
  intros Hev Heff Hreach. unfold reachable in Hreach.
  assert (H0 : pending_ok R mount) by constructor. revert H0.
  induction Hreach as [|w1 w2 w3 Hstep _ IH]; [done|]. intros Hp. apply IH.
  destruct Hstep as [ev w _ Hoff|w i r k Hi|w Hne].
  - by apply advance_resumes; [apply Hev|].
  - apply advance_resumes.
    + apply preserves_resumes. unfold pending_ok in Hp. rewrite Forall_lookup in Hp.
      exact (Hp i _ Hi (srv r)).
    + unfold pending_ok in *. simpl. by apply Forall_delete.
  - by apply spawn_all_resumes.
Qed.

(** A user event followed by the commit of the render it causes. *)
Definition event_then_render (ev : Ev) w : W :=
  let w1 := advance (comp_handle ev (w_state w)) w in
  spawn_all (comp_effects (w_rendered w1) (w_state w1)) (with_rendered (Some (w_state w1)) w1).

Lemma advance_rendered t w : w_rendered (advance t w) = w_rendered w.
Proof. revert w. induction t as [| |f k IH|o k IH|r k]; intros w; simpl; rewrite ?IH; reflexivity. Qed.

Lemma event_then_render_steps srv ev w :
  w_rendered w = Some (w_state w) -> comp_offered ev (w_state w) = true ->
  w_state (advance (comp_handle ev (w_state w)) w) <> w_state w ->
  rtc (step srv) w (event_then_render ev w).
Proof.
  intros Hr Hoff Hne. eapply rtc_l; [by apply step_event|].
  eapply rtc_l; [apply step_render | apply rtc_refl].
  rewrite advance_rendered, Hr. congruence.
Qed.
(** ** Draining the pending requests

    With the server fixed, a thread awaits finitely many responses:
    [fetch_depth srv t] counts them. The [weight] of a world, the
    responses all its pending continuations still await, drops by one
    with every delivery, so delivering the oldest request over and over
    empties the queue in exactly [weight] steps. *)
Fixpoint fetch_depth {A} (srv : Request Q -> Response B) (t : Prog Q B S A) : nat :=
  match t with
  | Ret _ | Throw _ => 0
  | Update _ k | Emit _ k => fetch_depth srv k
  | Fetch r k => Datatypes.S (fetch_depth srv (k (srv r)))
  end.

Definition weight srv w : nat :=
  sum_list (map (fun e => Datatypes.S (fetch_depth srv (e.2 (srv e.1)))) (w_pending w)).

Lemma advance_weight srv t w : weight srv (advance t w) = weight srv w + fetch_depth srv t.
Proof.
  revert w. induction t as [| |f k IH|o k IH|r k IH]; intros w; simpl; rewrite ?IH; try done;
    unfold weight; simpl; [lia..|].
  rewrite List.map_app, sum_list_with_app. simpl. lia.
Qed.

(** A thread that awaits nothing leaves the queue and the requests as
    they are. *)
Lemma advance_nofetch srv t w :
  fetch_depth srv t = 0 -> w_pending (advance t w) = w_pending w /\ w_sent (advance t w) = w_sent w.
Proof.
  revert w. induction t as [| |f k IH|o k IH|r k IH]; intros w Ht; simpl in *;
    [done | done | exact (IH (with_state _ w) Ht) | exact (IH (with_out _ w) Ht) | lia].
Qed.

Lemma drain_n srv n w :
  weight srv w = n ->
  exists w', rtc (step srv) w w' /\ w_pending w' = [] /\ w_rendered w' = w_rendered w /\
    forall R, R (w_state w) -> pending_ok R w -> R (w_state w').
Proof.
  revert w. induction n as [|n IH]; intros w Hw.
  - exists w. split_and!; [apply rtc_refl | | done | done].
    destruct (w_pending w) as [|e pd] eqn:Hp; [done|]. unfold weight in Hw. rewrite Hp in Hw.
    simpl in Hw. lia.
  - destruct (w_pending w) as [|[r k] pd] eqn:Hp; [unfold weight in Hw; rewrite Hp in Hw; done|].
    set (w1 := advance (k (srv r)) (with_pending (delete 0 (w_pending w)) w)).
    destruct (IH w1) as (w' & Hs & Hp' & Hr' & HR).
    { unfold w1. rewrite advance_weight. unfold weight in *. rewrite Hp in Hw |- *. simpl in *. lia. }
    exists w'. split_and!; [| done | by rewrite Hr'; unfold w1; rewrite advance_rendered |].
    + eapply rtc_l; [|exact Hs]. apply (step_deliver srv w 0 r k). by rewrite Hp.
    + intros R HRw Hok. unfold pending_ok in Hok. rewrite Hp in Hok.
      apply Forall_cons in Hok as [Hk Hok].
      destruct (advance_preserves R (k (srv r)) (with_pending (delete 0 (w_pending w)) w))
        as [H1 H2]; [apply Hk | done | unfold pending_ok; simpl; by rewrite Hp |].
      by apply HR.
Qed.

(** Delivering every pending response terminates: from any world the
    runtime reaches one with nothing pending, without rendering, and
    every state property the pending continuations keep still holds. *)
Lemma drain srv w :
  exists w', rtc (step srv) w w' /\ w_pending w' = [] /\ w_rendered w' = w_rendered w /\
    forall R, R (w_state w) -> pending_ok R w -> R (w_state w').
Proof. by apply (drain_n srv (weight srv w)). Qed.
Lemma spawn_all_rendered ts w : w_rendered (spawn_all ts w) = w_rendered w.
Proof. revert w. induction ts as [|t ts IH]; intros w; simpl; [done|]. by rewrite IH, advance_rendered. Qed.

Lemma spawn_all_nil w : spawn_all [] w = w.
Proof. done. Qed.

(** The requests sent so far are never taken back: every step extends
    [w_sent]. *)
Lemma advance_sent t w : w_sent w `prefix_of` w_sent (advance t w).
Proof.
  revert w. induction t as [| |f k IH|o k IH|r k IH]; intros w; simpl;
    [done | done | exact (IH (with_state _ w)) | exact (IH (with_out _ w)) | by apply prefix_app_r].
Qed.

Lemma spawn_all_sent ts w : w_sent w `prefix_of` w_sent (spawn_all ts w).
Proof. revert w. induction ts as [|t ts IH]; intros w; simpl; [done|]. etrans; [apply advance_sent | apply IH]. Qed.

Lemma step_sent srv w w' : step srv w w' -> w_sent w `prefix_of` w_sent w'.
Proof. destruct 1; [apply advance_sent | apply (advance_sent _ (with_pending _ w)) | apply (spawn_all_sent _ (with_rendered _ w))]. Qed.

(** A page settles when its effects depend on a projection [dep] of the
    state that no thread changes: delivering everything, committing the
    render, delivering what its effects sent and committing again reaches
    a world with nothing pending and the current state rendered. *)
Lemma settles `{!EqDecision S} {D} (dep : S -> D) srv w :
  (forall r s, dep r = dep s -> comp_effects (Some r) s = []) ->
  (forall prev s d, Forall (preserves (fun x => dep x = d)) (comp_effects prev s)) ->
  (forall d, pending_ok (fun x => dep x = d) w) ->
  exists w', rtc (step srv) w w' /\ w_pending w' = [] /\ w_rendered w' = Some (w_state w').
Proof.
  intros Hquiet Heff Hok.
  destruct (drain srv w) as (w1 & H1 & Hp1 & _ & _).
  destruct (decide (w_rendered w1 = Some (w_state w1))) as [Hr1|Hr1]; [by exists w1|].
  set (d := dep (w_state w1)).
  set (w2 := spawn_all (comp_effects (w_rendered w1) (w_state w1)) (with_rendered (Some (w_state w1)) w1)).
  destruct (spawn_all_preserves (fun x => dep x = d) (comp_effects (w_rendered w1) (w_state w1))
              (with_rendered (Some (w_state w1)) w1)) as [Hd2 Hok2];
    [apply Heff | done | unfold pending_ok; simpl; by rewrite Hp1 |].
  destruct (drain srv w2) as (w3 & H3 & Hp3 & Hr3 & HR3).
  assert (Hd3 : dep (w_state w3) = d) by (apply HR3; [exact Hd2 | exact Hok2]).
  assert (Hr3' : w_rendered w3 = Some (w_state w1)).
  { rewrite Hr3. unfold w2. by rewrite spawn_all_rendered. }
  assert (Hs : rtc (step srv) w w3).
  { etrans; [exact H1|]. eapply rtc_l; [by apply step_render | exact H3]. }
  destruct (decide (w_rendered w3 = Some (w_state w3))) as [Hr|Hr]; [by exists w3|].
  exists (spawn_all (comp_effects (w_rendered w3) (w_state w3)) (with_rendered (Some (w_state w3)) w3)).
  assert (He : comp_effects (w_rendered w3) (w_state w3) = []).
  { rewrite Hr3'. apply Hquiet. by rewrite Hd3. }
  pose proof (step_render srv w3 Hr) as Hst. rewrite He in Hst |- *.
  split_and!; [| done | done]. etrans; [exact Hs|]. by eapply rtc_l; [exact Hst|].
Qed.
End Runtime.

(** Reduce [preserves R p] to the obligations [R s -> R (f s)] of the
    state updates [f] of [p]. *)
Ltac prove_preserves :=
  repeat match goal with
  | |- preserves _ (bind _ _) => apply preserves_bind; [|intros ?]
  | |- preserves _ (catch_ _ _) => apply preserves_catch; [|intros ?]
  | |- preserves _ (finally_ _ _) => apply preserves_finally
  | |- preserves _ (detach _) => apply preserves_detach
  | |- preserves _ (set _) => apply preserves_set; intros ? ?
  | |- preserves _ (emit _) => apply preserves_emit
  | |- preserves _ (axios _) => apply preserves_axios
  | |- preserves _ (fetch _) => apply preserves_fetch
  | |- preserves _ (json _) => apply preserves_json
  | |- preserves _ (Update _ _) => apply pres_update; [intros ? ?|]
  | |- preserves _ (Emit _ _) => apply pres_emit
  | |- preserves _ (Ret _) => apply pres_ret
  | |- preserves _ (Throw _) => apply pres_throw
  | |- preserves _ (if ?b then _ else _) => destruct b
  | |- preserves _ (match ?x with _ => _ end) => destruct x
  end.

(** Reduce [preserves_from R s p] along the state updates of a handler's
    synchronous prefix; what remains are [R] of the states it reaches and
    [preserves] of the threads it calls. *)
Ltac prove_preserves_from :=
  repeat match goal with
  | |- preserves_from _ _ (bind (set _) _) => cbn [bind set]; apply pf_update
  | |- preserves_from _ _ (set _) => apply pf_update, pf_ret
  | |- preserves_from _ _ (Update _ _) => apply pf_update
  | |- preserves_from _ _ (Emit _ _) => apply pf_emit
  | |- preserves_from _ _ (Ret _) => apply pf_ret
  end.

(** Replaying a concrete execution: each tactic takes one step of the
    runtime and normalises the world reached. *)
Ltac norm_world :=
  match goal with |- rtc _ ?a _ => let a' := eval vm_compute in a in change a with a' end.
Ltac run_render := eapply rtc_l; [apply step_render; vm_compute; congruence | norm_world].
Ltac run_deliver i := eapply rtc_l; [eapply (step_deliver _ _ i); reflexivity | norm_world].
Ltac run_event ev := eapply rtc_l; [apply (step_event _ ev); reflexivity | norm_world].

Arguments mount {Q B S Ev _}.
Arguments reachable {Q B S Ev _}.
Arguments step {Q B S Ev _}.
