(* ===== verification/Model.v ===== *)
(** * Model: the entities the pages exchange with the API

    One Module per TypeScript [type]/[interface] of the sources (or per
    shape the JSX reads), holding a Record with the source's field names.
    JavaScript numbers that hold identifiers, counts and salaries are
    integers [Z]; dates stay the strings the API sends. *)

From stdpp Require Import base list strings.
From Stdlib Require Import ZArith String.
From S2P Require Import Prelude.

(** [interface Blog] of [Pages/Admin/BlogPage.tsx] and [BlogEditPage.tsx];
    the public blog pages read the same fields. *)
Module Blog.
Record Blog := mkBlog {
  id : Z;
  title : string;
  content : string;
  isActive : Z;
  imageUrl : string;
  categoryId : Z;
  categories_name : string;
  createdAt : string;
  updatedAt : string
}.

#[global] Instance eq_dec : EqDecision Blog.
Proof. solve_decision. Defined.
End Blog.

(** [interface Category] of [Pages/Admin/CategoryPage.tsx]. *)
Module Category.
Record Category := mkCategory {
  id : Z;
  name : string;
  created_at : string;
  updated_at : string
}.

#[global] Instance eq_dec : EqDecision Category.
Proof. solve_decision. Defined.
End Category.

(** [interface Industry] of [Pages/Admin/IndustryPage.tsx]. *)
Module Industry.
Record Industry := mkIndustry {
  id : Z;
  name : string
}.

#[global] Instance eq_dec : EqDecision Industry.
Proof. solve_decision. Defined.
End Industry.

(** [type Application] of [Pages/ApplicantList.tsx]. *)
Module Application.
Record Application := mkApplication {
  id : Z;
  vacancy_id : Z;
  first_name : string;
  email : string;
  phone : string;
  status : string;
  job_title : string;
  linkedin : string;
  cv_link : option string;
  created_at : string;
  updated_at : string
}.

#[global] Instance eq_dec : EqDecision Application.
Proof. solve_decision. Defined.
End Application.

(** [type Vacancy] of [Pages/Admin/VacancyViewAdmin.tsx]. *)
Module Vacancy.
Record Vacancy := mkVacancy {
  id : Z;
  companyId : Z;
  categoryId : Z;
  isRemote : bool;
  salary : Z;
  title : string;
  description : string;
  jobType : string;
  seniorityLevel : string;
  city : string;
  country : string;
  state : string;
  jobOverview : list string;
  jobRole : list string;
  isActive : bool;
  createdAt : string;
  updatedAt : string;
  jobResponsibilities : list string;
  youHaveText : list string
}.

#[global] Instance eq_dec : EqDecision Vacancy.
Proof. solve_decision. Defined.
End Vacancy.

(** A row of [GET /vacancies/filter] as [Components/Find-Jobs/FindJobs.jsx]
    renders it. *)
Module Job.
Record Job := mkJob {
  id : Z;
  logo : string;
  companyName : string;
  createdAt : string;
  title : string;
  city : string;
  country : string;
  jobType : string
}.

#[global] Instance eq_dec : EqDecision Job.
Proof. solve_decision. Defined.
End Job.

(** A company as [Components/BrowseSturtups/Browse.jsx] and
    [Components/Find-Jobs/JobDetails.jsx] render it. *)
Module Company.
Record Company := mkCompany {
  id : Z;
  logo : string;
  name : string;
  description : string;
  jobCount : Z;
  remoteStatus : string
}.

#[global] Instance eq_dec : EqDecision Company.
Proof. solve_decision. Defined.
End Company.
