(* ===== verification/BlogList.v ===== *)
(** * BlogList: the public blog list, [Components/Blog/Blogs.jsx]

    State: [selectedCategory] (initially ["All"]), [blogs] (what
    [GET /blogs] returned) and [filteredBlogs] (what is shown). The mount
    effect runs [fetchBlogs]; a second effect, on
    [[selectedCategory, blogs]], recomputes [filteredBlogs] with
    [filterBlogs], the client-side filter evaluator of this view. The
    category chips are [Array.from(new Set(blogs.map(...)))]. *)

From stdpp Require Import base list strings relations.
From Stdlib Require Import ZArith String.
From S2P Require Import Prelude Async Runtime Model.

Module Blogs.
Record State := mkState {
  selectedCategory : string;
  blogs : list Blog.Blog;
  filteredBlogs : list Blog.Blog
}.

Definition initial : State := mkState "All" [] [].

Definition setSelectedCategory (c : string) (s : State) : State :=
  mkState c (blogs s) (filteredBlogs s).
Definition setBlogs (v : list Blog.Blog) (s : State) : State :=
  mkState (selectedCategory s) v (filteredBlogs s).
Definition setFilteredBlogs (v : list Blog.Blog) (s : State) : State :=
  mkState (selectedCategory s) (blogs s) v.

(** The parsed body of [GET /blogs]; [None] when it is not JSON. *)
Abbreviation Body := (option (list Blog.Blog)).
Abbreviation P := (Prog unit Body State).

Definition blogs_url : string := "http://127.0.0.1:8000/api/blogs".

(** [fetchBlogs] of the mount effect (lines 15-28). *)
Definition fetchBlogs : P unit :=
  catch_
    (r <- fetch (GetReq blogs_url) ;;
     if negb (ok (fst r)) then Throw (ThrownError "Failed to fetch blogs") else
     (data <- json (snd r) ;;
      set (setBlogs data) ;;
      set (setFilteredBlogs data)))
    (fun _ => emit (Console "Error fetching blogs:")).

(** The filter of the second effect (lines 34-42). *)
Definition filterBlogs (selectedCategory : string) (blogs : list Blog.Blog) : list Blog.Blog :=
  if selectedCategory === "All" then blogs
  else List.filter (fun blog => Blog.categories_name blog === selectedCategory) blogs.

Definition filterEffect (s : State) : P unit :=
  set (setFilteredBlogs (filterBlogs (selectedCategory s) (blogs s))).

(** The chips of line 54. *)
Definition categoryChips (blogs : list Blog.Blog) : list string :=
  set_from (map Blog.categories_name blogs).

(** [truncateTitle] (lines 10-12). *)
Definition truncateTitle (title : string) : string :=
  if (40 <? String.length title)%nat then String.substring 0 40 title ++ "..." else title.

(** [handleBlogClick] (lines 44-46). *)
Definition handleBlogClick (id : Z) : P unit := emit (Navigate ("/blog/" ++ z_to_string id)).

Inductive Event :=
| ClickAll                 (** the "All" chip *)
| ClickCategory (c : string)
| ClickBlog (id : Z).

Definition offered (ev : Event) (s : State) : bool :=
  match ev with
  | ClickAll => true
  | ClickCategory c => bool_decide (c ∈ categoryChips (blogs s))
  | ClickBlog id => existsb (fun b => Blog.id b =Z= id) (filteredBlogs s)
  end.

Definition handle (ev : Event) (s : State) : P unit :=
  match ev with
  | ClickAll => set (setSelectedCategory "All")
  | ClickCategory c => set (setSelectedCategory c)
  | ClickBlog id => handleBlogClick id
  end.

(** Effects in declaration order; the filter effect re-runs when one of
    its dependencies changed since the last commit. *)
Definition effects (prev : option State) (s : State) : list (P unit) :=
  match prev with
  | None => [fetchBlogs; filterEffect s]
  | Some r =>
      if decide ((selectedCategory r, blogs r) = (selectedCategory s, blogs s))
      then [] else [filterEffect s]
  end.

#[export] Instance component : Component unit Body State Event :=
  {| comp_init := initial; comp_effects := effects;
     comp_offered := offered; comp_handle := handle |}.

(** The continuation [fetchBlogs] leaves pending on its request. *)
Definition fetchBlogs_k : Response Body -> P unit :=
  match fetchBlogs with Fetch _ k => k | _ => fun _ => Ret tt end.

Definition blogs_req : Request unit := GetReq blogs_url.

(** The invariant of the running page, proved by induction on [step]. *)
Definition Inv (w : World unit Body State) : Prop :=
  (w_rendered w = None -> w = mount) /\
  Forall (fun e => e = (blogs_req, fetchBlogs_k)) (w_pending w) /\
  (List.length (w_pending w) <= 1)%nat /\
  (w_pending w <> [] -> blogs (w_state w) = [] /\
     forall r, w_rendered w = Some r -> blogs r = []) /\
  (forall r, w_rendered w = Some r -> blogs r = blogs (w_state w) ->
     filteredBlogs (w_state w) = filterBlogs (selectedCategory r) (blogs r)) /\
  (w_rendered w <> None -> w_sent w = [blogs_req]).

(** ** The filter evaluator *)

Lemma filterBlogs_nil c : filterBlogs c [] = [].
Proof. unfold filterBlogs. by destruct (c === "All"). Qed.

(** C7: [filterBlogs] keeps exactly the blogs of the selected category,
    every blog for "All": no extraneous item, no omission. *)
Theorem filterBlogs_spec c l b :
  In b (filterBlogs c l) <-> In b l /\ (c = "All" \/ Blog.categories_name b = c).
Proof.
  unfold filterBlogs. case_eqb; [naive_solver|].
  rewrite filter_In. case_eqb; naive_solver.
Qed.

(** The filtered list is an order-preserving sub-list of the fetched
    list, and filtering it again changes nothing. *)
Theorem filterBlogs_sublist_idem c l :
  sublist (filterBlogs c l) l /\ filterBlogs c (filterBlogs c l) = filterBlogs c l.
Proof.
  unfold filterBlogs. case_eqb; split; auto using filter_filter_same with jp.
Qed.

Lemma categoryChips_spec l c :
  c ∈ categoryChips l <-> exists b, In b l /\ Blog.categories_name b = c.
Proof.
  unfold categoryChips. rewrite elem_of_set_from, list_elem_of_In, in_map_iff.
  naive_solver.
Qed.

(** The chips are the categories present, each once, and when no
    category is literally named "All", each blog is shown under exactly
    one chip: the chip of its own category. *)
Theorem chips_partition l b c :
  "All" ∉ categoryChips l -> In b l -> c ∈ categoryChips l ->
  NoDup (categoryChips l) /\
  (In b (filterBlogs c l) <-> c = Blog.categories_name b).
Proof.
  intros Hall Hb Hc. split; [apply NoDup_set_from|].
  rewrite filterBlogs_spec.
  assert (c <> "All") by (intros ->; contradiction). naive_solver.
Qed.

Lemma chips_partition_witness :
  let l := [Blog.mkBlog 1 "a" "" 1 "" 7 "Tech" "" ""; Blog.mkBlog 3 "b" "" 1 "" 8 "Health" "" ""] in
  ("All" ∉ categoryChips l /\ In (Blog.mkBlog 1 "a" "" 1 "" 7 "Tech" "" "") l /\
   "Tech" ∈ categoryChips l) /\
  (NoDup (categoryChips l) /\
   (In (Blog.mkBlog 1 "a" "" 1 "" 7 "Tech" "" "") (filterBlogs "Tech" l) <-> "Tech" = "Tech")).
Proof.
  intros l. assert (H : "All" ∉ categoryChips l /\
    In (Blog.mkBlog 1 "a" "" 1 "" 7 "Tech" "" "") l /\ "Tech" ∈ categoryChips l).
  { split; [|split]; [decide_closed | simpl; auto | decide_closed]. }
  split; [exact H|]. destruct H as (H1 & H2 & H3).
  exact (chips_partition l _ "Tech" H1 H2 H3).
Defined.

(** A category named "All" cannot be selected: its chip sets
    [selectedCategory] to the sentinel value and shows every blog,
    including those of other categories. *)
Theorem all_named_category_shows_everything :
  let l := [Blog.mkBlog 1 "a" "" 1 "" 7 "All" "" ""; Blog.mkBlog 2 "b" "" 1 "" 8 "Tech" "" ""] in
  "All" ∈ categoryChips l /\
  filteredBlogs (final (run (fun _ => NetworkFailure)
    (handle (ClickCategory "All") (mkState "Tech" l []) ;; filterEffect (mkState "All" l [])) (mkState "Tech" l [])))
  = l.
Proof. split; [decide_closed | reflexivity]. Qed.

(** ** [fetchBlogs] *)

Definition fetch_error_msg : Out := Console "Error fetching blogs:".

(** What [fetchBlogs] does with the response to its one request. *)
Definition fetchBlogs_effect (resp : Response Body) (s : State) : State * list Out :=
  match resp with
  | Reply st (Some data) =>
      if ok st then (setFilteredBlogs data (setBlogs data s), []) else (s, [fetch_error_msg])
  | _ => (s, [fetch_error_msg])
  end.

(** [fetchBlogs] sends exactly one [GET /blogs], never rejects, and
    either stores the parsed array in both [blogs] and [filteredBlogs]
    (a 2xx reply with a JSON body) or leaves the state as it was and
    logs (a non-2xx status, a body that is not JSON, a network failure). *)
Theorem fetchBlogs_run srv s :
  run srv fetchBlogs s =
    mkRun (Done tt) (fst (fetchBlogs_effect (srv blogs_req) s))
      (snd (fetchBlogs_effect (srv blogs_req) s)) [blogs_req].
Proof.
  unfold fetchBlogs, fetchBlogs_effect, blogs_req. simpl.
  destruct (srv (GetReq blogs_url)) as [|st [data|]]; simpl;
    try destruct (ok st); reflexivity.
Qed.

Lemma advance_fetchBlogs_k resp (w : World unit Body State) :
  advance (fetchBlogs_k resp) w =
    with_out (snd (fetchBlogs_effect resp (w_state w)))
      (with_state (fst (fetchBlogs_effect resp (w_state w))) w).
Proof.
  destruct w as [s rd pd o sn]. unfold fetchBlogs_k, fetchBlogs, fetchBlogs_effect.
  destruct resp as [|st [data|]]; simpl; try destruct (ok st); simpl;
    unfold with_out, with_state; simpl; rewrite ?app_nil_r; reflexivity.
Qed.

(** ** The running page *)

Lemma advance_handle ev (w : World unit Body State) :
  advance (handle ev (w_state w)) w =
    match ev with
    | ClickAll => with_state (setSelectedCategory "All" (w_state w)) w
    | ClickCategory c => with_state (setSelectedCategory c (w_state w)) w
    | ClickBlog id => with_out [Navigate ("/blog/" ++ z_to_string id)] w
    end.
Proof. by destruct ev, w. Qed.

Lemma Inv_mount : Inv mount.
Proof.
  repeat split; simpl; try done; try (by intros ? ?); lia.
Qed.

(** [Inv] only looks at the committed state, the pending requests, the
    requests sent, and the [blogs]/[filteredBlogs] of the current state. *)
Lemma Inv_frame (w w' : World unit Body State) :
  Inv w -> w_rendered w' = w_rendered w -> w_pending w' = w_pending w ->
  w_sent w' = w_sent w -> blogs (w_state w') = blogs (w_state w) ->
  filteredBlogs (w_state w') = filteredBlogs (w_state w) ->
  (w_rendered w = None -> w' = mount) -> Inv w'.
Proof.
  intros (Ha & Hb & Hc & Hd & He & Hf) Hr Hp Hs Hbl Hfl Hm. unfold Inv.
  rewrite Hr, Hp, Hs, Hbl, Hfl. repeat split; auto; destruct Hd as [Hd1 Hd2]; auto.
Qed.

Lemma Inv_event w ev :
  Inv w -> comp_offered ev (w_state w) = true -> Inv (advance (comp_handle ev (w_state w)) w).
Proof.
  intros Hinv Hoff. simpl in *. rewrite advance_handle.
  eapply Inv_frame; [exact Hinv|..]; destruct ev; try done;
    intros Hr; destruct Hinv as [Ha _]; rewrite (Ha Hr) in Hoff |- *;
    first [reflexivity | vm_compute in Hoff; discriminate].
Qed.

Lemma Inv_deliver srv w i r k :
  Inv w -> w_pending w !! i = Some (r, k) ->
  Inv (advance (k (srv r)) (with_pending (delete i (w_pending w)) w)).
Proof.
  intros (Ha & Hb & Hc & Hd & He & Hf) Hi.
  destruct w as [st rd pd o sn]; simpl in *.
  destruct pd as [|e [|e' pd]]; simpl in *; [done| |lia].
  destruct i as [|i]; [|by destruct i]. simpl in Hi. injection Hi as ->.
  rewrite Forall_cons in Hb. destruct Hb as [Hb _]. injection Hb as -> ->.
  rewrite advance_fetchBlogs_k. destruct (Hd ltac:(done)) as [Hst Hrd].
  unfold with_out, with_state, with_pending, Inv; simpl. split_and!.
  - intros Hr. specialize (Ha Hr). discriminate.
  - constructor.
  - lia.
  - by intros [].
  - intros r0 Hr0. rewrite (Hrd r0 Hr0). unfold fetchBlogs_effect.
    destruct (srv blogs_req) as [|s0 [data|]]; try destruct (ok s0); simpl; intros Hbl;
      try (rewrite <- (Hrd r0 Hr0); apply He; [done | by rewrite (Hrd r0 Hr0), Hst]).
    subst data. by rewrite filterBlogs_nil.
  - exact Hf.
Qed.

Lemma Inv_render w :
  Inv w -> w_rendered w <> Some (w_state w) ->
  Inv (spawn_all (comp_effects (w_rendered w) (w_state w)) (with_rendered (Some (w_state w)) w)).
Proof.
  intros (Ha & Hb & Hc & Hd & He & Hf) Hne.
  destruct w as [st [r|] pd o sn]; simpl in *.
  - unfold effects. destruct (decide _) as [Heq|Hdiff].
    + injection Heq as Hsel Hbl. unfold spawn_all, Inv; simpl; split_and!; try done.
      * intros Hp. split; [exact (proj1 (Hd Hp)) | intros ? [= <-]; exact (proj1 (Hd Hp))].
      * intros ? [= <-] _. rewrite <- Hsel, <- Hbl. by apply He.
      * intros _. by apply Hf.
    + unfold spawn_all, Inv; simpl; split_and!; try done.
      * intros Hp. split; [exact (proj1 (Hd Hp)) | intros ? [= <-]; exact (proj1 (Hd Hp))].
      * by intros ? [= <-] _.
      * intros _. by apply Hf.
  - specialize (Ha eq_refl). injection Ha as -> -> -> ->.
    unfold Inv; simpl; split_and!; try done; try by intros ? ?.
    + repeat constructor.
    + by intros _; split; [|intros ? [= <-]].
    + by intros ? [= <-].
Qed.

(** C1: in every state the running page can reach, once React has
    committed the current state, the list shown is [filterBlogs] of the
    selected category over the fetched blogs, and the page has sent at
    most one request, the [GET /blogs] of the mount effect. *)
Theorem blogs_page_invariant srv w :
  reachable srv w ->
  (w_rendered w = Some (w_state w) ->
     filteredBlogs (w_state w) =
       filterBlogs (selectedCategory (w_state w)) (blogs (w_state w))) /\
  (w_sent w = [] \/ w_sent w = [blogs_req]).
Proof.
  intros Hreach.
  assert (Hinv : Inv w).
  { unfold reachable in Hreach. generalize Inv_mount.
    induction Hreach as [|w1 w2 w3 Hstep _ IH]; [done|]. intros H1. apply IH.
    destruct Hstep; eauto using Inv_event, Inv_deliver, Inv_render. }
  destruct Hinv as (Ha & _ & _ & _ & He & Hf). split.
  - intros Hr. by apply He.
  - destruct (w_rendered w) eqn:Hr; [right; by apply Hf | left; by rewrite (Ha eq_refl)].
Qed.

Lemma blogs_page_invariant_witness :
  let l := [Blog.mkBlog 1 "a" "" 1 "" 7 "Tech" "" ""; Blog.mkBlog 3 "b" "" 1 "" 8 "Health" "" ""] in
  let srv := fun _ : Request unit => (Reply 200 (Some l) : Response Body) in
  let st := mkState "All" l l in
  let w := mkWorld st (Some st) [] [] [blogs_req] in
  reachable srv w /\
  ((w_rendered w = Some (w_state w) ->
    filteredBlogs (w_state w) = filterBlogs (selectedCategory (w_state w)) (blogs (w_state w))) /\
   (w_sent w = [] \/ w_sent w = [blogs_req])).
Proof.
  intros l srv st w.
  assert (Hr : reachable srv w).
  { unfold reachable.
    eapply rtc_l; [apply step_render; vm_compute; congruence|].
    eapply rtc_l; [apply (step_deliver _ _ 0 blogs_req fetchBlogs_k); reflexivity|].
    eapply rtc_l; [apply step_render; vm_compute; congruence|].
    apply rtc_refl. }
  split; [exact Hr | exact (blogs_page_invariant srv w Hr)].
Defined.

(** ** [truncateTitle] *)

(** Titles of at most 40 characters are kept; longer titles become
    their first 40 characters followed by "...", 43 characters in all. *)
Theorem truncateTitle_spec t :
  ((String.length t <= 40)%nat -> truncateTitle t = t) /\
  ((40 < String.length t)%nat ->
     String.prefix (String.substring 0 40 t) (truncateTitle t) = true /\
     String.length (truncateTitle t) = 43%nat).
Proof. exact (truncate_spec 40 t). Qed.
End Blogs.
