(* ===== verification/BlogDetail.v ===== *)
(** * BlogDetail: one blog and its related blogs, [Components/Blog/BlogDetail.jsx]

    The page reads the route parameter [id]. Its effect on [[id]] runs
    [fetchBlogDetail]: [GET /blogs/{id}], then, only once that succeeded,
    [fetchRelatedBlogs] of the fetched blog's [categoryId], which fetches
    [GET /blogs] and keeps at most three blogs of that category other than
    the current one. This is the dependent fetch of the spec: a failing
    primary fetch issues no secondary request; a failing secondary fetch
    keeps the primary result. The code does not check the shape of the
    primary body: a 2xx array is stored as the blog and its [categoryId],
    [undefined], is passed on. Clicking a related blog navigates to
    [/blog/{id}], which changes the route parameter of the same page. *)

From stdpp Require Import base list strings relations.
From Stdlib Require Import ZArith String.
From S2P Require Import Prelude Async Runtime Model.

Module BlogDetail.

(** A parsed JSON body: an object or an array of blog objects. *)
Inductive Body :=
| BlogObject (b : Blog.Blog)
| BlogArray (l : list Blog.Blog).

(** The route parameter and the two [useState] hooks (lines 14-16);
    [blog] holds whatever [setBlog(data)] was given, an array included. *)
Record State := mkState {
  routeId : string;
  blog : option Body;
  relatedBlogs : list Blog.Blog
}.

Definition initial (id : string) : State := mkState id None [].

Definition setBlog (b : option Body) (s : State) : State := mkState (routeId s) b (relatedBlogs s).
Definition setRelatedBlogs (l : list Blog.Blog) (s : State) : State := mkState (routeId s) (blog s) l.
Definition setRouteId (id : string) (s : State) : State := mkState id (blog s) (relatedBlogs s).

Abbreviation P := (Prog unit (option Body) State).

Definition blogs_url : string := "http://127.0.0.1:8000/api/blogs".
Definition blog_url (id : string) : string := blogs_url ++ "/" ++ id.

(** [data.filter(...)] needs an array. *)
Definition as_array (b : Body) : P (list Blog.Blog) :=
  match b with BlogArray l => Ret l | BlogObject _ => Throw (TypeError "data.filter is not a function") end.

(** [data.categoryId] (line 32): [undefined] ([None]) on an array. *)
Definition categoryId_of (b : Body) : option Z :=
  match b with BlogObject o => Some (Blog.categoryId o) | BlogArray _ => None end.

(** The filter of [fetchRelatedBlogs] (line 46) and the slice (line 47). *)
Definition related (id : string) (categoryId : Z) (data : list Blog.Blog) : list Blog.Blog :=
  take 3 (List.filter
            (fun blog => (Blog.categoryId blog =Z= categoryId) && num_neq (Blog.id blog) (parseInt id))
            data).

(** The filter of line 46 under [categoryId]: [blog.categoryId ===
    undefined] holds for no blog, each carrying a number. *)
Definition related_of (id : string) (categoryId : option Z) (data : list Blog.Blog) : list Blog.Blog :=
  match categoryId with Some c => related id c data | None => [] end.

(** [fetchRelatedBlogs] (lines 38-51), under the closure's [id]. *)
Definition fetchRelatedBlogs (id : string) (categoryId : option Z) : P unit :=
  catch_
    (r <- fetch (GetReq blogs_url) ;;
     if negb (ok (fst r)) then Throw (ThrownError "Failed to fetch related blogs") else
     (b <- json (snd r) ;;
      data <- as_array b ;;
      set (setRelatedBlogs (related_of id categoryId data))))
    (fun _ => emit (Console "Error fetching related blogs:")).

(** [fetchBlogDetail] (lines 22-36); the related blogs are fetched
    without [await]. *)
Definition fetchBlogDetail (id : string) : P unit :=
  catch_
    (r <- fetch (GetReq (blog_url id)) ;;
     if negb (ok (fst r)) then Throw (ThrownError "Failed to fetch blog details") else
     (data <- json (snd r) ;;
      set (setBlog (Some data)) ;;
      detach (fetchRelatedBlogs id (categoryId_of data))))
    (fun _ => emit (Console "Error fetching blog details:")).

(** [truncateTitle] of this file (lines 4-10): 50 characters. *)
Definition truncateTitle (title : string) : string :=
  if (50 <? String.length title)%nat then String.substring 0 50 title ++ "..." else title.

Inductive Event := ClickRelated (blogId : Z).

(** A card is offered for each related blog (lines 93-108). *)
Definition offered (ev : Event) (s : State) : bool :=
  match ev with ClickRelated bid => existsb (fun b => Blog.id b =Z= bid) (relatedBlogs s) end.

(** [handleBlogClick] (lines 57-60): the navigation changes the route
    parameter of this same page. *)
Definition handle (ev : Event) (s : State) : P unit :=
  match ev with
  | ClickRelated bid =>
      emit (Navigate ("/blog/" ++ z_to_string bid)) ;;
      set (setRouteId (z_to_string bid))
  end.

(** The effect on [[id]] (lines 18-20). *)
Definition effects (prev : option State) (s : State) : list (P unit) :=
  match prev with
  | None => [fetchBlogDetail (routeId s)]
  | Some r => if decide (routeId r = routeId s) then [] else [fetchBlogDetail (routeId s)]
  end.

#[export] Instance component (id : string) : Component unit (option Body) State Event :=
  {| comp_init := initial id; comp_effects := effects;
     comp_offered := offered; comp_handle := handle |}.

Definition detail_req (id : string) : Request unit := GetReq (blog_url id).
Definition list_req : Request unit := GetReq blogs_url.

(** The blog a response to [GET /blogs/{id}] hands to the code, if any. *)
Definition primary_ok (resp : Response (option Body)) : option Blog.Blog :=
  match resp with
  | Reply st (Some (BlogObject b)) => if ok st then Some b else None
  | _ => None
  end.

(** The body a response to [GET /blogs/{id}] hands to [setBlog]: a 2xx
    reply with a JSON body, of any shape. *)
Definition primary_reply (resp : Response (option Body)) : option Body :=
  match resp with
  | Reply st (Some b) => if ok st then Some b else None
  | _ => None
  end.

(** The array a response to [GET /blogs] hands to the code, if any. *)
Definition secondary_ok (resp : Response (option Body)) : option (list Blog.Blog) :=
  match resp with
  | Reply st (Some (BlogArray l)) => if ok st then Some l else None
  | _ => None
  end.

(** ** The dependent fetch *)

(** C2: when the primary fetch fails (network failure, non-2xx status,
    a body that is not JSON), [fetchBlogDetail] logs, leaves the state
    as it was and issues no secondary request. *)
Theorem primary_failure_no_secondary srv id s :
  primary_reply (srv (detail_req id)) = None ->
  run srv (fetchBlogDetail id) s =
    mkRun (Done tt) s [Console "Error fetching blog details:"] [detail_req id].
Proof.
  unfold fetchBlogDetail, primary_reply, detail_req. simpl.
  destruct (srv (GetReq (blog_url id))) as [|st [b|]]; simpl;
    try destruct (ok st); simpl; intros H; try discriminate; reflexivity.
Qed.

Lemma primary_failure_no_secondary_witness :
  primary_reply ((fun _ : Request unit => NetworkFailure : Response (option Body)) (detail_req "1")) = None /\
  run (fun _ => NetworkFailure) (fetchBlogDetail "1") (initial "1") =
    mkRun (Done tt) (initial "1") [Console "Error fetching blog details:"] [detail_req "1"].
Proof.
  split; [reflexivity|].
  apply (primary_failure_no_secondary (fun _ => NetworkFailure) "1" (initial "1")). reflexivity.
Defined.

(** C5: once the primary fetch delivered blog [b], the secondary fetch
    of the related blogs is issued after it; whatever becomes of the
    secondary fetch, [b] is kept: its failure only logs and leaves the
    related list as it was, its success stores [related]. *)
Theorem secondary_keeps_primary srv id s b :
  primary_ok (srv (detail_req id)) = Some b ->
  run srv (fetchBlogDetail id) s =
    mkRun (Done tt)
      (match secondary_ok (srv list_req) with
       | Some l => setRelatedBlogs (related id (Blog.categoryId b) l) (setBlog (Some (BlogObject b)) s)
       | None => setBlog (Some (BlogObject b)) s
       end)
      (match secondary_ok (srv list_req) with
       | Some _ => []
       | None => [Console "Error fetching related blogs:"]
       end)
      [detail_req id; list_req].
Proof.
  unfold fetchBlogDetail, primary_ok, detail_req. simpl.
  destruct (srv (GetReq (blog_url id))) as [|st [[b'|l]|]]; simpl;
    try destruct (ok st) eqn:Hst; simpl; intros H; try discriminate.
  injection H as <-. unfold secondary_ok, list_req.
  destruct (srv (GetReq blogs_url)) as [|st' [[b''|l']|]]; simpl;
    try destruct (ok st'); reflexivity.
Qed.

Lemma secondary_keeps_primary_witness :
  let b1 := Blog.mkBlog 1 "One" "" 1 "" 7 "Tech" "" "" in
  let b2 := Blog.mkBlog 2 "Two" "" 1 "" 7 "Tech" "" "" in
  let srv := fun r : Request unit =>
    (if String.eqb (req_url r) (blog_url "1") then Reply 200 (Some (BlogObject b1))
     else Reply 200 (Some (BlogArray [b1; b2]))) : Response (option Body) in
  primary_ok (srv (detail_req "1")) = Some b1 /\
  run srv (fetchBlogDetail "1") (initial "1") =
    mkRun (Done tt) (setRelatedBlogs [b2] (setBlog (Some (BlogObject b1)) (initial "1"))) []
      [detail_req "1"; list_req].
Proof.
  intros b1 b2 srv. split; [reflexivity|].
  rewrite (secondary_keeps_primary srv "1" (initial "1") b1 eq_refl). reflexivity.
Defined.

(** C24: a 2xx reply whose JSON body is an array is not a failure of the
    primary fetch: [setBlog(data)] stores the array, so the page leaves
    "Loading..." for a blog with no fields, and [fetchRelatedBlogs] still
    runs with [data.categoryId] [undefined]: [GET /blogs] is sent, and on
    success the related list is emptied, since no blog has an undefined
    category. *)
Theorem array_body_fetches_related srv id s l :
  primary_reply (srv (detail_req id)) = Some (BlogArray l) ->
  run srv (fetchBlogDetail id) s =
    mkRun (Done tt)
      (match secondary_ok (srv list_req) with
       | Some _ => setRelatedBlogs [] (setBlog (Some (BlogArray l)) s)
       | None => setBlog (Some (BlogArray l)) s
       end)
      (match secondary_ok (srv list_req) with
       | Some _ => []
       | None => [Console "Error fetching related blogs:"]
       end)
      [detail_req id; list_req].
Proof.
  unfold fetchBlogDetail, primary_reply, detail_req. simpl.
  destruct (srv (GetReq (blog_url id))) as [|st [b|]]; simpl;
    try destruct (ok st) eqn:Hst; simpl; intros H; try discriminate.
  injection H as ->. unfold secondary_ok, list_req.
  destruct (srv (GetReq blogs_url)) as [|st' [[b''|l']|]]; simpl;
    try destruct (ok st'); reflexivity.
Qed.

Lemma array_body_fetches_related_witness :
  let b1 := Blog.mkBlog 1 "One" "" 1 "" 7 "Tech" "" "" in
  let srv := fun r : Request unit =>
    (if String.eqb (req_url r) (blog_url "1") then Reply 200 (Some (BlogArray [b1]))
     else Reply 200 (Some (BlogArray [b1]))) : Response (option Body) in
  primary_reply (srv (detail_req "1")) = Some (BlogArray [b1]) /\
  run srv (fetchBlogDetail "1") (initial "1") =
    mkRun (Done tt) (setRelatedBlogs [] (setBlog (Some (BlogArray [b1])) (initial "1"))) []
      [detail_req "1"; list_req].
Proof.
  intros b1 srv. split; [reflexivity|].
  rewrite (array_body_fetches_related srv "1" (initial "1") [b1] eq_refl). reflexivity.
Defined.

(** C40: at most three related blogs are shown, in the order of
    [GET /blogs], each of the current blog's category and none with the
    id [parseInt(id)] of the route; fewer than three are shown only when
    every such blog is shown. *)
Theorem related_spec id c l :
  let r := related id c l in
  (List.length r <= 3)%nat /\ sublist r l /\
  Forall (fun x => Blog.categoryId x = c /\ num_neq (Blog.id x) (parseInt id) = true) r /\
  ((List.length r < 3)%nat ->
     forall x, In x l -> Blog.categoryId x = c -> num_neq (Blog.id x) (parseInt id) = true -> In x r).
Proof.
  unfold related. simpl. set (f := fun blog => _ && _). split_and!.
  - rewrite length_take. lia.
  - etrans; [apply take_sublist | apply filter_sublist].
  - apply List.Forall_forall. intros x Hx. apply in_take_in, filter_In in Hx as [_ Hx].
    subst f. simpl in Hx. apply andb_prop in Hx as [Hc Hn]. by apply Z.eqb_eq in Hc.
  - intros Hlt x Hx Hc Hn. rewrite take_ge.
    + apply filter_In. split; [done|]. subst f. simpl. rewrite Hn, Hc, Z.eqb_refl. done.
    + rewrite length_take in Hlt. lia.
Qed.

(** ** Interleaving *)

(** C11: the page has the request race of the spec: after two quick
    clicks on related blogs, the response for the first click can arrive
    last, and the page settles (nothing pending, state committed) on the
    route [/blog/3] while showing blog 2. *)
Theorem stale_response_shows_wrong_blog :
  let b i := Blog.mkBlog i "t" "" 1 "" 7 "Tech" "" "" in
  let srv := fun r : Request unit =>
    (if String.eqb (req_url r) (blog_url "1") then Reply 200 (Some (BlogObject (b 1%Z)))
     else if String.eqb (req_url r) (blog_url "2") then Reply 200 (Some (BlogObject (b 2%Z)))
     else if String.eqb (req_url r) (blog_url "3") then Reply 200 (Some (BlogObject (b 3%Z)))
     else Reply 200 (Some (BlogArray [b 1%Z; b 2%Z; b 3%Z]))) : Response (option Body) in
  exists w, @reachable _ _ _ _ (component "1") srv w /\
    w_pending w = [] /\ w_rendered w = Some (w_state w) /\
    routeId (w_state w) = "3" /\ blog (w_state w) = Some (BlogObject (b 2%Z)).
Proof.
  intros b srv. eexists. split.
  - unfold reachable.
    run_render. run_deliver 0. run_deliver 0. run_render.
    run_event (ClickRelated 2%Z). run_render.
    run_event (ClickRelated 3%Z). run_render.
    run_deliver 1. run_deliver 0. run_deliver 0. run_deliver 0. run_render.
    apply rtc_refl.
  - split_and!; reflexivity.
Qed.

End BlogDetail.
