(* ===== verification/Url.v ===== *)
(** * Url: [URLSearchParams] serialisation and parsing

    [new URLSearchParams(obj).toString()] serialises its pairs in the
    [application/x-www-form-urlencoded] format: ASCII letters, digits and
    [*-._] are kept, a space becomes [+], every other byte becomes [%XX]
    (upper-case hexadecimal); pairs are [key=value] joined by [&]. The
    server parses the query string back with the inverse decoding. Strings
    are byte strings (Stdlib [ascii] is 8-bit), so a UTF-8 string is
    encoded byte by byte as the browser does.

    The round trip [parse_query (serialize ps) = ps] for a non-empty list
    of pairs is what lets the page theorems speak of the values the server
    receives. *)

From stdpp Require Import base list strings.
From Stdlib Require Import ZArith String Ascii.
From S2P Require Import Prelude.

Definition is_unreserved (c : ascii) : bool :=
  let n := nat_of_ascii c in
  ((48 <=? n) && (n <=? 57))%nat || ((65 <=? n) && (n <=? 90))%nat
  || ((97 <=? n) && (n <=? 122))%nat
  || (n =? 42)%nat || (n =? 45)%nat || (n =? 46)%nat || (n =? 95)%nat.

Definition hex_digit (n : nat) : ascii :=
  match String.get n "0123456789ABCDEF" with Some c => c | None => "0"%char end.

Definition hex_value (c : ascii) : option nat :=
  let n := nat_of_ascii c in
  if ((48 <=? n) && (n <=? 57))%nat then Some (n - 48)%nat
  else if ((65 <=? n) && (n <=? 70))%nat then Some (n - 55)%nat
  else if ((97 <=? n) && (n <=? 102))%nat then Some (n - 87)%nat
  else None.

Definition encode_char (c : ascii) : string :=
  if Ascii.eqb c " " then "+"
  else if is_unreserved c then String c EmptyString
  else String "%" (String (hex_digit (nat_of_ascii c / 16)) (String (hex_digit (nat_of_ascii c mod 16)) EmptyString)).

Fixpoint form_encode (s : string) : string :=
  match s with
  | EmptyString => EmptyString
  | String c s' => encode_char c ++ form_encode s'
  end.

Fixpoint form_decode (s : string) : string :=
  match s with
  | EmptyString => EmptyString
  | String c s' =>
      if Ascii.eqb c "+" then String " " (form_decode s')
      else if Ascii.eqb c "%" then
        match s' with
        | String h1 (String h2 s'') =>
            match hex_value h1, hex_value h2 with
            | Some a, Some b => String (ascii_of_nat (a * 16 + b)) (form_decode s'')
            | _, _ => String c (form_decode s')
            end
        | _ => String c (form_decode s')
        end
      else String c (form_decode s')
  end.

Definition serialize_pair (kv : string * string) : string :=
  form_encode kv.1 ++ "=" ++ form_encode kv.2.

Fixpoint join (sep : string) (l : list string) : string :=
  match l with
  | [] => ""
  | [x] => x
  | x :: l' => x ++ sep ++ join sep l'
  end.

(** [params.toString()] *)
Definition serialize (ps : list (string * string)) : string := join "&" (map serialize_pair ps).

(** Splitting at every occurrence of a character, and at the first one. *)
Fixpoint split_on (sep : ascii) (s : string) : list string :=
  match s with
  | EmptyString => [EmptyString]
  | String c s' =>
      if Ascii.eqb c sep then EmptyString :: split_on sep s'
      else match split_on sep s' with
           | [] => [String c EmptyString]
           | x :: l => String c x :: l
           end
  end.

Fixpoint split_first (sep : ascii) (s : string) : string * string :=
  match s with
  | EmptyString => (EmptyString, EmptyString)
  | String c s' =>
      if Ascii.eqb c sep then (EmptyString, s')
      else let '(k, v) := split_first sep s' in (String c k, v)
  end.

(** The server side: [key=value] pairs of a query string, decoded. *)
Definition parse_query (q : string) : list (string * string) :=
  map (fun part => let '(k, v) := split_first "=" part in (form_decode k, form_decode v))
    (split_on "&" q).

(** A character occurs in a string. *)
Fixpoint has_char (c : ascii) (s : string) : bool :=
  match s with
  | EmptyString => false
  | String d s' => Ascii.eqb c d || has_char c s'
  end.

(** ** Lemmas *)

Lemma decode_hex_byte (c : ascii) :
  hex_value (hex_digit (nat_of_ascii c / 16)) = Some (nat_of_ascii c / 16)%nat /\
  hex_value (hex_digit (nat_of_ascii c mod 16)) = Some (nat_of_ascii c mod 16)%nat /\
  ascii_of_nat ((nat_of_ascii c / 16) * 16 + nat_of_ascii c mod 16) = c.
Proof. destruct c as [[] [] [] [] [] [] [] []]; vm_compute; auto. Qed.

Lemma form_decode_percent d1 d2 a b t :
  hex_value d1 = Some a -> hex_value d2 = Some b ->
  form_decode (String "%" (String d1 (String d2 t))) = String (ascii_of_nat (a * 16 + b)) (form_decode t).
Proof. intros H1 H2. simpl. by rewrite H1, H2. Qed.

Lemma form_decode_encode_char c t :
  form_decode (encode_char c ++ t) = String c (form_decode t).
Proof.
  unfold encode_char.
  destruct (Ascii.eqb_spec c " ") as [->|Hsp]; [reflexivity|].
  destruct (is_unreserved c) eqn:Hu.
  - simpl. destruct (Ascii.eqb_spec c "+") as [->|]; [discriminate|].
    destruct (Ascii.eqb_spec c "%") as [->|]; [discriminate|]. reflexivity.
  - destruct (decode_hex_byte c) as (H1 & H2 & H3).
    etransitivity; [exact (form_decode_percent _ _ _ _ t H1 H2) | by rewrite H3].
Qed.

Lemma form_decode_encode s : form_decode (form_encode s) = s.
Proof.
  induction s as [|c s IH]; [reflexivity|]. simpl.
  rewrite form_decode_encode_char, IH. reflexivity.
Qed.

Lemma has_char_app c s t : has_char c (s ++ t) = has_char c s || has_char c t.
Proof. induction s as [|d s IH]; simpl; [done|]. rewrite IH. apply orb_assoc. Qed.

Lemma hex_digit_unreserved n : is_unreserved (hex_digit n) = true.
Proof. unfold hex_digit. do 16 (destruct n as [|n]; [reflexivity|]). reflexivity. Qed.

Lemma unreserved_neq sep d :
  is_unreserved sep = false -> is_unreserved d = true -> Ascii.eqb sep d = false.
Proof. intros H1 H2. destruct (Ascii.eqb_spec sep d); [subst; congruence | done]. Qed.

(** The encoding of a character never contains a reserved character other
    than [+] and [%]: in particular no [&] and no [=]. *)
Lemma encode_char_no_special c sep :
  is_unreserved sep = false -> Ascii.eqb sep "+" = false -> Ascii.eqb sep "%" = false ->
  has_char sep (encode_char c) = false.
Proof.
  intros Hu Hp Hpc. unfold encode_char.
  destruct (Ascii.eqb_spec c " "); [simpl; by rewrite Hp|].
  destruct (is_unreserved c) eqn:Hc; simpl.
  - by rewrite (unreserved_neq sep c Hu Hc).
  - by rewrite Hpc, !(unreserved_neq sep _ Hu (hex_digit_unreserved _)).
Qed.

Lemma form_encode_no_special s sep :
  is_unreserved sep = false -> Ascii.eqb sep "+" = false -> Ascii.eqb sep "%" = false ->
  has_char sep (form_encode s) = false.
Proof.
  intros Hu Hp Hpc. induction s as [|c s IH]; [done|]. simpl.
  by rewrite has_char_app, encode_char_no_special, IH.
Qed.

Lemma split_on_nosep sep x : has_char sep x = false -> split_on sep x = [x].
Proof.
  induction x as [|c x IH]; simpl; [done|]. intros H. apply orb_false_iff in H as [H1 H2].
  rewrite Ascii.eqb_sym, H1, IH by done. reflexivity.
Qed.

Lemma split_on_app sep x rest :
  has_char sep x = false -> split_on sep (x ++ String sep rest) = x :: split_on sep rest.
Proof.
  induction x as [|c x IH]; simpl; intros H.
  - by rewrite Ascii.eqb_refl.
  - apply orb_false_iff in H as [H1 H2]. rewrite Ascii.eqb_sym, H1, IH by done. reflexivity.
Qed.

Lemma split_on_join sep l :
  l <> [] -> Forall (fun x => has_char sep x = false) l ->
  split_on sep (join (String sep EmptyString) l) = l.
Proof.
  intros Hne Hl. induction Hl as [|x l Hx Hl IH]; [done|].
  destruct l as [|y l]; [by apply split_on_nosep|].
  change (join (String sep EmptyString) (x :: y :: l))
    with (x ++ String sep (join (String sep EmptyString) (y :: l))).
  rewrite split_on_app by done. f_equal. by apply IH.
Qed.

Lemma split_first_app sep k v :
  has_char sep k = false -> split_first sep (k ++ String sep v) = (k, v).
Proof.
  induction k as [|c k IH]; simpl; intros H.
  - by rewrite Ascii.eqb_refl.
  - apply orb_false_iff in H as [H1 H2]. rewrite Ascii.eqb_sym, H1, IH by done. reflexivity.
Qed.

(** Round trip: the server reads back exactly the pairs the page put in
    its [URLSearchParams], in order. *)
Lemma parse_serialize ps : ps <> [] -> parse_query (serialize ps) = ps.
Proof.
  intros Hne. unfold parse_query, serialize.
  rewrite split_on_join.
  - rewrite map_map. rewrite <- (map_id ps) at 2. apply map_ext. intros [k v].
    unfold serialize_pair; simpl.
    change (form_encode k ++ "=" ++ form_encode v)%string
      with (form_encode k ++ String "=" (form_encode v))%string.
    rewrite split_first_app by (apply form_encode_no_special; reflexivity).
    by rewrite !form_decode_encode.
  - by destruct ps.
  - apply Forall_map, Forall_forall. intros [k v] _. unfold serialize_pair; simpl.
    rewrite has_char_app, form_encode_no_special by reflexivity.
    change ("=" ++ form_encode v)%string with (String "=" (form_encode v)). simpl.
    by rewrite form_encode_no_special.
Qed.
