(* ===== verification/FindJobs.v ===== *)
(** * FindJobs: the job search page, [Components/Find-Jobs/FindJobs.jsx]

    The server-filtered listing of the spec. State: the search and
    location texts, the five filter selections, the current page, the
    fetched page of jobs with its total, a loading flag, the categories
    and the job count of each category. An effect on the filter state
    (lines 24-27) runs [fetchJobs], which sends
    [GET /vacancies/filter?<URLSearchParams>] and stores [data.data || []]
    and [data.total || 0]. At mount the categories are fetched; when they
    arrive, [loadJobCounts] asks the job count of each category in turn.

    Faithful details the theorems rely on: the effect's dependency list
    names the setter [setIsRemote] instead of [isRemote]; [handleSearch]
    and [handleClearFilters] call [fetchJobs] with the state of the render
    they belong to; the [catch] of [fetchJobs] empties the list but keeps
    the total; [isRemote] starts as [''], which every use treats like
    [false], so it is a [bool] here. *)

From stdpp Require Import base list strings sets gmap relations.
From Stdlib Require Import ZArith String Ascii.
From S2P Require Import Prelude Async Runtime Model Url.

Module FindJobs.

(** The [useState] hooks of lines 8-21, in order. [selectedRole] is
    [''] ([None]) or the [id] of a category. The last three fields are
    the DOM state of the page's uncontrolled inputs, which React does not
    reset: whether the [remote] radio (lines 347-348, no [checked] prop)
    is checked, and the values shown by the two salary [select]s (lines
    358, 366, no [value] prop). *)
Record State := mkState {
  searchQuery : string;
  locationQuery : string;
  filteredJobs : list Job.Job;
  selectedRole : option Z;
  selectedLevel : string;
  selectedJobType : string;
  minSalary : string;
  isRemote : bool;
  maxSalary : string;
  currentPage : Z;
  totalJobs : Z;
  isLoading : bool;
  categories : option (list Category.Category);
  jobCounts : gmap Z (option Z);
  remoteChecked : bool;
  minSelect : string;
  maxSelect : string
}.

Definition initial : State :=
  mkState "" "" [] None "" "" "" false "" 1 0 false None ∅ false "" "".

Definition setSearchQuery (v : string) (s : State) : State :=
  mkState v (locationQuery s) (filteredJobs s) (selectedRole s) (selectedLevel s) (selectedJobType s) (minSalary s) (isRemote s) (maxSalary s) (currentPage s) (totalJobs s) (isLoading s) (categories s) (jobCounts s) (remoteChecked s) (minSelect s) (maxSelect s).
Definition setLocationQuery (v : string) (s : State) : State :=
  mkState (searchQuery s) v (filteredJobs s) (selectedRole s) (selectedLevel s) (selectedJobType s) (minSalary s) (isRemote s) (maxSalary s) (currentPage s) (totalJobs s) (isLoading s) (categories s) (jobCounts s) (remoteChecked s) (minSelect s) (maxSelect s).
Definition setFilteredJobs (v : list Job.Job) (s : State) : State :=
  mkState (searchQuery s) (locationQuery s) v (selectedRole s) (selectedLevel s) (selectedJobType s) (minSalary s) (isRemote s) (maxSalary s) (currentPage s) (totalJobs s) (isLoading s) (categories s) (jobCounts s) (remoteChecked s) (minSelect s) (maxSelect s).
Definition setSelectedRole (v : option Z) (s : State) : State :=
  mkState (searchQuery s) (locationQuery s) (filteredJobs s) v (selectedLevel s) (selectedJobType s) (minSalary s) (isRemote s) (maxSalary s) (currentPage s) (totalJobs s) (isLoading s) (categories s) (jobCounts s) (remoteChecked s) (minSelect s) (maxSelect s).
Definition setSelectedLevel (v : string) (s : State) : State :=
  mkState (searchQuery s) (locationQuery s) (filteredJobs s) (selectedRole s) v (selectedJobType s) (minSalary s) (isRemote s) (maxSalary s) (currentPage s) (totalJobs s) (isLoading s) (categories s) (jobCounts s) (remoteChecked s) (minSelect s) (maxSelect s).
Definition setSelectedJobType (v : string) (s : State) : State :=
  mkState (searchQuery s) (locationQuery s) (filteredJobs s) (selectedRole s) (selectedLevel s) v (minSalary s) (isRemote s) (maxSalary s) (currentPage s) (totalJobs s) (isLoading s) (categories s) (jobCounts s) (remoteChecked s) (minSelect s) (maxSelect s).
Definition setMinSalary (v : string) (s : State) : State :=
  mkState (searchQuery s) (locationQuery s) (filteredJobs s) (selectedRole s) (selectedLevel s) (selectedJobType s) v (isRemote s) (maxSalary s) (currentPage s) (totalJobs s) (isLoading s) (categories s) (jobCounts s) (remoteChecked s) (minSelect s) (maxSelect s).
Definition setIsRemote (v : bool) (s : State) : State :=
  mkState (searchQuery s) (locationQuery s) (filteredJobs s) (selectedRole s) (selectedLevel s) (selectedJobType s) (minSalary s) v (maxSalary s) (currentPage s) (totalJobs s) (isLoading s) (categories s) (jobCounts s) (remoteChecked s) (minSelect s) (maxSelect s).
Definition setMaxSalary (v : string) (s : State) : State :=
  mkState (searchQuery s) (locationQuery s) (filteredJobs s) (selectedRole s) (selectedLevel s) (selectedJobType s) (minSalary s) (isRemote s) v (currentPage s) (totalJobs s) (isLoading s) (categories s) (jobCounts s) (remoteChecked s) (minSelect s) (maxSelect s).
Definition setCurrentPage (v : Z) (s : State) : State :=
  mkState (searchQuery s) (locationQuery s) (filteredJobs s) (selectedRole s) (selectedLevel s) (selectedJobType s) (minSalary s) (isRemote s) (maxSalary s) v (totalJobs s) (isLoading s) (categories s) (jobCounts s) (remoteChecked s) (minSelect s) (maxSelect s).
Definition setTotalJobs (v : Z) (s : State) : State :=
  mkState (searchQuery s) (locationQuery s) (filteredJobs s) (selectedRole s) (selectedLevel s) (selectedJobType s) (minSalary s) (isRemote s) (maxSalary s) (currentPage s) v (isLoading s) (categories s) (jobCounts s) (remoteChecked s) (minSelect s) (maxSelect s).
Definition setIsLoading (v : bool) (s : State) : State :=
  mkState (searchQuery s) (locationQuery s) (filteredJobs s) (selectedRole s) (selectedLevel s) (selectedJobType s) (minSalary s) (isRemote s) (maxSalary s) (currentPage s) (totalJobs s) v (categories s) (jobCounts s) (remoteChecked s) (minSelect s) (maxSelect s).
Definition setCategories (v : option (list Category.Category)) (s : State) : State :=
  mkState (searchQuery s) (locationQuery s) (filteredJobs s) (selectedRole s) (selectedLevel s) (selectedJobType s) (minSalary s) (isRemote s) (maxSalary s) (currentPage s) (totalJobs s) (isLoading s) v (jobCounts s) (remoteChecked s) (minSelect s) (maxSelect s).
Definition setJobCounts (v : gmap Z (option Z)) (s : State) : State :=
  mkState (searchQuery s) (locationQuery s) (filteredJobs s) (selectedRole s) (selectedLevel s) (selectedJobType s) (minSalary s) (isRemote s) (maxSalary s) (currentPage s) (totalJobs s) (isLoading s) (categories s) v (remoteChecked s) (minSelect s) (maxSelect s).

(** The browser's update of the uncontrolled inputs. *)
Definition setRemoteChecked (v : bool) (s : State) : State :=
  mkState (searchQuery s) (locationQuery s) (filteredJobs s) (selectedRole s) (selectedLevel s) (selectedJobType s) (minSalary s) (isRemote s) (maxSalary s) (currentPage s) (totalJobs s) (isLoading s) (categories s) (jobCounts s) v (minSelect s) (maxSelect s).
Definition setMinSelect (v : string) (s : State) : State :=
  mkState (searchQuery s) (locationQuery s) (filteredJobs s) (selectedRole s) (selectedLevel s) (selectedJobType s) (minSalary s) (isRemote s) (maxSalary s) (currentPage s) (totalJobs s) (isLoading s) (categories s) (jobCounts s) (remoteChecked s) v (maxSelect s).
Definition setMaxSelect (v : string) (s : State) : State :=
  mkState (searchQuery s) (locationQuery s) (filteredJobs s) (selectedRole s) (selectedLevel s) (selectedJobType s) (minSalary s) (isRemote s) (maxSalary s) (currentPage s) (totalJobs s) (isLoading s) (categories s) (jobCounts s) (remoteChecked s) (minSelect s) v.

(** A JSON body as axios parses it: the category array, or the page
    object [{data, total}] whose fields may be missing. *)
Inductive Body :=
| CategoryList (l : list Category.Category)
| JobPage (data : option (list Job.Job)) (total : option Z).

Abbreviation P := (Prog unit (option Body) State).

Definition api : string := "http://127.0.0.1:8000/api".

(** [data.data || []] and [data.total || 0] of lines 95-96: a body that
    is not the page object has neither field. *)
Definition page_of (b : option Body) : list Job.Job * Z :=
  match b with
  | Some (JobPage d t) => (default [] d, default 0%Z t)
  | _ => ([], 0%Z)
  end.

(** [data?.total] of line 173. *)
Definition total_of (b : option Body) : option Z :=
  match b with Some (JobPage _ t) => t | _ => None end.

(** The object given to [new URLSearchParams] (lines 70-81). *)
Definition jobs_params (s : State) : list (string * string) :=
  [("size", "10");
   ("page", z_to_string (currentPage s));
   ("title", searchQuery s);
   ("jobType", if truthy (selectedJobType s) then replace_ws_runs (selectedJobType s) "+" else "");
   ("seniorityLevel", selectedLevel s);
   ("salaryMin", minSalary s);
   ("salaryMax", maxSalary s);
   ("isRemote", if isRemote s then "true" else "");
   ("location", locationQuery s);
   ("categoryId", match selectedRole s with Some id => z_to_string id | None => "" end)].

Definition jobs_req (s : State) : Request unit :=
  GetReq (api ++ "/vacancies/filter?" ++ serialize (jobs_params s)).

(** [fetchJobs] (lines 66-103), under the state of its render. The test
    [!response.status === 200] of line 88 is always false: it is omitted. *)
Definition fetchJobs (s : State) : P unit :=
  set (setIsLoading true) ;;
  finally_
    (catch_
       (r <- axios (jobs_req s) ;;
        set (setFilteredJobs (page_of (snd r)).1) ;;
        set (setTotalJobs (page_of (snd r)).2))
       (fun _ => emit (Console "fetchJobs error") ;; set (setFilteredJobs [])))
    (set (setIsLoading false)).

Definition categories_req : Request unit := GetReq (api ++ "/categories").

(** [fetchCategories] (lines 33-46): no [try], so a failure rejects. A body
    that is not an array is refused as a [TypeError] (the code would store
    it and fail later when rendering it). *)
Definition fetchCategories : P unit :=
  r <- axios categories_req ;;
  match snd r with
  | Some (CategoryList l) => set (setCategories (Some l))
  | _ => Throw (TypeError "categories.map is not a function")
  end.

Definition count_req (categoryId : Z) : Request unit :=
  GetReq (api ++ "/vacancies/filter?categoryId=" ++ z_to_string categoryId).

(** [calculateJobCounts] (lines 160-174). *)
Definition calculateJobCounts (categoryId : Z) : Prog unit (option Body) State (option Z) :=
  r <- axios (count_req categoryId) ;; Ret (total_of (snd r)).

(** The [for ... of] loop of [loadJobCounts] (lines 50-56): one awaited
    request per category, in order, each result stored under its id. *)
Fixpoint countLoop (cats : list Category.Category) (counts : gmap Z (option Z))
  : Prog unit (option Body) State (gmap Z (option Z)) :=
  match cats with
  | [] => Ret counts
  | c :: cs =>
      emit (Console "cates") ;; emit (Console "cates") ;;
      t <- calculateJobCounts (Category.id c) ;;
      emit (Console "count for category.id") ;;
      countLoop cs (<[Category.id c := t]> counts)
  end.

Definition loadJobCounts (cats : list Category.Category) : P unit :=
  counts <- countLoop cats ∅ ;; set (setJobCounts counts).

(** The effect of lines 48-64: [if (categories?.length) loadJobCounts()]. *)
Definition countsEffect (s : State) : P unit :=
  match categories s with
  | Some (_ :: _ as cats) => loadJobCounts cats
  | _ => Ret tt
  end.

(** The user's actions on the page (inputs, radio buttons, selects,
    buttons and job links of lines 201-381). *)
Inductive Event :=
| TypeSearch (v : string)
| TypeLocation (v : string)
| ClickSearch
| SelectRole (id : Z)
| SelectLevel (level : string)
| SelectJobType (jobType : string)
| ToggleRemote
| SalaryChange (id value : string)
| ClearFilters
| ClickJob (id : Z).

#[global] Instance Event_eq_dec : EqDecision Event.
Proof. solve_decision. Defined.

Definition levels : list string := ["junior"; "mid-level"; "senior"; "lead"].
Definition jobTypeOptions : list string := ["full-time"; "contract"; "intern"; "part-time"].
Definition salaryOptions : list string := [""; "3000"; "5000"; "10000"; "20000"; "200000"].

(** The events the page offers: a radio fires [onChange] only when it
    is clicked while unchecked, a [select] only when a different option
    is picked; the job links exist only when the list is shown. *)
Definition offered (ev : Event) (s : State) : bool :=
  match ev with
  | TypeSearch _ | TypeLocation _ | ClickSearch | ClearFilters => true
  | SelectRole id =>
      negb (bool_decide (selectedRole s = Some id)) &&
      match categories s with
      | Some cats => existsb (fun c => Category.id c =Z= id) cats
      | None => false
      end
  | SelectLevel l => bool_decide (l ∈ levels) && negb (l === selectedLevel s)
  | SelectJobType t => bool_decide (t ∈ jobTypeOptions) && negb (t === selectedJobType s)
  | ToggleRemote => negb (remoteChecked s)
  | SalaryChange id v =>
      bool_decide (v ∈ salaryOptions) &&
      (if id === "minSalary" then negb (v === minSelect s)
       else if id === "maxSalary" then negb (v === maxSelect s) else false)
  | ClickJob id => negb (isLoading s) && existsb (fun j => Job.id j =Z= id) (filteredJobs s)
  end.

(** [handleSearch] (105-108). *)
Definition handleSearch (s : State) : P unit :=
  set (setCurrentPage 1) ;; detach (fetchJobs s).

(** [handleClearFilters] (122-133). *)
Definition handleClearFilters (s : State) : P unit :=
  set (setSelectedRole None) ;; set (setSelectedLevel "") ;; set (setSearchQuery "") ;;
  set (setLocationQuery "") ;; set (setSelectedJobType "") ;; set (setMinSalary "") ;;
  set (setMaxSalary "") ;; set (setIsRemote false) ;; set (setCurrentPage 1) ;;
  detach (fetchJobs s).

(** [handleRoleFilter], [handleLevelFilter], [handleJobTypeFilter]
    (110-120) and [handleRemoteFilter] (178-181). *)
Definition handleRoleFilter (keyword : Z) : P unit := set (setSelectedRole (Some keyword)).
Definition handleLevelFilter (level : string) : P unit := set (setSelectedLevel level).
Definition handleJobTypeFilter (jobType : string) : P unit := set (setSelectedJobType jobType).
Definition handleRemoteFilter (remote : bool) : P unit :=
  emit (Console "handleRemoteFilter") ;; set (setIsRemote remote).

(** [handleSalaryChange] (135-142). *)
Definition handleSalaryChange (id value : string) : P unit :=
  if id === "minSalary" then set (setMinSalary value)
  else if id === "maxSalary" then set (setMaxSalary value)
  else Ret tt.

Definition handle (ev : Event) (s : State) : P unit :=
  match ev with
  | TypeSearch v => set (setSearchQuery v)
  | TypeLocation v => set (setLocationQuery v)
  | ClickSearch => handleSearch s
  | SelectRole id => handleRoleFilter id
  | SelectLevel l => handleLevelFilter l
  | SelectJobType t => handleJobTypeFilter t
  | ToggleRemote => set (setRemoteChecked true) ;; handleRemoteFilter (negb (isRemote s))
  | SalaryChange id v =>
      (if id === "minSalary" then set (setMinSelect v) else set (setMaxSelect v)) ;;
      handleSalaryChange id v
  | ClearFilters => handleClearFilters s
  | ClickJob id => emit (Navigate ("/job/" ++ z_to_string id))
  end.

(** The dependency array of the first effect (lines 26-27): it names the
    setter [setIsRemote], which never changes, not [isRemote]. *)
Definition jobs_deps (s : State) :=
  (selectedRole s, selectedLevel s, selectedJobType s, minSalary s, maxSalary s,
   searchQuery s, locationQuery s, currentPage s).

Definition effects (prev : option State) (s : State) : list (P unit) :=
  match prev with
  | None => [fetchJobs s; fetchCategories; countsEffect s]
  | Some r =>
      (if decide (jobs_deps r = jobs_deps s) then [] else [fetchJobs s]) ++
      (if decide (categories r = categories s) then [] else [countsEffect s])
  end.

#[export] Instance component : Component unit (option Body) State Event :=
  {| comp_init := initial; comp_effects := effects;
     comp_offered := offered; comp_handle := handle |}.

(** [jobTypes] (154-158): the label shown for a job's type. *)
Definition jobTypes (t : string) : option string :=
  if t === "full-time" then Some "Full-time"
  else if t === "contract" then Some "Contract"
  else if t === "part-time" then Some "Part-time"
  else None.

(** [formatTimeAgo] (183-198) of the time elapsed since [createdAt] in
    milliseconds; [None] is the [NaN] of an unparsable date. *)
Definition formatTimeAgo (timeDiff : option Z) : string :=
  match timeDiff with
  | None => "NaN months ago"
  | Some d =>
      let daysDiff := (d / (1000 * 60 * 60 * 24))%Z in
      if (daysDiff =? 0)%Z then "Today"
      else if (daysDiff <? 30)%Z then
        z_to_string daysDiff ++ " day" ++ (if (daysDiff =? 1)%Z then "" else "s") ++ " ago"
      else
        let monthsDiff := (daysDiff / 30)%Z in
        z_to_string monthsDiff ++ " month" ++ (if (monthsDiff =? 1)%Z then "" else "s") ++ " ago"
  end.

(** The state [handleClearFilters] sets before it calls [fetchJobs]. *)
Definition cleared (s : State) : State :=
  setCurrentPage 1 (setIsRemote false (setMaxSalary "" (setMinSalary "" (setSelectedJobType ""
    (setLocationQuery "" (setSearchQuery "" (setSelectedLevel "" (setSelectedRole None s)))))))).

(** The remote fields: the radio's checked state and [isRemote]. *)
Definition remote_off (s : State) : Prop := remoteChecked s = true /\ isRemote s = false.

(** The count the server gives for a category: [data?.total] of a 2xx
    reply to its request. *)
Definition count_of (srv : Request unit -> Response (option Body)) (id : Z) : option Z :=
  match axios_ok (srv (count_req id)) with Some b => total_of b | None => None end.

Definition count_logs : list Out :=
  [Console "cates"; Console "cates"; Console "count for category.id"].

(** ** What the page renders (lines 201-381) *)

Section View.
(** [new Date(createdAt)] as milliseconds, [None] for an invalid date,
    and the time [new Date()] of the render. *)
Variable parseDate : string -> option Z.
Variable now : Z.

(** A job card (lines 223-252). [jobTypes[job.jobType]] is [undefined]
    for a type without a label, which renders as nothing. *)
Record Card := mkCard {
  card_link : string;
  card_logo : string;
  card_alt : string;
  card_company : string;
  card_time : string;
  card_title : string;
  card_place : string;
  card_type : string
}.

Definition card (job : Job.Job) : Card :=
  mkCard ("/job/" ++ z_to_string (Job.id job))
    ("http://127.0.0.1:8000" ++ Job.logo job)
    (Job.companyName job ++ " logo")
    (Job.companyName job)
    (formatTimeAgo (option_map (fun created => now - created)%Z (parseDate (Job.createdAt job))))
    (Job.title job)
    (Job.city job ++ ", " ++ Job.country job)
    (default "" (jobTypes (Job.jobType job))).

(** The list area of lines 219-256. *)
Inductive Jobs := Blank | Cards (cs : list Card) | NoJobs.

Definition jobs_view (s : State) : Jobs :=
  if isLoading s then Blank
  else match filteredJobs s with
       | [] => NoJobs
       | l => Cards (map card l)
       end.

(** A role radio of lines 270-279: id, label, checked, count
    [jobCounts[category?.id] || 0]. *)
Definition role_item (s : State) (c : Category.Category) : Z * string * bool * Z :=
  (Category.id c, Category.name c,
   bool_decide (selectedRole s = Some (Category.id c)),
   match jobCounts s !! Category.id c with Some (Some n) => n | _ => 0%Z end).

Record Screen := mkScreen {
  heading : string;
  jobs : Jobs;
  roles : list (Z * string * bool * Z)
}.

Definition view (s : State) : Screen :=
  mkScreen ("Job Opportunities (" ++ z_to_string (totalJobs s) ++ ")")
    (jobs_view s)
    (match categories s with Some cats => map (role_item s) cats | None => [] end).
End View.

(** ** Fetching a page of jobs *)

(** C3: [fetchJobs] sends one request, the one built from the filters of
    the render it belongs to, and always ends with [isLoading] false. On a
    2xx reply it stores [data.data || []] and [data.total || 0]; on any
    failure it logs and empties the list but keeps the previous total. *)
Theorem fetchJobs_run srv s0 s :
  run srv (fetchJobs s0) s =
    match axios_ok (srv (jobs_req s0)) with
    | Some b =>
        mkRun (Done tt)
          (setIsLoading false (setTotalJobs (page_of b).2
             (setFilteredJobs (page_of b).1 (setIsLoading true s))))
          [] [jobs_req s0]
    | None =>
        mkRun (Done tt) (setIsLoading false (setFilteredJobs [] (setIsLoading true s)))
          [Console "fetchJobs error"] [jobs_req s0]
    end.
Proof.
  unfold fetchJobs, axios_ok. simpl.
  destruct (srv (jobs_req s0)) as [|st b]; [reflexivity|]. simpl.
  destruct (is_2xx st); reflexivity.
Qed.

(** After a failed [fetchJobs] the page shows the heading with the
    total of the last successful fetch above the message that no job was
    found. *)
Theorem failed_fetch_shows_stale_total parseDate now srv s0 s :
  axios_ok (srv (jobs_req s0)) = None ->
  let s' := final (run srv (fetchJobs s0) s) in
  view parseDate now s' =
    mkScreen ("Job Opportunities (" ++ z_to_string (totalJobs s) ++ ")") NoJobs
      (match categories s with Some cats => map (role_item s) cats | None => [] end).
Proof. intros Hf. rewrite fetchJobs_run, Hf. reflexivity. Qed.

Lemma failed_fetch_shows_stale_total_witness :
  let s := setTotalJobs 25 initial in
  axios_ok ((fun _ => NetworkFailure) (jobs_req s) : Response (option Body)) = None /\
  view (fun _ => None) 0 (final (run (fun _ => NetworkFailure) (fetchJobs s) s)) =
    mkScreen "Job Opportunities (25)" NoJobs [].
Proof.
  intros s. split; [reflexivity|].
  exact (failed_fetch_shows_stale_total (fun _ => None) 0 (fun _ => NetworkFailure) s s eq_refl).
Defined.

(** C6: the server, splitting the URL of the jobs request at [?] and
    decoding its query, reads the path [/api/vacancies/filter] and exactly
    these ten pairs, in order: page size 10, the current page, the search
    text, the job type with its blank runs replaced by [+], the level, the
    two salary bounds, [isRemote=true] only when the filter is on, the
    location and the category id; every key is present even when its value
    is empty. *)
Theorem jobs_query_roundtrip s :
  split_first "?"%char (req_url (jobs_req s)) = (api ++ "/vacancies/filter", serialize (jobs_params s)) /\
  parse_query (serialize (jobs_params s)) =
    [("size", "10"); ("page", z_to_string (currentPage s)); ("title", searchQuery s);
     ("jobType", if truthy (selectedJobType s) then replace_ws_runs (selectedJobType s) "+" else "");
     ("seniorityLevel", selectedLevel s); ("salaryMin", minSalary s); ("salaryMax", maxSalary s);
     ("isRemote", if isRemote s then "true" else ""); ("location", locationQuery s);
     ("categoryId", match selectedRole s with Some id => z_to_string id | None => "" end)].
Proof. split; [reflexivity | by rewrite parse_serialize]. Qed.

(** At mount, with no filter set, the page requests every filter
    key with an empty value, where the client contract asks that empty
    values be left out of the query string. *)
Example initial_request_url :
  req_url (jobs_req initial) =
    "http://127.0.0.1:8000/api/vacancies/filter?size=10&page=1&title=&jobType=&seniorityLevel=&salaryMin=&salaryMax=&isRemote=&location=&categoryId=".
Proof. reflexivity. Qed.

(** ** Which actions refetch *)

Lemma offered_salary_id sid v s :
  offered (SalaryChange sid v) s = true -> sid = "minSalary" \/ sid = "maxSalary".
Proof.
  simpl. destruct (String.eqb_spec sid "minSalary"); [auto|].
  destruct (String.eqb_spec sid "maxSalary"); [auto|]. by rewrite andb_false_r.
Qed.

(** C9: turning the remote filter on changes [isRemote] but sends no
    request, since the effect depends on [setIsRemote] and not on
    [isRemote]: the shown jobs stay those of the previous filters. *)
Theorem toggle_remote_no_refetch w :
  w_rendered w = Some (w_state w) ->
  let w' := event_then_render ToggleRemote w in
  isRemote (w_state w') = negb (isRemote (w_state w)) /\
  effects (Some (w_state w)) (w_state (advance (handle ToggleRemote (w_state w)) w)) = [] /\
  filteredJobs (w_state w') = filteredJobs (w_state w) /\
  w_sent w' = w_sent w /\ w_pending w' = w_pending w.
Proof.
  intros Hr. unfold event_then_render. rewrite advance_rendered, Hr.
  destruct w as [s rd pd o sn]. simpl.
  rewrite decide_True, decide_True by reflexivity. split_and!; reflexivity.
Qed.

Lemma toggle_remote_no_refetch_witness :
  let w := mkWorld initial (Some initial) [] [] [] : World unit (option Body) State in
  w_rendered w = Some (w_state w) /\
  let w' := event_then_render ToggleRemote w in
  isRemote (w_state w') = negb (isRemote (w_state w)) /\
  effects (Some (w_state w)) (w_state (advance (handle ToggleRemote (w_state w)) w)) = [] /\
  filteredJobs (w_state w') = filteredJobs (w_state w) /\
  w_sent w' = w_sent w /\ w_pending w' = w_pending w.
Proof. intros w. split; [reflexivity | exact (toggle_remote_no_refetch w eq_refl)]. Defined.

Lemma jobs_params_deps a b :
  jobs_deps a = jobs_deps b -> isRemote a = isRemote b -> jobs_params a = jobs_params b.
Proof. intros H Hr. destruct a, b. cbn in *. simplify_eq. reflexivity. Qed.

(** C8: choosing a seniority level, a job type or a salary bound, or
    typing in the search or location box, in a way that changes the
    request the page would send, sends that request at the next
    render. *)
Theorem filter_change_refetches ev w :
  w_rendered w = Some (w_state w) ->
  match ev with
  | SelectLevel _ | SelectJobType _ | SalaryChange _ _ | TypeSearch _ | TypeLocation _ => True
  | _ => False
  end ->
  comp_offered ev (w_state w) = true ->
  let s' := w_state (advance (comp_handle ev (w_state w)) w) in
  jobs_params s' <> jobs_params (w_state w) ->
  w_sent (event_then_render ev w) = (w_sent w ++ [jobs_req s'])%list.
Proof.
  intros Hr Hev Hoff s' Hp.
  assert (Hne : jobs_deps s' <> jobs_deps (w_state w)).
  { intros Heq. apply Hp. apply jobs_params_deps; [done|]. subst s'.
    destruct ev as [v|v| |r|l|t| |sid v| |j]; try contradiction;
      [..|destruct (offered_salary_id sid v _ Hoff) as [->| ->]]; destruct w; reflexivity. }
  clear Hp.
  destruct ev as [v|v| |r|l|t| |sid v| |j]; try contradiction;
    [..|destruct (offered_salary_id sid v _ Hoff) as [->| ->]];
    unfold event_then_render; rewrite advance_rendered, Hr;
    destruct w as [s rd pd o sn]; subst s'; simpl in *;
    rewrite decide_False by congruence; rewrite decide_True by reflexivity; done.
Qed.

Lemma filter_change_refetches_witness :
  let w := mkWorld initial (Some initial) [] [] [] : World unit (option Body) State in
  let ev := SelectLevel "senior" in
  w_rendered w = Some (w_state w) /\ comp_offered ev (w_state w) = true /\
  jobs_params (w_state (advance (comp_handle ev (w_state w)) w)) <> jobs_params (w_state w) /\
  w_sent (event_then_render ev w) =
    (w_sent w ++ [jobs_req (w_state (advance (comp_handle ev (w_state w)) w))])%list.
Proof.
  intros w ev. split_and!; [reflexivity | reflexivity | discriminate |].
  apply (filter_change_refetches ev w); [reflexivity | exact I | reflexivity | discriminate].
Defined.

(** ** Clearing the filters *)



Lemma fetchJobs_advance s w :
  w_state (advance (detach (fetchJobs s)) w) = setIsLoading true (w_state w) /\
  w_sent (advance (detach (fetchJobs s)) w) = (w_sent w ++ [jobs_req s])%list /\
  w_state (advance (fetchJobs s) w) = setIsLoading true (w_state w) /\
  w_sent (advance (fetchJobs s) w) = (w_sent w ++ [jobs_req s])%list.
Proof. cbn -[jobs_req]. split_and!; reflexivity. Qed.

Lemma clear_advance s w :
  w_state (advance (handleClearFilters s) w) = setIsLoading true (cleared (w_state w)) /\
  w_sent (advance (handleClearFilters s) w) = (w_sent w ++ [jobs_req s])%list.
Proof. cbn -[jobs_req]. split; reflexivity. Qed.

Lemma jobs_deps_isLoading b s : jobs_deps (setIsLoading b s) = jobs_deps s.
Proof. reflexivity. Qed.
Lemma setIsLoading_idem b b' s : setIsLoading b (setIsLoading b' s) = setIsLoading b s.
Proof. reflexivity. Qed.

(** C4: [Clear] resets the filter state, but the [fetchJobs] it calls
    belongs to the render before the reset: when some filter was set, it
    first sends the request of the old filters, and the request of the
    cleared filters follows, sent by the effect at the next render. *)
Theorem clear_sends_old_filters w :
  w_rendered w = Some (w_state w) ->
  jobs_deps (w_state w) <> jobs_deps (cleared (w_state w)) ->
  let w' := event_then_render ClearFilters w in
  w_state w' = setIsLoading true (cleared (w_state w)) /\
  w_sent w' = (w_sent w ++ [jobs_req (w_state w); jobs_req (setIsLoading true (cleared (w_state w)))])%list.
Proof.
  intros Hr Hd w'. subst w'. unfold event_then_render.
  change (comp_handle ClearFilters (w_state w)) with (handleClearFilters (w_state w)).
  destruct (clear_advance (w_state w) w) as [Hs Hsent].
  pose proof (advance_rendered (handleClearFilters (w_state w)) w) as Hren.
  set (w1 := advance (handleClearFilters (w_state w)) w) in *.
  change (comp_effects (w_rendered w1) (w_state w1)) with (effects (w_rendered w1) (w_state w1)).
  rewrite Hren, Hr, Hs. unfold effects. rewrite jobs_deps_isLoading.
  rewrite decide_False by exact Hd. rewrite decide_True by reflexivity.
  rewrite app_nil_r. change (spawn_all [?t] ?w) with (advance t w).
  destruct (fetchJobs_advance (setIsLoading true (cleared (w_state w)))
    (with_rendered (Some (setIsLoading true (cleared (w_state w)))) w1)) as (_ & _ & H1 & H2).
  rewrite H1, H2. cbn [w_state w_sent with_rendered]. rewrite Hs, Hsent, setIsLoading_idem.
  split; [reflexivity|]. by rewrite <- app_assoc.
Qed.


Lemma clear_sends_old_filters_witness :
  let s := setSelectedLevel "senior" initial in
  let w := mkWorld s (Some s) [] [] [] : World unit (option Body) State in
  w_rendered w = Some (w_state w) /\
  jobs_deps (w_state w) <> jobs_deps (cleared (w_state w)) /\
  let w' := event_then_render ClearFilters w in
  w_state w' = setIsLoading true (cleared (w_state w)) /\
  w_sent w' = (w_sent w ++ [jobs_req (w_state w); jobs_req (setIsLoading true (cleared (w_state w)))])%list.
Proof.
  intros s w. assert (Hd : jobs_deps (w_state w) <> jobs_deps (cleared (w_state w))) by discriminate.
  split_and!; [reflexivity | exact Hd | exact (clear_sends_old_filters w eq_refl Hd)].
Defined.

(** C10: the request race of [Clear]: after choosing the level [senior]
    and clearing, the response to the old request can arrive last; the
    page then settles (nothing pending, state committed) with every filter
    cleared while it lists the jobs of the senior filter only. *)
Theorem clear_race_shows_old_results :
  let jA := Job.mkJob 1 "" "A" "" "Senior dev" "Baku" "AZ" "full-time" in
  let jB := Job.mkJob 2 "" "B" "" "Junior dev" "Baku" "AZ" "full-time" in
  let srv := fun r : Request unit =>
    (if includes (req_url r) "seniorityLevel=senior" then Reply 200 (Some (JobPage (Some [jA]) (Some 1%Z)))
     else if includes (req_url r) "/categories" then Reply 200 (Some (CategoryList []))
     else Reply 200 (Some (JobPage (Some [jA; jB]) (Some 2%Z)))) : Response (option Body) in
  exists w, @reachable _ _ _ _ component srv w /\
    w_pending w = [] /\ w_rendered w = Some (w_state w) /\
    selectedLevel (w_state w) = "" /\ jobs_deps (w_state w) = jobs_deps initial /\
    filteredJobs (w_state w) = [jA].
Proof.
  intros jA jB srv. eexists. split.
  - unfold reachable.
    run_render. run_deliver 0. run_deliver 0. run_render.
    run_event (SelectLevel "senior"). run_render. run_deliver 0. run_render.
    run_event ClearFilters. run_render.
    run_deliver 1. run_deliver 0. run_render.
    apply rtc_refl.
  - split_and!; reflexivity.
Qed.

Lemma countLoop_preserves R cats m :
  preserves R (countLoop cats m).
Proof.
  revert m. induction cats as [|c cats IH]; intros m; cbn [countLoop]; [constructor|].
  unfold calculateJobCounts. prove_preserves. apply IH.
Qed.

(** ** The remote filter *)



Lemma threads_keep_remote_off s :
  preserves remote_off (fetchJobs s) /\ preserves remote_off fetchCategories /\
  preserves remote_off (countsEffect s).
Proof.
  unfold fetchJobs, fetchCategories, countsEffect, loadJobCounts. split_and!;
    prove_preserves; try apply countLoop_preserves; unfold remote_off in *; simpl in *; auto.
Qed.

Lemma handle_keeps_remote_off ev s :
  ev <> ToggleRemote -> preserves remote_off (handle ev s).
Proof.
  intros Hev. destruct ev; try congruence;
    unfold handle, handleSearch, handleClearFilters, handleSalaryChange,
      handleRoleFilter, handleLevelFilter, handleJobTypeFilter;
    prove_preserves; try apply (proj1 (threads_keep_remote_off _));
    unfold remote_off in *; simpl in *; destruct_and?; auto.
Qed.

(** C12: the remote radio has no [checked] prop, so [Clear] cannot uncheck
    it and a checked radio fires no [onChange]: once the remote filter
    has been cleared, [isRemote] stays false for the rest of the page's
    life, whatever the user and the server do. *)
Theorem remote_filter_lost_after_clear srv w w' :
  reachable srv w -> remoteChecked (w_state w) = true -> isRemote (w_state w) = false ->
  rtc (step srv) w w' -> isRemote (w_state w') = false /\ offered ToggleRemote (w_state w') = false.
Proof.
  intros Hreach Hc Hi Hsteps.
  assert (Heff : forall prev s, Forall (preserves remote_off) (effects prev s)).
  { intros prev s. destruct (threads_keep_remote_off s) as (H1 & H2 & H3).
    destruct prev; unfold effects; [apply Forall_app; split; case_decide|];
      repeat first [apply Forall_nil | apply Forall_cons; split]; auto. }
  assert (Hp : pending_ok remote_off w).
  { apply (reachable_pending_ok remote_off srv w); [|intros; apply Forall_impl with (1 := Heff _ _);
      intros; by apply preserves_resumes | exact Hreach].
    intros ev s _. change (resumes remote_off (handle ev s)).
    destruct (decide (ev = ToggleRemote)) as [->|Hev].
    - repeat constructor.
    - by apply preserves_resumes, handle_keeps_remote_off. }
  assert (Hw' : remote_off (w_state w') /\ pending_ok remote_off w').
  { apply (invariant_from remote_off srv w w'); [|intros; apply Heff | split; done | done | done].
    intros ev s [Hc' _] Hoff. change (preserves remote_off (handle ev s)).
    destruct (decide (ev = ToggleRemote)) as [->|Hev].
    - simpl in Hoff. by rewrite Hc' in Hoff.
    - by apply handle_keeps_remote_off. }
  destruct Hw' as [[Hc' Hi'] _]. split; [done|]. simpl. by rewrite Hc'.
Qed.

Lemma remote_filter_lost_after_clear_witness :
  let srv := fun _ : Request unit => (NetworkFailure : Response (option Body)) in
  exists w, reachable srv w /\ remoteChecked (w_state w) = true /\
    isRemote (w_state w) = false /\ rtc (step srv) w w /\
    isRemote (w_state w) = false /\ offered ToggleRemote (w_state w) = false.
Proof.
  intros srv.
  assert (Hr : exists w, @reachable _ _ _ _ component srv w /\ remoteChecked (w_state w) = true /\
                 isRemote (w_state w) = false).
  { eexists. split; [|split].
    - unfold reachable. run_render. run_render. run_event ToggleRemote. run_render.
      run_event ClearFilters. apply rtc_refl.
    - reflexivity.
    - reflexivity. }
  destruct Hr as (w & Hw & Hc & Hi). exists w. split_and!; [done | done | done | apply rtc_refl |..];
    apply (remote_filter_lost_after_clear srv w w Hw Hc Hi (rtc_refl _ _)).
Defined.

(** ** The job counts *)

Lemma countLoop_run srv cats m s :
  Forall (fun c => axios_ok (srv (count_req (Category.id c))) <> None) cats ->
  run srv (countLoop cats m) s =
    mkRun (Done (foldl (fun m c => <[Category.id c := count_of srv (Category.id c)]> m) m cats)) s
      (List.concat (map (fun _ => count_logs) cats)) (map (fun c => count_req (Category.id c)) cats).
Proof.
  intros Hok. revert m. induction Hok as [|c cats Hc _ IH]; intros m; [reflexivity|].
  unfold count_of, axios_ok in *. cbn [countLoop]. simpl.
  destruct (srv (count_req (Category.id c))) as [|st b]; [contradiction|].
  destruct (is_2xx st); [|contradiction]. simpl. rewrite IH. reflexivity.
Qed.

Lemma foldl_insert_lookup (f : Z -> option Z) cats (m : gmap Z (option Z)) i :
  foldl (fun m c => <[Category.id c := f (Category.id c)]> m) m cats !! i =
    if bool_decide (i ∈ map Category.id cats) then Some (f i) else m !! i.
Proof.
  revert m. induction cats as [|c cats IH]; intros m; simpl; [done|]. rewrite IH.
  destruct (decide (i = Category.id c)) as [->|Hne].
  - rewrite lookup_insert_eq, (bool_decide_true (_ ∈ _ :: _)) by apply list_elem_of_here.
    by case_bool_decide.
  - rewrite lookup_insert_ne by congruence.
    rewrite (bool_decide_ext (i ∈ Category.id c :: map Category.id cats) (i ∈ map Category.id cats));
      [done|]. rewrite elem_of_cons. naive_solver.
Qed.

(** When every count request succeeds, [loadJobCounts] sends one
    request per category, in order, and stores for every category id the
    [total] the server gave for it, and nothing for any other id. *)
Theorem loadJobCounts_ok srv cats s :
  Forall (fun c => axios_ok (srv (count_req (Category.id c))) <> None) cats ->
  let r := run srv (loadJobCounts cats) s in
  outcome r = Done tt /\ sent r = map (fun c => count_req (Category.id c)) cats /\
  forall i, jobCounts (final r) !! i =
    if bool_decide (i ∈ map Category.id cats) then Some (count_of srv i) else None.
Proof.
  intros Hok r. subst r. unfold loadJobCounts. rewrite run_bind, countLoop_run by done.
  simpl. rewrite app_nil_r. split_and!; [done | done |]. intros i.
  by rewrite foldl_insert_lookup, lookup_empty.
Qed.

Lemma loadJobCounts_ok_witness :
  let srv := fun _ : Request unit => (Reply 200 (Some (JobPage None (Some 4%Z))) : Response (option Body)) in
  let cats := [Category.mkCategory 1 "IT" "" ""; Category.mkCategory 2 "Design" "" ""] in
  Forall (fun c => axios_ok (srv (count_req (Category.id c))) <> None) cats /\
  let r := run srv (loadJobCounts cats) initial in
  outcome r = Done tt /\ sent r = map (fun c => count_req (Category.id c)) cats /\
  forall i, jobCounts (final r) !! i =
    if bool_decide (i ∈ map Category.id cats) then Some (count_of srv i) else None.
Proof.
  intros srv cats.
  assert (H : Forall (fun c => axios_ok (srv (count_req (Category.id c))) <> None) cats)
    by (repeat constructor; discriminate).
  split; [exact H | exact (loadJobCounts_ok srv cats initial H)].
Defined.

Lemma countLoop_fail srv pre c post m s :
  Forall (fun c => axios_ok (srv (count_req (Category.id c))) <> None) pre ->
  axios_ok (srv (count_req (Category.id c))) = None ->
  let r := run srv (countLoop (pre ++ c :: post) m) s in
  (exists e, outcome r = Failed e) /\ final r = s /\
  sent r = map (fun c => count_req (Category.id c)) (pre ++ [c]).
Proof.
  intros Hok Hc. revert m. induction Hok as [|c' pre Hc' _ IH]; intros m; simpl.
  - unfold axios_ok in Hc. simpl.
    destruct (srv (count_req (Category.id c))) as [|st b]; simpl;
      [|destruct (is_2xx st); [discriminate|]]; simpl; split_and!; eauto.
  - unfold axios_ok in Hc'.
    destruct (srv (count_req (Category.id c'))) as [|st b]; [contradiction|].
    destruct (is_2xx st); [|contradiction]. simpl.
    destruct (IH (<[Category.id c' := total_of b]> m)) as (He & Hs & Hsent).
    split_and!; [exact He | exact Hs | by rewrite Hsent].
Qed.

(** The loop has no [try]: when the count request of one category
    fails, [loadJobCounts] rejects at once, sends no request for the
    categories after it and leaves [jobCounts] unset, so every role shows
    the count 0. *)
Theorem loadJobCounts_fail srv pre c post s :
  Forall (fun c => axios_ok (srv (count_req (Category.id c))) <> None) pre ->
  axios_ok (srv (count_req (Category.id c))) = None ->
  let r := run srv (loadJobCounts (pre ++ c :: post)) s in
  (exists e, outcome r = Failed e) /\ final r = s /\
  sent r = map (fun c => count_req (Category.id c)) (pre ++ [c]).
Proof.
  intros Hok Hc r. subst r. unfold loadJobCounts. rewrite run_bind.
  destruct (countLoop_fail srv pre c post ∅ s Hok Hc) as ([e He] & Hs & Hsent).
  simpl. rewrite He. simpl. split_and!; [by exists e | done | done].
Qed.

Lemma loadJobCounts_fail_witness :
  let srv := fun _ : Request unit => (NetworkFailure : Response (option Body)) in
  let c := Category.mkCategory 1 "IT" "" "" in
  let post := [Category.mkCategory 2 "Design" "" ""] in
  Forall (fun c => axios_ok (srv (count_req (Category.id c))) <> None) [] /\
  axios_ok (srv (count_req (Category.id c))) = None /\
  let r := run srv (loadJobCounts ([] ++ c :: post)) initial in
  (exists e, outcome r = Failed e) /\ final r = initial /\
  sent r = map (fun c => count_req (Category.id c)) ([] ++ [c]).
Proof.
  intros srv c post. split_and!; [constructor | reflexivity |].
  exact (loadJobCounts_fail srv [] c post initial (List.Forall_nil _) eq_refl).
Defined.

(** ** The time labels *)

(** [formatTimeAgo] labels a job created less than a day ago
    "Today"; a creation date in the future (a clock ahead of the user's)
    gives a negative day count, labelled like "-1 days ago". *)
Theorem formatTimeAgo_bounds d :
  ((0 <= d < 86400000)%Z -> formatTimeAgo (Some d) = "Today") /\
  ((d < 0)%Z -> (d / 86400000 <= -1)%Z /\
     formatTimeAgo (Some d) = z_to_string (d / 86400000) ++ " days ago").
Proof.
  unfold formatTimeAgo. change (1000 * 60 * 60 * 24)%Z with 86400000%Z. split; intros H.
  - by rewrite Z.div_small by lia.
  - assert (Hq : (d / 86400000 <= -1)%Z).
    { pose proof (Z.div_mod d 86400000 ltac:(lia)). pose proof (Z.mod_pos_bound d 86400000 ltac:(lia)). lia. }
    split; [done|].
    set (q := (d / 86400000)%Z) in *.
    replace (q =? 0)%Z with false by (symmetry; apply Z.eqb_neq; lia).
    replace (q <? 30)%Z with true by (symmetry; apply Z.ltb_lt; lia).
    replace (q =? 1)%Z with false by (symmetry; apply Z.eqb_neq; lia). reflexivity.
Qed.

Lemma formatTimeAgo_bounds_witness :
  (-3600000 < 0)%Z /\ formatTimeAgo (Some (-3600000)%Z) = "-1 days ago".
Proof.
  split; [lia|]. exact (proj2 (proj2 (formatTimeAgo_bounds (-3600000)%Z) ltac:(lia))).
Defined.

(** ** The page number *)



Lemma currentPage_invariant srv w :
  reachable srv w -> currentPage (w_state w) = 1%Z.
Proof.
  pose (R := fun s => currentPage s = 1%Z).
  assert (Hf : forall s, R s -> preserves R (fetchJobs s)).
  { intros s Hs. unfold fetchJobs. prove_preserves; unfold R in *; simpl in *; auto. }
  assert (Hc : preserves R fetchCategories).
  { unfold fetchCategories. prove_preserves; unfold R in *; simpl in *; auto. }
  assert (He : forall s, preserves R (countsEffect s)).
  { intros s. unfold countsEffect, loadJobCounts. prove_preserves;
      [apply countLoop_preserves | unfold R in *; simpl in *; auto]. }
  apply (state_invariant R); [done| |].
  - intros ev s Hs _. change (preserves R (handle ev s)).
    destruct ev; unfold handle, handleSearch, handleClearFilters, handleSalaryChange,
      handleRoleFilter, handleLevelFilter, handleJobTypeFilter, handleRemoteFilter;
      prove_preserves; unfold R in *; simpl in *; auto.
  - intros prev s Hs. change (Forall (preserves R) (effects prev s)).
    destruct prev; unfold effects.
    + apply Forall_app; split; case_decide.
      * constructor.
      * constructor; [auto|constructor].
      * constructor.
      * constructor; [auto|constructor].
    + constructor; [auto|]. constructor; [auto|]. constructor; [auto|constructor].
Qed.

(** The page never leaves page 1: [currentPage] starts at 1 and is
    only ever set to 1 (there is no control that changes the page or the
    page size, which stays 10), so every request asks for [page=1]. *)
Theorem currentPage_always_1 srv w :
  reachable srv w -> currentPage (w_state w) = 1%Z /\ jobs_params (w_state w) !! 1%nat = Some ("page", "1").
Proof.
  intros Hreach. pose proof (currentPage_invariant srv w Hreach) as Hp.
  split; [done|]. unfold jobs_params. simpl. by rewrite Hp.
Qed.

Lemma currentPage_always_1_witness :
  let srv := fun _ : Request unit => (Reply 200 (Some (JobPage None None)) : Response (option Body)) in
  exists w, reachable srv w /\ w_sent w <> [] /\
    currentPage (w_state w) = 1%Z /\ jobs_params (w_state w) !! 1%nat = Some ("page", "1").
Proof.
  intros srv.
  assert (Hr : exists w, @reachable _ _ _ _ component srv w /\ w_sent w <> []).
  { eexists. split.
    - unfold reachable. run_render. run_render. run_event ClickSearch. apply rtc_refl.
    - discriminate. }
  destruct Hr as (w & Hw & Hs). exists w. do 2 (split; [done|]).
  exact (currentPage_always_1 srv w Hw).
Defined.

End FindJobs.
