(* ===== verification/Crud.v ===== *)
(** * Crud: the category and industry admin pages,
      [Pages/Admin/CategoryPage.tsx] and [Pages/Admin/IndustryPage.tsx]

    The two pages are the same program over two entities: a list fetched
    at mount, a form ([CategoryForm], [IndustryForm]) whose [name] is the
    form's own state, an [editing...] item that switches the form between
    create and update, and the [handleSubmit] and [handleDelete] handlers
    that call the API and patch the local list with a functional
    [set...(prev => ...)] update. Where they differ is captured by the
    class [CrudApi]: the URLs, the messages, how the list is patched after
    an update ([{...category, name}] against [response.data.industry]),
    what a creation appends ([response.data] against
    [response.data.industry]) and whether the form clears its name after
    a submission.

    The generic page is a [Section] over an instance of [CrudApi]; the
    files [CategoryAdmin] and [IndustryAdmin] give the two instances.
    The abstract specification of the list is a finite map from ids to
    items ([abs]); the refinement theorems show that each successful
    operation changes [abs] of the shown list as the corresponding map
    operation ([alter], [insert], [delete]).

    Modelling choices: a response that would put [undefined] into the list
    (a missing [industry] field, a creation answered without an object, a
    list answered with something else than an array) makes the next render
    throw; the page is then [crashed] and offers no event. *)

From stdpp Require Import base list strings sets gmap relations.
From Stdlib Require Import ZArith String.
From S2P Require Import Prelude Async Runtime Model.

Module Crud.

(** The JSON bodies of the API: an array of items, an item, the object
    [{industry: ...}] of the industry endpoints (its field possibly
    missing), or anything else. *)
Inductive Body (Item : Type) :=
| BList (l : list Item)
| BItem (x : Item)
| BWrapped (x : option Item)
| BOther.
Arguments BList {Item}.
Arguments BItem {Item}.
Arguments BWrapped {Item}.
Arguments BOther {Item}.

(** What distinguishes the two pages. *)
Class CrudApi (Item : Type) := {
  noun : string;
  plural : string;
  list_url : string;
  item_url : Z -> string;
  post_url : string;
  item_id : Item -> Z;
  item_name : Item -> string;
  created_of : Body Item -> option Item;
  updated_list : Z -> string -> Body Item -> list Item -> option (list Item);
  resets_name : option Item -> bool
}.

Section Page.
Context {Item : Type} `{!EqDecision Item} `{!CrudApi Item}.

(** [categories]/[industries], [editing...], the form's [name], and
    whether a render has thrown. *)
Record State := mkState {
  items : list Item;
  editing : option Item;
  name : string;
  crashed : bool
}.

Definition initial : State := mkState [] None "" false.

Definition setItems (l : list Item) (s : State) : State := mkState l (editing s) (name s) (crashed s).
Definition setEditing (e : option Item) (s : State) : State := mkState (items s) e (name s) (crashed s).
Definition setName (n : string) (s : State) : State := mkState (items s) (editing s) n (crashed s).
Definition crash (s : State) : State := mkState (items s) (editing s) (name s) true.

Abbreviation P := (Prog string (Body Item) State).

Definition list_req : Request string := GetReq list_url.
Definition put_req (id : Z) (nm : string) : Request string := mkRequest PUT (item_url id) (Some nm).
Definition post_req (nm : string) : Request string := mkRequest POST post_url (Some nm).
Definition delete_req (id : Z) : Request string := mkRequest DELETE (item_url id) None.

(** [fetchCategories] / [fetchIndustries]. *)
Definition fetchList : P unit :=
  catch_
    (r <- axios list_req ;;
     match r.2 with
     | BList l => set (setItems l)
     | _ => set crash
     end)
    (fun _ => emit (Console ("Failed to fetch " ++ plural ++ ":")) ;;
              emit (Toast ("Failed to load " ++ plural ++ ". Please try again.") true)).

(** The creation branch of [handleSubmit]. *)
Definition create (nm : string) : P unit :=
  r <- axios (post_req nm) ;;
  set (fun s => match created_of r.2 with Some x => setItems (items s ++ [x]) s | None => crash s end) ;;
  emit (Toast (noun ++ " created successfully") false).

(** The update branch of [handleSubmit]. *)
Definition update (id : Z) (nm : string) : P unit :=
  r <- axios (put_req id nm) ;;
  set (fun s => match updated_list id nm r.2 (items s) with Some l => setItems l s | None => crash s end) ;;
  emit (Toast (noun ++ " updated successfully") false).

(** [handleSubmit(name, id)]: [if (id)] is false for a missing id and for
    the id [0]. *)
Definition handleSubmit (nm : string) (id : option Z) : P unit :=
  catch_
    ((match id with
      | Some i => if negb (i =? 0)%Z then update i nm else create nm
      | None => create nm
      end) ;;
     set (setEditing None))
    (fun _ => emit (Console ("Failed to submit " ++ lower noun ++ ":")) ;;
              emit (Toast ("Failed to save " ++ lower noun ++ ". Please try again.") true)).

(** [handleDelete(id)]. *)
Definition handleDelete (id : Z) : P unit :=
  catch_
    (axios (delete_req id) ;;
     set (fun s => setItems (List.filter (fun c => negb (item_id c =? id)%Z) (items s)) s) ;;
     emit (Toast (noun ++ " deleted successfully") false))
    (fun _ => emit (Console ("Failed to delete " ++ lower noun ++ ":")) ;;
              emit (Toast ("Failed to delete " ++ lower noun ++ ". Please try again.") true)).

(** The user's actions: typing in the name input, submitting the form
    (blocked by [required] while the name is empty), the edit and delete
    buttons of a listed item, and [Cancel Edit]. *)
Inductive Event :=
| TypeName (v : string)
| Submit
| ClickEdit (x : Item)
| ClickDelete (id : Z)
| CancelEdit.

Definition offered (ev : Event) (s : State) : bool :=
  negb (crashed s) &&
  match ev with
  | TypeName _ => true
  | Submit => negb (name s =? "")%string
  | ClickEdit x => bool_decide (x ∈ items s)
  | ClickDelete id => existsb (fun c => item_id c =? id)%Z (items s)
  | CancelEdit => bool_decide (editing s <> None)
  end.

(** The form's [handleSubmit] calls [onSubmit(name, item?.id)] without
    awaiting it and then may clear the name. The part of the page's
    [handleSubmit] before its first [await] changes no state, so clearing
    the name first is the same. *)
Definition handle (ev : Event) (s : State) : P unit :=
  match ev with
  | TypeName v => set (setName v)
  | Submit =>
      (if resets_name (editing s) then set (setName "") else Ret tt) ;;
      detach (handleSubmit (name s) (option_map item_id (editing s)))
  | ClickEdit x => set (setEditing (Some x))
  | ClickDelete id => detach (handleDelete id)
  | CancelEdit => set (setEditing None)
  end.

(** The form's effect on its [category]/[industry] prop. *)
Definition formEffect (s : State) : P unit :=
  set (setName (match editing s with Some x => item_name x | None => "" end)).

(** The page's mount effect and the form's effect. *)
Definition effects (prev : option State) (s : State) : list (P unit) :=
  match prev with
  | None => [fetchList; formEffect s]
  | Some r => if decide (editing r = editing s) then [] else [formEffect s]
  end.

#[global] Instance component : Component string (Body Item) State Event :=
  {| comp_init := initial; comp_effects := effects;
     comp_offered := offered; comp_handle := handle |}.

(** The abstract list: a finite map from ids to items. *)
Definition abs (l : list Item) : gmap Z Item := list_to_map (map (fun c => (item_id c, c)) l).

End Page.
Section Facts.
Context {Item : Type} `{!EqDecision Item} `{!CrudApi Item}.
Implicit Types (l : list Item) (s : State (Item := Item)).

Lemma abs_cons c l : abs (c :: l) = <[item_id c := c]> (abs l).
Proof. reflexivity. Qed.

Lemma abs_lookup_fresh l i : i ∉ map item_id l -> abs l !! i = None.
Proof.
  induction l as [|c l IH]; intros Hi; [done|].
  rewrite fmap_cons, elem_of_cons in Hi. rewrite abs_cons, lookup_insert_ne by intuition congruence.
  apply IH. tauto.
Qed.

Lemma abs_app_fresh l x :
  item_id x ∉ map item_id l -> abs (l ++ [x]) = <[item_id x := x]> (abs l).
Proof.
  induction l as [|c l IH]; intros Hx; [reflexivity|].
  rewrite fmap_cons, elem_of_cons in Hx. simpl app. rewrite !abs_cons, IH by tauto.
  apply insert_insert_ne. intuition congruence.
Qed.

Lemma abs_filter l i :
  NoDup (map item_id l) ->
  abs (List.filter (fun c => negb (item_id c =? i)%Z) l) = delete i (abs l).
Proof.
  induction l as [|c l IH]; intros Hnd; simpl; [unfold abs; simpl; by rewrite delete_empty|].
  inversion Hnd as [|? ? Hc Hnd']; subst. rewrite abs_cons.
  destruct (Z.eqb_spec (item_id c) i) as [<-|Hne]; simpl.
  - rewrite delete_insert_eq. by apply IH.
  - rewrite abs_cons, IH by done. rewrite delete_insert_ne; congruence.
Qed.

Lemma filter_ids_NoDup l i :
  NoDup (map item_id l) -> NoDup (map item_id (List.filter (fun c => negb (item_id c =? i)%Z) l)).
Proof.
  induction l as [|c l IH]; intros Hnd; simpl; [constructor|].
  inversion Hnd as [|? ? Hc Hnd']; subst.
  destruct (negb (item_id c =? i)%Z); simpl; [|by apply IH].
  constructor; [|by apply IH]. intros Hin. apply Hc.
  apply list_elem_of_In in Hin. apply list_elem_of_In.
  apply in_map_iff in Hin as (y & Hy & Hyin). apply in_map_iff. exists y.
  split; [done|]. by apply filter_In in Hyin as [? _].
Qed.

(** An update that the server accepts patches the list as the page's
    [updated_list] says, leaves the form in create mode and shows the
    success toast; a rejected update only logs and shows the error toast,
    keeping the list and the item being edited. *)
Theorem handleSubmit_update_run srv nm i s :
  i <> 0%Z ->
  run srv (handleSubmit nm (Some i)) s =
    match axios_ok (srv (put_req i nm)) with
    | Some b =>
        mkRun (Done tt)
          (setEditing None (match updated_list i nm b (items s) with
                            | Some l => setItems l s | None => crash s end))
          [Toast (noun ++ " updated successfully") false] [put_req i nm]
    | None =>
        mkRun (Done tt) s
          [Console ("Failed to submit " ++ lower noun ++ ":");
           Toast ("Failed to save " ++ lower noun ++ ". Please try again.") true] [put_req i nm]
    end.
Proof.
  intros Hi. unfold handleSubmit. rewrite (proj2 (Z.eqb_neq i 0) Hi). unfold update, axios_ok. simpl.
  destruct (srv (put_req i nm)) as [|st b]; simpl; [reflexivity|].
  destruct (is_2xx st); simpl; [|reflexivity].
  by destruct (updated_list i nm b (items s)).
Qed.



(** C39: a creation that the server accepts appends what the page's
    [created_of] reads from the reply; with a fresh id the abstract list
    gains exactly that item and the ids stay distinct. A creation is sent
    when no item is being edited and also when the edited item has the
    id [0], since [if (id)] treats [0] as absent. *)
Theorem create_refines srv nm id s b x :
  (id = None \/ id = Some 0%Z) ->
  axios_ok (srv (post_req nm)) = Some b -> created_of b = Some x ->
  NoDup (map item_id (items s)) -> item_id x ∉ map item_id (items s) ->
  let r := run srv (handleSubmit nm id) s in
  sent r = [post_req nm] /\ editing (final r) = None /\
  abs (items (final r)) = <[item_id x := x]> (abs (items s)) /\
  NoDup (map item_id (items (final r))).
Proof.
  intros Hid Hok Hx Hnd Hfresh r. subst r.
  assert (Hrun : run srv (handleSubmit nm id) s =
    mkRun (Done tt) (setEditing None (setItems (items s ++ [x]) s))
      [Toast (noun ++ " created successfully") false] [post_req nm]).
  { unfold handleSubmit, create. unfold axios_ok in Hok.
    destruct Hid as [->| ->]; simpl;
      destruct (srv (post_req nm)) as [|st b']; try discriminate; simpl;
      destruct (is_2xx st); try discriminate; injection Hok as ->; simpl; by rewrite Hx. }
  rewrite Hrun. simpl. split_and!; [done | done | by apply abs_app_fresh |].
  rewrite map_app. apply NoDup_app. split_and!; [done | | apply NoDup_singleton].
  intros y Hy Hy'. apply list_elem_of_singleton in Hy'. by subst.
Qed.

(** A deletion that the server accepts removes the item from the
    list: the abstract list loses exactly the id, and the ids stay
    distinct; a rejected deletion keeps the list. *)
Theorem delete_refines srv id s :
  NoDup (map item_id (items s)) ->
  let r := run srv (handleDelete id) s in
  sent r = [delete_req id] /\
  match axios_ok (srv (delete_req id)) with
  | Some _ => abs (items (final r)) = delete id (abs (items s)) /\
              NoDup (map item_id (items (final r)))
  | None => final r = s
  end.
Proof.
  intros Hnd r. subst r. unfold handleDelete, axios_ok. simpl.
  destruct (srv (delete_req id)) as [|st b]; simpl; [done|].
  destruct (is_2xx st); simpl; [|done].
  split_and!; [done | by apply abs_filter | by apply filter_ids_NoDup].
Qed.

(** When the server rejects the submission, the list and the edited
    item are kept and the error toast is shown; the typed name is kept
    only when the page's form does not clear it on submit. *)
Theorem submit_failure srv s :
  (forall q, axios_ok (srv q) = None) ->
  let r := run srv (handle Submit s) s in
  final r = (if resets_name (editing s) then setName "" s else s) /\
  emitted r = [Console ("Failed to submit " ++ lower noun ++ ":");
               Toast ("Failed to save " ++ lower noun ++ ". Please try again.") true].
Proof.
  intros Hfail r. subst r. unfold handle, handleSubmit, update, create.
  destruct (resets_name (editing s)); destruct (editing s) as [c|]; simpl;
    try destruct (item_id c =? 0)%Z; simpl;
    match goal with |- context [srv ?q] =>
      pose proof (Hfail q) as Hq; unfold axios_ok in Hq;
      destruct (srv q) as [|st b]; [|destruct (is_2xx st); [discriminate|]]
    end; simpl; split; reflexivity.
Qed.

End Facts.
End Crud.
