(* ===== verification/CategoryAdmin.v ===== *)
(** * CategoryAdmin: [Pages/Admin/CategoryPage.tsx] as an instance of [Crud]

    The category page patches the list itself after an update
    ([{...category, name}]), appends [response.data] after a creation,
    and its form clears the name only in create mode. The theorems show
    that an accepted update renames exactly the edited category in the
    abstract list, and they instantiate the generic theorems of [Crud] at
    concrete inputs. *)

From stdpp Require Import base list strings sets gmap relations.
From Stdlib Require Import ZArith String.
From S2P Require Import Prelude Async Runtime Model Crud.

Module CategoryAdmin.
Import Crud.

(** [{ ...category, name: name }] (line 118). *)
Definition rename (c : Category.Category) (nm : string) : Category.Category :=
  Category.mkCategory (Category.id c) nm (Category.created_at c) (Category.updated_at c).

(** The [setCategories] updater of the update branch (lines 116-120). *)
Definition updated_list (id : Z) (nm : string) (_ : Body Category.Category)
    (l : list Category.Category) : option (list Category.Category) :=
  Some (map (fun c => if (Category.id c =? id)%Z then rename c nm else c) l).

(** [response.data] of the creation (lines 123-124). *)
Definition created_of (b : Body Category.Category) : option Category.Category :=
  match b with BItem x => Some x | _ => None end.

(** [if (!category) setName('')] of [CategoryForm] (lines 30-32). *)
Definition resets_name (e : option Category.Category) : bool :=
  match e with None => true | Some _ => false end.

#[global] Instance api : CrudApi Category.Category := {|
  noun := "Category";
  plural := "categories";
  list_url := "/categories";
  item_url id := "/categories/" ++ z_to_string id;
  post_url := "/categories";
  item_id := Category.id;
  item_name := Category.name;
  Crud.created_of := created_of;
  Crud.updated_list := updated_list;
  Crud.resets_name := resets_name
|}.

Abbreviation State := (Crud.State (Item := Category.Category)).

Definition cat (id : Z) (nm : string) : Category.Category := Category.mkCategory id nm "" "".

(** ** Lemmas *)

Lemma abs_rename (l : list Category.Category) i nm :
  NoDup (map Category.id l) ->
  abs (map (fun c => if (Category.id c =? i)%Z then rename c nm else c) l) =
    alter (fun c => rename c nm) i (abs l).
Proof.
  induction l as [|c l IH]; intros Hnd; [done|].
  inversion Hnd as [|? ? Hc Hnd']; subst. simpl map. rewrite !abs_cons, IH by done.
  destruct (Z.eqb_spec (Category.id c) i) as [<-|Hne]; simpl.
  - rewrite alter_insert_eq, (alter_id' _ (abs l)); [done|]. by apply abs_lookup_fresh.
  - by rewrite alter_insert_ne by congruence.
Qed.

Lemma rename_ids (l : list Category.Category) i nm :
  map Category.id (map (fun c => if (Category.id c =? i)%Z then rename c nm else c) l) =
    map Category.id l.
Proof. rewrite map_map. apply map_ext. intros c. by destruct (Category.id c =? i)%Z. Qed.

(** ** Theorems *)

(** C38: an update the server accepts renames exactly the edited category
    in the abstract list (the map operation [alter]), keeps the ids
    distinct and puts the form back in create mode. *)
Theorem category_update_refines srv nm i (s : State) b :
  i <> 0%Z -> NoDup (map Category.id (items s)) ->
  axios_ok (srv (put_req i nm)) = Some b ->
  let r := run srv (handleSubmit nm (Some i)) s in
  abs (items (final r)) = alter (fun c => rename c nm) i (abs (items s)) /\
  NoDup (map Category.id (items (final r))) /\ editing (final r) = None /\ crashed (final r) = crashed s.
Proof.
  intros Hi Hnd Hok r. subst r. rewrite handleSubmit_update_run, Hok by done. simpl.
  split_and!; [by apply abs_rename | by rewrite rename_ids | done | done].
Qed.

Lemma category_update_refines_witness :
  let s := setItems [cat 1 "IT"; cat 2 "Design"] initial : State in
  let srv := fun _ : Request string => (Reply 200 BOther : Response (Body Category.Category)) in
  (1 <> 0)%Z /\ NoDup (map Category.id (items s)) /\ axios_ok (srv (put_req 1 "Tech")) = Some BOther /\
  let r := run srv (handleSubmit "Tech" (Some 1%Z)) s in
  abs (items (final r)) = alter (fun c => rename c "Tech") 1%Z (abs (items s)) /\
  NoDup (map Category.id (items (final r))) /\ editing (final r) = None /\ crashed (final r) = crashed s.
Proof.
  intros s srv. assert (Hnd : NoDup (map Category.id (items s))) by decide_closed.
  split_and!; [lia | exact Hnd | reflexivity |].
  exact (category_update_refines srv "Tech" 1 s BOther ltac:(lia) Hnd eq_refl).
Defined.

(** The category with id [0] is created again instead of renamed. *)
Lemma create_refines_witness :
  let s := setEditing (Some (cat 0 "IT")) (setItems [cat 0 "IT"] initial) : State in
  let srv := fun _ : Request string => (Reply 201 (BItem (cat 7 "Tech")) : Response (Body Category.Category)) in
  (Some 0%Z = None \/ Some 0%Z = Some 0%Z) /\
  axios_ok (srv (post_req "Tech")) = Some (BItem (cat 7 "Tech")) /\
  Crud.created_of (BItem (cat 7 "Tech")) = Some (cat 7 "Tech") /\
  NoDup (map Category.id (items s)) /\ 7%Z ∉ map Category.id (items s) /\
  let r := run srv (handleSubmit "Tech" (Some 0%Z)) s in
  sent r = [post_req "Tech"] /\ editing (final r) = None /\
  abs (items (final r)) = <[item_id (cat 7 "Tech") := cat 7 "Tech"]> (abs (items s)) /\
  NoDup (map item_id (items (final r))).
Proof.
  intros s srv.
  assert (Hnd : NoDup (map Category.id (items s))) by decide_closed.
  assert (Hf : 7%Z ∉ map Category.id (items s)) by decide_closed.
  split_and!; [by right | reflexivity | reflexivity | exact Hnd | exact Hf |].
  exact (create_refines srv "Tech" (Some 0%Z) s (BItem (cat 7 "Tech")) (cat 7 "Tech")
           (or_intror eq_refl) eq_refl eq_refl Hnd Hf).
Defined.

Lemma delete_refines_witness :
  let s := setItems [cat 1 "IT"; cat 2 "Design"] initial : State in
  let srv := fun _ : Request string => (Reply 204 BOther : Response (Body Category.Category)) in
  NoDup (map item_id (items s)) /\
  let r := run srv (handleDelete 2) s in
  sent r = [delete_req 2] /\
  match axios_ok (srv (delete_req 2)) with
  | Some _ => abs (items (final r)) = delete 2%Z (abs (items s)) /\
              NoDup (map item_id (items (final r)))
  | None => final r = s
  end.
Proof.
  intros s srv. assert (Hnd : NoDup (map item_id (items s))) by decide_closed.
  split; [exact Hnd | exact (delete_refines srv 2 s Hnd)].
Defined.

(** When the server rejects a submission, the list is kept and the
    error toast shown; in update mode the form keeps the edited category
    and the typed name, but in create mode the name was cleared when the
    form was submitted, so the entered value is lost. *)
Theorem submit_failure_form srv (s : State) :
  (forall q, axios_ok (srv q) = None) ->
  let s' := final (run srv (handle Submit s) s) in
  items s' = items s /\ editing s' = editing s /\
  name s' = if resets_name (editing s) then "" else name s.
Proof.
  intros Hfail s'. subst s'. destruct (submit_failure srv s Hfail) as [Hf _]. rewrite Hf.
  destruct s as [l [c|] n cr]; split_and!; reflexivity.
Qed.

Lemma submit_failure_form_witness :
  let s := setName "Tech" initial : State in
  let srv := fun _ : Request string => (NetworkFailure : Response (Body Category.Category)) in
  (forall q, axios_ok (srv q) = None) /\
  let s' := final (run srv (handle Submit s) s) in
  items s' = items s /\ editing s' = editing s /\ name s' = if resets_name (editing s) then "" else name s.
Proof.
  intros s srv. assert (Hf : forall q, axios_ok (srv q) = None) by reflexivity.
  split; [exact Hf | exact (submit_failure_form srv s Hf)].
Defined.

End CategoryAdmin.
