(* ===== verification/IndustryAdmin.v ===== *)
(** * IndustryAdmin: [Pages/Admin/IndustryPage.tsx] as an instance of [Crud]

    The industry page reads the updated and the created industry from
    [response.data.industry], writes to [/admin/industries], and its form
    clears the name after every submission, in update mode too. The
    theorems show that an update the server echoes replaces exactly the
    edited industry in the abstract list, that a reply without the
    [industry] field breaks the page, and that a rejected update leaves
    the form in update mode with an empty name. *)

From stdpp Require Import base list strings sets gmap relations.
From Stdlib Require Import ZArith String.
From S2P Require Import Prelude Async Runtime Model Crud.

Module IndustryAdmin.
Import Crud.

(** [response.data.industry]: present only in the object [{industry}]. *)
Definition created_of (b : Body Industry.Industry) : option Industry.Industry :=
  match b with BWrapped (Some x) => Some x | _ => None end.

(** The [setIndustries] updater of the update branch (lines 112-116): the
    edited industry is replaced by [response.data.industry]; when that is
    [undefined] the list gets an [undefined] entry. *)
Definition updated_list (id : Z) (_ : string) (b : Body Industry.Industry)
    (l : list Industry.Industry) : option (list Industry.Industry) :=
  if existsb (fun c => Industry.id c =? id)%Z l then
    match created_of b with
    | Some x => Some (map (fun c => if (Industry.id c =? id)%Z then x else c) l)
    | None => None
    end
  else Some l.

(** [setName('')] of [IndustryForm.handleSubmit] (line 28). *)
Definition resets_name (_ : option Industry.Industry) : bool := true.

#[global] Instance api : CrudApi Industry.Industry := {|
  noun := "Industry";
  plural := "industries";
  list_url := "/industries";
  item_url id := "/admin/industries/" ++ z_to_string id;
  post_url := "/admin/industries";
  item_id := Industry.id;
  item_name := Industry.name;
  Crud.created_of := created_of;
  Crud.updated_list := updated_list;
  Crud.resets_name := resets_name
|}.

Abbreviation State := (Crud.State (Item := Industry.Industry)).

(** The page's operations: the generic ones at this instance. *)
Definition fetchIndustries : Prog string (Body Industry.Industry) State unit := fetchList.
Definition handleSubmit (nm : string) (id : option Z) : Prog string (Body Industry.Industry) State unit :=
  Crud.handleSubmit nm id.
Definition handleDelete (id : Z) : Prog string (Body Industry.Industry) State unit :=
  Crud.handleDelete id.
Definition handle (ev : Event) (s : State) : Prog string (Body Industry.Industry) State unit :=
  Crud.handle ev s.

Definition ind (id : Z) (nm : string) : Industry.Industry := Industry.mkIndustry id nm.

(** ** Lemmas *)

Lemma abs_replace (l : list Industry.Industry) i x :
  NoDup (map Industry.id l) -> Industry.id x = i ->
  abs (map (fun c => if (Industry.id c =? i)%Z then x else c) l) =
    alter (fun _ => x) i (abs l).
Proof.
  intros Hnd Hx. induction l as [|c l IH]; [done|].
  inversion Hnd as [|? ? Hc Hnd']; subst. simpl map. rewrite !abs_cons, IH by done.
  destruct (Z.eqb_spec (Industry.id c) (Industry.id x)) as [Heq|Hne]; simpl.
  - rewrite Heq, alter_insert_eq, (alter_id' _ (abs l)); [done|].
    apply abs_lookup_fresh. by rewrite <- Heq.
  - by rewrite alter_insert_ne by congruence.
Qed.

(** ** Theorems *)

(** An update the server answers with the edited industry under
    [industry] replaces exactly that industry in the abstract list. *)
Theorem industry_update_refines srv nm i (s : State) x :
  i <> 0%Z -> NoDup (map Industry.id (items s)) -> Industry.id x = i ->
  axios_ok (srv (put_req i nm)) = Some (BWrapped (Some x)) ->
  let r := run srv (handleSubmit nm (Some i)) s in
  abs (items (final r)) = alter (fun _ => x) i (abs (items s)) /\
  editing (final r) = None /\ crashed (final r) = crashed s.
Proof.
  intros Hi Hnd Hx Hok r. subst r. unfold handleSubmit.
  rewrite handleSubmit_update_run, Hok by done. simpl. unfold updated_list; simpl.
  destruct (existsb _ (items s)) eqn:He; simpl.
  - split_and!; [by apply abs_replace | done | done].
  - split_and!; [|done|done]. rewrite alter_id'; [done|].
    apply abs_lookup_fresh. intros Hin.
    apply list_elem_of_In, in_map_iff in Hin as (c & Hc & Hin).
    assert (existsb (fun c => Industry.id c =? i)%Z (items s) = true) by
      (apply existsb_exists; exists c; split; [done | by apply Z.eqb_eq]).
    congruence.
Qed.

Lemma industry_update_refines_witness :
  let s := setItems [ind 1 "IT"; ind 2 "Health"] initial : State in
  let srv := fun _ : Request string =>
    (Reply 200 (BWrapped (Some (ind 1 "Tech"))) : Response (Body Industry.Industry)) in
  (1 <> 0)%Z /\ NoDup (map Industry.id (items s)) /\ Industry.id (ind 1 "Tech") = 1%Z /\
  axios_ok (srv (put_req 1 "Tech")) = Some (BWrapped (Some (ind 1 "Tech"))) /\
  let r := run srv (handleSubmit "Tech" (Some 1%Z)) s in
  abs (items (final r)) = alter (fun _ => ind 1 "Tech") 1%Z (abs (items s)) /\
  editing (final r) = None /\ crashed (final r) = crashed s.
Proof.
  intros s srv. assert (Hnd : NoDup (map Industry.id (items s))) by decide_closed.
  split_and!; [lia | exact Hnd | reflexivity | reflexivity |].
  exact (industry_update_refines srv "Tech" 1 s (ind 1 "Tech") ltac:(lia) Hnd eq_refl eq_refl).
Defined.

(** A 2xx reply to the update of a listed industry that lacks the
    [industry] object puts [undefined] into the list, and the next render
    throws: the page is broken. *)
Theorem missing_industry_crashes srv nm i (s : State) b :
  i <> 0%Z -> i ∈ map Industry.id (items s) ->
  axios_ok (srv (put_req i nm)) = Some b -> created_of b = None ->
  crashed (final (run srv (handleSubmit nm (Some i)) s)) = true.
Proof.
  intros Hi Hin Hok Hb. unfold handleSubmit.
  rewrite handleSubmit_update_run, Hok by done. simpl. unfold updated_list.
  replace (existsb _ (items s)) with true; [by rewrite Hb|].
  symmetry. apply existsb_exists. apply list_elem_of_In, in_map_iff in Hin as (c & <- & Hc).
  exists c. split; [done | apply Z.eqb_refl].
Qed.

Lemma missing_industry_crashes_witness :
  let s := setItems [ind 1 "IT"] initial : State in
  let srv := fun _ : Request string => (Reply 200 (BItem (ind 1 "Tech")) : Response (Body Industry.Industry)) in
  (1 <> 0)%Z /\ 1%Z ∈ map Industry.id (items s) /\
  axios_ok (srv (put_req 1 "Tech")) = Some (BItem (ind 1 "Tech")) /\
  created_of (BItem (ind 1 "Tech")) = None /\
  crashed (final (run srv (handleSubmit "Tech" (Some 1%Z)) s)) = true.
Proof.
  intros s srv. assert (Hin : 1%Z ∈ map Industry.id (items s)) by decide_closed.
  split_and!; [lia | exact Hin | reflexivity | reflexivity |].
  exact (missing_industry_crashes srv "Tech" 1 s (BItem (ind 1 "Tech")) ltac:(lia) Hin eq_refl eq_refl).
Defined.

(** When the server rejects an update, the form stays in update mode
    for the same industry but its name has been cleared: the typed name
    is lost and the field shows nothing, although the spec keeps the
    entered values of a failed submission. *)
Theorem update_failure_clears_name srv (s : State) c :
  (forall q, axios_ok (srv q) = None) -> editing s = Some c ->
  let s' := final (run srv (handle Submit s) s) in
  editing s' = Some c /\ name s' = "" /\ items s' = items s.
Proof.
  intros Hfail Hc s'. subst s'. unfold handle.
  destruct (submit_failure srv s Hfail) as [Hf _]. rewrite Hf. simpl. by rewrite Hc.
Qed.

Lemma update_failure_clears_name_witness :
  let s := setName "Tech" (setEditing (Some (ind 1 "IT")) (setItems [ind 1 "IT"] initial)) : State in
  let srv := fun _ : Request string => (NetworkFailure : Response (Body Industry.Industry)) in
  (forall q, axios_ok (srv q) = None) /\ editing s = Some (ind 1 "IT") /\
  let s' := final (run srv (handle Submit s) s) in
  editing s' = Some (ind 1 "IT") /\ name s' = "" /\ items s' = items s.
Proof.
  intros s srv. assert (Hf : forall q, axios_ok (srv q) = None) by reflexivity.
  split_and!; [exact Hf | reflexivity |].
  exact (update_failure_clears_name srv s (ind 1 "IT") Hf eq_refl).
Defined.

End IndustryAdmin.
