(* ===== verification/ApplicantList.v ===== *)
(** * ApplicantList: [Pages/ApplicantList.tsx]

    The company's list of applications: a search input and a filter menu
    drive [fetchApplications], which runs at mount and whenever
    [filterOption] or [searchTerm] changes; a click on a card selects the
    application shown in the detail panel, and the status [Select] of the
    panel calls [handleStatusChange], which PUTs the new status and
    patches the selected application and the list.

    State: the five hooks of the component, the value held by the
    uncontrolled Radix [Select] (it has no [value] prop, so it keeps the
    last picked item while it stays mounted) and whether a render has
    thrown. The theorems give the request the list sends and its round
    trip through the query string, the success and failure of both
    asynchronous operations, the stage progress bar, an invariant of the
    mobile detail view, and three executions that show a stale search
    result, a detail panel that jumps back to an application the user
    has left, and a status that cannot be chosen again. *)

From stdpp Require Import base list strings sets relations.
From Stdlib Require Import ZArith String Ascii QArith.
From S2P Require Import Prelude Async Runtime Model Url.

Module ApplicantList.
Import Application.

(** [type FilterOption] (line 57). *)
Inductive FilterOption := Newest | Oldest | Submitted | Reviewed | Interview | Offer.

#[global] Instance FilterOption_eq_dec : EqDecision FilterOption.
Proof. solve_decision. Defined.

Definition filter_name (o : FilterOption) : string :=
  match o with
  | Newest => "Newest" | Oldest => "Oldest" | Submitted => "Submitted"
  | Reviewed => "Reviewed" | Interview => "Interview" | Offer => "Offer"
  end.

(** The record [status] (lines 50-55): [status[s]] is [undefined] for any
    other key. *)
Definition status_label (st : string) : option string :=
  if st === "submitted" then Some "Submitted"
  else if st === "reviewed" then Some "Reviewed"
  else if st === "interview" then Some "Interview"
  else if st === "offer" then Some "Offer"
  else None.

(** The four stages of [getStageProgress], also the items of the status
    [Select] (lines 294-297). *)
Definition stages : list string := ["submitted"; "reviewed"; "interview"; "offer"].

(** The hooks of lines 60-64, the value of the uncontrolled [Select] and
    whether a render has thrown. *)
Record State := mkState {
  applications : list Application;
  selectedApplication : option Application;
  searchTerm : string;
  filterOption : FilterOption;
  isMobileDetailView : bool;
  statusSelect : option string;
  crashed : bool
}.

Definition initial : State := mkState [] None "" Newest false None false.

Definition setApplications v s := mkState v (selectedApplication s) (searchTerm s) (filterOption s) (isMobileDetailView s) (statusSelect s) (crashed s).
Definition setSelectedApplication v s := mkState (applications s) v (searchTerm s) (filterOption s) (isMobileDetailView s) (statusSelect s) (crashed s).
Definition setSearchTerm v s := mkState (applications s) (selectedApplication s) v (filterOption s) (isMobileDetailView s) (statusSelect s) (crashed s).
Definition setFilterOption v s := mkState (applications s) (selectedApplication s) (searchTerm s) v (isMobileDetailView s) (statusSelect s) (crashed s).
Definition setIsMobileDetailView v s := mkState (applications s) (selectedApplication s) (searchTerm s) (filterOption s) v (statusSelect s) (crashed s).
Definition setStatusSelect v s := mkState (applications s) (selectedApplication s) (searchTerm s) (filterOption s) (isMobileDetailView s) v (crashed s).
Definition crash s := mkState (applications s) (selectedApplication s) (searchTerm s) (filterOption s) (isMobileDetailView s) (statusSelect s) true.

(** Response bodies: the page object [ApiResponse] (only its [data]
    field is read, possibly missing) or anything else. Request bodies are
    JSON objects with string fields. *)
Inductive Body := AppPage (data : option (list Application)) | BOther.
Abbreviation Req := (list (string * string)).
Abbreviation P := (Prog Req Body State).

(** The [URLSearchParams] of [fetchApplications] (lines 75-83). *)
Definition params (o : FilterOption) (t : string) : list (string * string) :=
  ((if bool_decide (o = Newest) || bool_decide (o = Oldest)
   then [("sort_order", if bool_decide (o = Newest) then "desc" else "asc")]
   else [("status", lower (filter_name o))]) ++
  (if truthy t then [("search", t)] else []))%list.

Definition apps_req (s : State) : Request Req :=
  GetReq ("/applications?" ++ serialize (params (filterOption s) (searchTerm s))).

(** [error.message] of the errors [fetchApplications] can catch: axios's
    messages and the [TypeError] of [data.data.length]. *)
Definition err_message (e : Err) : string :=
  match e with
  | AxiosError (Some st) => "Request failed with status code " ++ z_to_string st
  | AxiosError None => "Network Error"
  | FetchTypeError => "Failed to fetch"
  | JsonSyntaxError => "Unexpected token"
  | TypeError m | ThrownError m => m
  end.

(** [fetchApplications] (lines 70-97), under the state of its render. A
    body without [data] is stored as [undefined] (the next render throws)
    and [data.data.length] throws; the catch rethrows. *)
Definition fetchApplications (s : State) : P unit :=
  catch_
    (r <- axios (apps_req s) ;;
     match r.2 with
     | AppPage (Some l) =>
         set (setApplications l) ;;
         match l with x :: _ => set (setSelectedApplication (Some x)) | [] => Ret tt end
     | _ => set crash ;; Throw (TypeError "Cannot read properties of undefined (reading 'length')")
     end)
    (fun e => Throw (ThrownError (err_message e))).

(** [{ ...app, status: newStatus }] *)
Definition with_status (a : Application) (v : string) : Application :=
  mkApplication (id a) (vacancy_id a) (first_name a) (email a) (phone a) v
    (job_title a) (linkedin a) (cv_link a) (created_at a) (updated_at a).

Definition dq : string := String "034"%char EmptyString.

(** [JSON.stringify({ status: newStatus })] for the four stage names. *)
Definition json_status (v : string) : string :=
  "{" ++ dq ++ "status" ++ dq ++ ":" ++ dq ++ v ++ dq ++ "}".

(** The PUT of line 116: the status travels as a string under [body]. *)
Definition status_req (a : Application) (v : string) : Request Req :=
  mkRequest PUT ("applications/" ++ z_to_string (id a)) (Some [("body", json_status v)]).

Definition patch_status (i : Z) (v : string) (l : list Application) : list Application :=
  map (fun app => if (id app =? i)%Z then with_status app v else app) l.

(** [handleStatusChange] (lines 113-144), with the [selectedApplication]
    of its render. [!response.status] is false on every 2xx reply. *)
Definition handleStatusChange (sel : option Application) (v : string) : P unit :=
  match sel with
  | None => Ret tt
  | Some a =>
      catch_
        (r <- axios (status_req a v) ;;
         (if (r.1 =? 0)%Z then Throw (ThrownError "Failed to update application status") else Ret tt) ;;
         set (setSelectedApplication (Some (with_status a v))) ;;
         set (fun s => setApplications (patch_status (id a) v (applications s)) s) ;;
         emit (Toast "Status Updated" false))
        (fun _ => emit (Console "Error updating application status:") ;;
                  emit (Toast "Error" true))
  end.

(** [getStageProgress] (lines 146-150). *)
Definition getStageProgress (st : string) : Q :=
  ((inject_Z (index_of st stages + 1) / inject_Z (Z.of_nat (List.length stages))) * 100)%Q.

(** The user's actions: typing in the search input, a filter menu item,
    a card, the close button of the mobile detail view, an item of the
    status [Select]. *)
Inductive Event :=
| TypeSearch (v : string)
| SelectFilter (o : FilterOption)
| SelectApp (a : Application)
| CloseDetail
| ChangeStatus (v : string).

(** An input fires [onChange] only on a new value; the detail panel and
    its controls exist only while an application is selected; Radix's
    [Select] calls [onValueChange] only for an item other than the one it
    holds. *)
Definition offered (ev : Event) (s : State) : bool :=
  negb (crashed s) &&
  match ev with
  | TypeSearch v => negb (v === searchTerm s)
  | SelectFilter _ => true
  | SelectApp a => bool_decide (a ∈ applications s)
  | CloseDetail => bool_decide (selectedApplication s <> None)
  | ChangeStatus v =>
      bool_decide (selectedApplication s <> None) && bool_decide (v ∈ stages) &&
      negb (bool_decide (statusSelect s = Some v))
  end.

(** [handleSearch], [handleFilterChange], [handleApplicationSelect], the
    close button, and the [Select] (lines 100-111, 219, 290). *)
Definition handle (ev : Event) (s : State) : P unit :=
  match ev with
  | TypeSearch v => set (setSearchTerm v)
  | SelectFilter o => set (setFilterOption o)
  | SelectApp a => set (setSelectedApplication (Some a)) ;; set (setIsMobileDetailView true)
  | CloseDetail => set (setIsMobileDetailView false)
  | ChangeStatus v => set (setStatusSelect (Some v)) ;; detach (handleStatusChange (selectedApplication s) v)
  end.

(** The effect of lines 66-68; its promise is not awaited, so a rejection
    of [fetchApplications] is unhandled. *)
Definition effects (prev : option State) (s : State) : list (P unit) :=
  match prev with
  | None => [fetchApplications s]
  | Some r =>
      if bool_decide (filterOption r = filterOption s /\ searchTerm r = searchTerm s) then []
      else [fetchApplications s]
  end.

#[global] Instance component : Component Req Body State Event :=
  {| comp_init := initial; comp_effects := effects;
     comp_offered := offered; comp_handle := handle |}.

(** ** The rendered page (lines 152-333) *)

(** A card of the list (lines 180-198). *)
Record CardView := mkCard {
  c_name : string;
  c_email : string;
  c_job : string;
  c_initial : string;
  c_selected : bool
}.

Definition card (s : State) (a : Application) : CardView :=
  mkCard (first_name a) (email a) (job_title a) (String.substring 0 1 (first_name a))
    (match selectedApplication s with Some b => (id b =? id a)%Z | None => false end).

Definition storage : string := "http://127.0.0.1:8000/storage/".

(** The detail panel (lines 204-325): badge, progress bar, contact and
    application details, and the two CV links, shown when [cv_link] is
    truthy. *)
Record Detail := mkDetail {
  d_name : string;
  d_badge : option string;
  d_progress : Q;
  d_email : string;
  d_phone : string;
  d_linkedin : string;
  d_job_title : string;
  d_vacancy_link : string;
  d_applied_on : string;
  d_cv : option (string * string)
}.

Definition detail (a : Application) : Detail :=
  mkDetail (first_name a) (status_label (status a)) (getStageProgress (status a))
    (email a) (phone a) (linkedin a) (job_title a)
    ("/company/vacancies/" ++ z_to_string (vacancy_id a)) (created_at a)
    (match cv_link a with
     | Some c => if truthy c then Some (storage ++ c, storage ++ c) else None
     | None => None
     end).

(** Which column a narrow screen shows ([hidden md:flex] against [flex]),
    the cards and the panel. *)
Record Screen := mkScreen {
  list_on_mobile : bool;
  cards : list CardView;
  panel_on_mobile : bool;
  panel : option Detail
}.

Definition view (s : State) : Screen :=
  mkScreen (negb (isMobileDetailView s)) (map (card s) (applications s))
    (isMobileDetailView s) (option_map detail (selectedApplication s)).

(** Two applications and a server for the executions below: it answers
    the search [ab] with [appB], any other search containing [a] with
    [appA], the unfiltered list with both, and accepts every PUT. *)
Definition appA : Application := mkApplication 1 10 "Ann" "ann@mail.az" "050" "submitted" "Developer" "" None "" "".
Definition appB : Application := mkApplication 2 10 "Bob" "bob@mail.az" "055" "submitted" "Developer" "" None "" "".

Definition demo_srv (r : Request Req) : Response Body :=
  if includes (req_url r) "applications/" then Reply 200 BOther
  else if includes (req_url r) "search=ab" then Reply 200 (AppPage (Some [appB]))
  else if includes (req_url r) "search=a" then Reply 200 (AppPage (Some [appA]))
  else Reply 200 (AppPage (Some [appA; appB])).

(** ** Lemmas *)

Lemma is_2xx_nonzero st : is_2xx st = true -> (st =? 0)%Z = false.
Proof. unfold is_2xx. intros H. apply andb_prop in H as [H _]. apply Z.leb_le in H. apply Z.eqb_neq. lia. Qed.

Lemma params_nonempty o t : params o t <> [].
Proof. by destruct o. Qed.

Lemma getStageProgress_index st :
  (getStageProgress st == inject_Z (25 * (index_of st stages + 1)))%Q.
Proof.
  unfold getStageProgress. cbn [List.length stages Z.of_nat Pos.of_succ_nat Pos.succ].
  rewrite inject_Z_mult. field.
Qed.

Lemma index_of_stages_range st : (-1 <= index_of st stages <= 3)%Z.
Proof. unfold stages. simpl. repeat case_decide; simpl; lia. Qed.

(** ** Theorems *)

(** C34: [fetchApplications] sends the query the filter and search term of
    its render make, which the server decodes back to exactly
    [sort_order=desc]/[asc] or the lower-cased status, followed by
    [search] when the term is not empty. *)
Theorem applications_query_roundtrip s :
  split_first "?"%char (req_url (apps_req s)) =
    ("/applications", serialize (params (filterOption s) (searchTerm s))) /\
  parse_query (serialize (params (filterOption s) (searchTerm s))) =
    (match filterOption s with
     | Newest => [("sort_order", "desc")] | Oldest => [("sort_order", "asc")]
     | Submitted => [("status", "submitted")] | Reviewed => [("status", "reviewed")]
     | Interview => [("status", "interview")] | Offer => [("status", "offer")]
     end ++ if truthy (searchTerm s) then [("search", searchTerm s)] else [])%list.
Proof.
  split.
  - unfold apps_req. cbn [req_url GetReq].
    change ("/applications?" ++ ?q)%string with ("/applications" ++ String "?" q)%string.
    by apply split_first_app.
  - rewrite parse_serialize by apply params_nonempty. by destruct (filterOption s).
Qed.

(** C29: [fetchApplications] sends one request. On a 2xx reply with a
    [data] array it stores the array and selects its first element, but
    keeps the previous selection when the array is empty; a reply without
    [data] breaks the page; on every failure it rejects with a new
    [Error] carrying the message, which nothing catches. *)
Theorem fetchApplications_run srv s0 s :
  run srv (fetchApplications s0) s =
    match srv (apps_req s0) with
    | NetworkFailure => mkRun (Failed (ThrownError "Network Error")) s [] [apps_req s0]
    | Reply st b =>
        if is_2xx st then
          match b with
          | AppPage (Some l) =>
              mkRun (Done tt)
                (match l with
                 | x :: _ => setSelectedApplication (Some x) (setApplications l s)
                 | [] => setApplications l s
                 end) [] [apps_req s0]
          | _ => mkRun (Failed (ThrownError "Cannot read properties of undefined (reading 'length')"))
                   (crash s) [] [apps_req s0]
          end
        else mkRun (Failed (ThrownError ("Request failed with status code " ++ z_to_string st)))
               s [] [apps_req s0]
    end.
Proof.
  unfold fetchApplications. cbn -[apps_req].
  destruct (srv (apps_req s0)) as [|st b]; [reflexivity|]. cbn -[apps_req].
  destruct (is_2xx st); [|reflexivity].
  destruct b as [[[|x l]|]|]; reflexivity.
Qed.

(** C30: a status change of the selected application sends one PUT. When
    the server accepts it, the selected application and every listed
    application with its id get the new status and a toast confirms it;
    when it fails, the state is unchanged and an error toast is shown. *)
Theorem handleStatusChange_run srv a v s :
  run srv (handleStatusChange (Some a) v) s =
    match axios_ok (srv (status_req a v)) with
    | Some _ =>
        mkRun (Done tt)
          (setApplications (patch_status (id a) v (applications s))
             (setSelectedApplication (Some (with_status a v)) s))
          [Toast "Status Updated" false] [status_req a v]
    | None =>
        mkRun (Done tt) s [Console "Error updating application status:"; Toast "Error" true]
          [status_req a v]
    end.
Proof.
  unfold handleStatusChange, axios_ok. cbn -[status_req].
  destruct (srv (status_req a v)) as [|st b]; [reflexivity|]. cbn -[status_req].
  destruct (is_2xx st) eqn:H2; [|reflexivity]. cbn -[status_req].
  rewrite (is_2xx_nonzero st H2). reflexivity.
Qed.

(** The progress bar is 25, 50, 75 or 100 for the four stages in
    order and 0 for any other status, so it always lies in [0, 100]. *)
Theorem getStageProgress_spec st :
  (0 <= getStageProgress st <= 100)%Q /\
  (st ∉ stages -> getStageProgress st == 0)%Q /\
  (forall i, stages !! i = Some st -> getStageProgress st == inject_Z (25 * (Z.of_nat i + 1)))%Q.
Proof.
  split; [|split].
  - rewrite getStageProgress_index. pose proof (index_of_stages_range st).
    change 0%Q with (inject_Z 0); change 100%Q with (inject_Z 100).
    split; rewrite <- Zle_Qle; lia.
  - intros Hn. rewrite getStageProgress_index. by rewrite index_of_not_in.
  - intros i Hi. rewrite getStageProgress_index.
    rewrite (index_of_lookup st stages i); [reflexivity | decide_closed | done].
Qed.

Lemma getStageProgress_spec_witness :
  (0 <= getStageProgress "interview" <= 100)%Q /\
  ("rejected" ∉ stages -> getStageProgress "rejected" == 0)%Q /\
  (stages !! 2%nat = Some "interview" -> getStageProgress "interview" == inject_Z 75)%Q.
Proof.
  destruct (getStageProgress_spec "interview") as [Hb [_ Hi]].
  destruct (getStageProgress_spec "rejected") as [_ [Hr _]].
  split; [exact Hb | split; [exact Hr | exact (Hi 2%nat)]].
Defined.

(** The detail panel's controls need a selected application. *)
Definition panel_ok (s : State) : Prop :=
  (isMobileDetailView s = true \/ statusSelect s <> None) -> selectedApplication s <> None.

Lemma threads_keep_panel_ok s v :
  preserves panel_ok (fetchApplications s) /\ preserves panel_ok (handleStatusChange (selectedApplication s) v).
Proof.
  unfold fetchApplications, handleStatusChange. split; prove_preserves;
    unfold panel_ok in *; simpl in *; try congruence; auto.
Qed.

(** C35: in every reachable state of the page, the mobile detail view and
    a value in the status [Select] imply that an application is
    selected: the panel they belong to is never shown empty. *)
Theorem panel_needs_selection srv w :
  @reachable _ _ _ _ component srv w ->
  (isMobileDetailView (w_state w) = true \/ statusSelect (w_state w) <> None) ->
  selectedApplication (w_state w) <> None.
Proof.
  intros Hr. change (panel_ok (w_state w)). apply (state_invariant_sync panel_ok srv w); [..|exact Hr].
  - unfold panel_ok. simpl. intros [H|H]; [discriminate | by destruct H].
  - intros ev s Hs Hoff. change (preserves_from panel_ok s (handle ev s)).
    change (offered ev s = true) in Hoff. unfold offered in Hoff.
    destruct ev; unfold handle; prove_preserves_from;
      try (apply preserves_from_of; [apply preserves_detach, (threads_keep_panel_ok s v)|]);
      unfold panel_ok in *; simpl in *; try congruence; auto.
    all: bool_hyps; auto.
  - intros prev s _.
    assert (Hf : Forall (preserves panel_ok) [fetchApplications s]).
    { apply List.Forall_cons; [apply (threads_keep_panel_ok s "") | apply List.Forall_nil]. }
    destruct prev as [r|]; simpl; [case_bool_decide; [apply List.Forall_nil|]|]; exact Hf.
Qed.

Lemma panel_needs_selection_witness :
  exists w, reachable demo_srv w /\
    (isMobileDetailView (w_state w) = true \/ statusSelect (w_state w) <> None) /\
    selectedApplication (w_state w) <> None.
Proof.
  assert (Hr : exists w, @reachable _ _ _ _ component demo_srv w /\ isMobileDetailView (w_state w) = true).
  { eexists. split.
    - unfold reachable. run_render. run_deliver 0%nat. run_render. run_event (SelectApp appB).
      apply rtc_refl.
    - reflexivity. }
  destruct Hr as [w [Hr Hm]]. exists w. split; [exact Hr|]. split; [by left|].
  exact (panel_needs_selection demo_srv w Hr (or_introl Hm)).
Defined.

(** C31: responses to the searches typed in the input may arrive out of
    order, and the page shows whichever arrives last: after typing [a]
    then [ab], the list can show the answer to [a] although the last
    request sent, the one for the current term, was answered with
    another list. *)
Theorem stale_search_results :
  exists w, reachable demo_srv w /\ w_pending w = [] /\ w_rendered w = Some (w_state w) /\
    searchTerm (w_state w) = "ab" /\ last (w_sent w) = Some (apps_req (w_state w)) /\
    demo_srv (apps_req (w_state w)) = Reply 200 (AppPage (Some [appB])) /\
    applications (w_state w) = [appA].
Proof.
  eexists. split.
  - unfold reachable. run_render. run_deliver 0%nat. run_render.
    run_event (TypeSearch "a"). run_render. run_event (TypeSearch "ab"). run_render.
    run_deliver 1%nat. run_deliver 0%nat. run_render. apply rtc_refl.
  - split_and!; vm_compute; reflexivity.
Qed.

(** C32: [handleStatusChange] writes back the application of the render
    it was called from: when the user picks another card before the PUT
    returns, the step that delivers the reply moves the detail panel back
    to the first application. *)
Theorem status_reply_reselects_old :
  exists w1 w2, reachable demo_srv w1 /\ step demo_srv w1 w2 /\
    selectedApplication (w_state w1) = Some appB /\
    selectedApplication (w_state w2) = Some (with_status appA "offer") /\
    w_out w2 = (w_out w1 ++ [Toast "Status Updated" false])%list.
Proof.
  eexists. eexists. split; [|split].
  - unfold reachable. run_render. run_deliver 0%nat. run_render.
    run_event (ChangeStatus "offer"). run_render. run_event (SelectApp appB). run_render.
    apply rtc_refl.
  - eapply (step_deliver _ _ 0%nat). reflexivity.
  - split_and!; vm_compute; reflexivity.
Qed.

(** C33: the status [Select] keeps the value picked for the previous
    application: after setting one application to [offer] and selecting
    another one that is only [submitted], the panel's [Select] shows
    [Offer] and choosing [Offer] fires nothing. *)
Theorem select_keeps_previous_status :
  exists w, reachable demo_srv w /\ w_rendered w = Some (w_state w) /\
    option_map d_badge (panel (view (w_state w))) = Some (Some "Submitted") /\
    statusSelect (w_state w) = Some "offer" /\
    offered (ChangeStatus "offer") (w_state w) = false.
Proof.
  eexists. split.
  - unfold reachable. run_render. run_deliver 0%nat. run_render.
    run_event (ChangeStatus "offer"). run_render. run_deliver 0%nat. run_render.
    run_event (SelectApp appB). run_render. apply rtc_refl.
  - split_and!; vm_compute; reflexivity.
Qed.

(** When the list cannot be loaded, the error is not caught at the
    call site: the page mounts, its request fails, and the rejection of
    the effect's promise is reported as unhandled, with the list empty. *)
Theorem mount_failure_unhandled :
  let srv := fun _ : Request Req => (NetworkFailure : Response Body) in
  exists w, reachable srv w /\ w_pending w = [] /\
    w_out w = [Unhandled (ThrownError "Network Error")] /\
    w_sent w = [apps_req initial] /\ applications (w_state w) = [].
Proof.
  intros srv. eexists. split.
  - unfold reachable. run_render. run_deliver 0%nat. apply rtc_refl.
  - split_and!; reflexivity.
Qed.

End ApplicantList.
