(* ===== verification/VacancyEditAdmin.v ===== *)
(** * VacancyEditAdmin: [Pages/Admin/VacancyEditAdmin.tsx]

    The admin page that blocks or unblocks a vacancy: it loads the
    vacancy of the route parameter [vacancyId], shows its title and a
    [Block Vacancy] switch bound to [isBlocked], and on [Save Changes]
    POSTs to [/vacancies/{id}/block] or [/vacancies/{id}/unblock]
    according to the switch, then toasts and navigates back to the
    vacancy's page when the reply has status 200.

    The abstract specification of saving is the server's table of
    blocked flags ([server_post], from the API contract of the spec): the
    refinement theorem shows that a successful save sets the flag of the
    route's vacancy to the switch's value. The other theorems give every
    branch of [handleSubmit] and the round trip of the block URL. *)

From stdpp Require Import base list strings gmap.
From Stdlib Require Import ZArith String Ascii.
From S2P Require Import Prelude Async Runtime Url.

Module VacancyEditAdmin.

(** [type Vacancy] (lines 15-18). *)
Record Vacancy := mkVacancy { isBlocked : bool; title : string }.

(** The route parameter and the [vacancy] hook (lines 21-23). *)
Record State := mkState { vacancyId : option string; vacancy : option Vacancy }.

Definition initial (route : option string) : State := mkState route None.

Definition setVacancy (v : option Vacancy) (s : State) : State := mkState (vacancyId s) v.

Abbreviation P := (Prog unit Vacancy State).

Definition api : string := "http://127.0.0.1:8000/api".

(** [if (vacancyId)]: a missing or empty parameter is falsy. *)
Definition route_id (o : option string) : option string :=
  match o with Some i => if truthy i then Some i else None | None => None end.

Definition vacancy_req (i : string) : Request unit := GetReq (api ++ "/admin/vacancies/" ++ i).

(** [fetchVacancy] (lines 27-39). *)
Definition fetchVacancy (i : string) : P unit :=
  catch_ (r <- axios (vacancy_req i) ;; set (setVacancy (Some r.2)))
         (fun _ => emit (Toast "Error" true)).

(** The effect on [[vacancyId]] (lines 26-44). *)
Definition effects (prev : option State) (s : State) : list (P unit) :=
  let run_it := match route_id (vacancyId s) with Some i => [fetchVacancy i] | None => [] end in
  match prev with
  | None => run_it
  | Some r => if decide (vacancyId r = vacancyId s) then [] else run_it
  end.

(** [handleSwitchChange('isBlocked', checked)] (lines 47-52). *)
Definition handleSwitchChange (checked : bool) : P unit :=
  set (fun s => setVacancy (option_map (fun v => mkVacancy checked (title v)) (vacancy s)) s).

Definition block_url (i : string) (blocked : bool) : string :=
  api ++ "/vacancies/" ++ i ++ (if blocked then "/block" else "/unblock").

Definition block_req (i : string) (blocked : bool) : Request unit :=
  mkRequest POST (block_url i blocked) None.

(** [handleSubmit] (lines 54-97), with the state of its render. *)
Definition handleSubmit (s : State) : P unit :=
  match vacancy s, route_id (vacancyId s) with
  | Some v, Some i =>
      catch_
        (r <- axios (block_req i (isBlocked v)) ;;
         if (r.1 =? 200)%Z
         then emit (Toast "Success" false) ;; emit (Navigate ("/admin/vacancies/" ++ i))
         else Ret tt)
        (fun _ => emit (Console "Failed to update vacancy:") ;; emit (Toast "Error" true))
  | _, _ => emit (Toast "Error" true)
  end.

(** The switch, the submit button, [Cancel] and the back link
    (lines 102-134). *)
Inductive Event := ToggleBlock (checked : bool) | Save | Cancel | Back.

(** The switch reports the opposite of what it shows; with no vacancy
    its [checked] is [undefined] and it toggles on its own. *)
Definition offered (ev : Event) (s : State) : bool :=
  match ev, vacancy s with
  | ToggleBlock c, Some v => negb (Bool.eqb c (isBlocked v))
  | _, _ => true
  end.

Definition handle (ev : Event) (s : State) : P unit :=
  match ev with
  | ToggleBlock c => handleSwitchChange c
  | Save => handleSubmit s
  | Cancel | Back => emit (Navigate "/admin/vacancies")
  end.

#[global] Instance component (route : option string) : Component unit Vacancy State Event :=
  {| comp_init := initial route; comp_effects := effects;
     comp_offered := offered; comp_handle := handle |}.

(** What the page shows: the title label and the switch. *)
Definition view (s : State) : option string * option bool :=
  (option_map title (vacancy s), option_map isBlocked (vacancy s)).

(** The server side of [POST /vacancies/{id}/block] and [/unblock]
    (spec, section 6): the table of blocked flags by vacancy id. *)
Definition server_post (url : string) (db : gmap string bool) : option (gmap string bool) :=
  match split_on "/" url with
  | [h; e; host; a; vs; i; op] =>
      if (h =? "http:") && (e =? "") && (host =? "127.0.0.1:8000") && (a =? "api") &&
         (vs =? "vacancies") && truthy i
      then if op =? "block" then Some (<[i := true]> db)
           else if op =? "unblock" then Some (<[i := false]> db) else None
      else None
  | _ => None
  end%string.

(** ** Lemmas *)

Lemma block_url_join i b :
  block_url i b =
    join "/" ["http:"; ""; "127.0.0.1:8000"; "api"; "vacancies"; i; if b then "block" else "unblock"].
Proof. unfold block_url. by destruct b. Qed.

Lemma route_id_Some o i : route_id o = Some i -> o = Some i /\ truthy i = true.
Proof. destruct o as [j|]; simpl; [|done]. destruct (truthy j) eqn:?; intros; simplify_eq; done. Qed.

(** ** Theorems *)

(** The block URL round-trips: the server splits it back into the
    route's vacancy id and the operation the switch chose, whenever the
    id is a path segment (no [/]). *)
Theorem block_url_roundtrip i b :
  has_char "/" i = false ->
  split_on "/" (block_url i b) =
    ["http:"; ""; "127.0.0.1:8000"; "api"; "vacancies"; i; if b then "block" else "unblock"].
Proof.
  intros Hi. rewrite block_url_join. apply split_on_join; [done|].
  repeat constructor; [done | by destruct b].
Qed.

Lemma block_url_roundtrip_witness :
  has_char "/" "42" = false /\
  split_on "/" (block_url "42" true) = ["http:"; ""; "127.0.0.1:8000"; "api"; "vacancies"; "42"; "block"].
Proof. split; [reflexivity | exact (block_url_roundtrip "42" true eq_refl)]. Defined.

(** [handleSubmit] on every branch: without a loaded vacancy or a
    route id it only shows an error toast; otherwise it sends one POST
    chosen by the switch; a 200 reply toasts and navigates to the
    vacancy, any other 2xx reply does nothing visible, and a failure
    logs and shows the error toast. The state is never changed. *)
Theorem handleSubmit_run srv s s0 :
  run srv (handleSubmit s) s0 =
    match vacancy s, route_id (vacancyId s) with
    | Some v, Some i =>
        match srv (block_req i (isBlocked v)) with
        | Reply st _ =>
            if is_2xx st then
              if (st =? 200)%Z
              then mkRun (Done tt) s0 [Toast "Success" false; Navigate ("/admin/vacancies/" ++ i)]
                     [block_req i (isBlocked v)]
              else mkRun (Done tt) s0 [] [block_req i (isBlocked v)]
            else mkRun (Done tt) s0 [Console "Failed to update vacancy:"; Toast "Error" true]
                   [block_req i (isBlocked v)]
        | NetworkFailure =>
            mkRun (Done tt) s0 [Console "Failed to update vacancy:"; Toast "Error" true]
              [block_req i (isBlocked v)]
        end
    | _, _ => mkRun (Done tt) s0 [Toast "Error" true] []
    end.
Proof.
  unfold handleSubmit. destruct (vacancy s) as [v|]; [|reflexivity].
  destruct (route_id (vacancyId s)) as [i|]; [|reflexivity]. cbn -[block_req].
  destruct (srv (block_req i (isBlocked v))) as [|st b]; [reflexivity|]. cbn -[block_req].
  destruct (is_2xx st); [|reflexivity]. cbn. by destruct (st =? 200)%Z.
Qed.

(** C36: refinement: when the server accepts the save, the requests the
    page sent change the abstract table of blocked flags exactly by
    setting the flag of the route's vacancy to the switch's value. *)
Theorem save_refines srv s v i db :
  vacancy s = Some v -> route_id (vacancyId s) = Some i -> has_char "/" i = false ->
  axios_ok (srv (block_req i (isBlocked v))) <> None ->
  let r := run srv (handle Save s) s in
  outcome r = Done tt /\ final r = s /\
  foldr (fun q odb => odb ≫= server_post (req_url q)) (Some db) (sent r) =
    Some (<[i := isBlocked v]> db).
Proof.
  intros Hv Hi Hs Hok r. subst r. unfold handle, handleSubmit. rewrite Hv, Hi.
  destruct (route_id_Some _ _ Hi) as [_ Ht].
  assert (Hpost : server_post (block_url i (isBlocked v)) db = Some (<[i := isBlocked v]> db)).
  { unfold server_post. rewrite block_url_roundtrip by done. simpl. rewrite Ht.
    by destruct (isBlocked v). }
  unfold axios_ok in Hok. cbn -[block_req]. destruct (srv _) as [|st b]; [done|].
  cbn -[block_req]. destruct (is_2xx st); [|done]. cbn -[block_req].
  destruct (st =? 200)%Z; split_and!; simpl; done.
Qed.

Lemma save_refines_witness :
  let s := mkState (Some "7") (Some (mkVacancy true "Dev")) in
  let srv := fun _ : Request unit => (Reply 200 (mkVacancy true "Dev") : Response Vacancy) in
  vacancy s = Some (mkVacancy true "Dev") /\ route_id (vacancyId s) = Some "7" /\
  has_char "/" "7" = false /\ axios_ok (srv (block_req "7" true)) <> None /\
  let r := run srv (handle Save s) s in
  outcome r = Done tt /\ final r = s /\
  foldr (fun q odb => odb ≫= server_post (req_url q)) (Some ∅) (sent r) = Some (<["7" := true]> ∅).
Proof.
  intros s srv. split_and!; [reflexivity | reflexivity | reflexivity | discriminate |].
  exact (save_refines srv s (mkVacancy true "Dev") "7" ∅ eq_refl eq_refl eq_refl ltac:(discriminate)).
Defined.

End VacancyEditAdmin.
