(* ===== verification/VacancyViewAdmin.v ===== *)
(** * VacancyViewAdmin: [Pages/Admin/VacancyViewAdmin.tsx]

    The admin's read-only view of one vacancy. Its effect on
    [[vacancyId]] loads the vacancy, stores it, and, when its
    [categoryId] is truthy, loads the category to show its name; the
    [Edit Vacancy] button navigates to the editor. The route parameter is
    part of the state: moving to another vacancy's URL keeps the page
    mounted and runs the effect again.

    The theorems give every outcome of the dependent fetch, the salary
    text (the en-US [toLocaleString] of an integer) round-tripping to the
    number, and an execution in which the page shows the category of the
    previous vacancy because [categoryName] is never reset. Dates are
    shown as the strings the server sends ([toLocaleString] of a [Date]
    depends on the user's locale and time zone and is not modelled). *)

From stdpp Require Import base list strings relations.
From Stdlib Require Import ZArith String Ascii DecimalString.
From S2P Require Import Prelude Async Runtime Model.

Module VacancyViewAdmin.
Import Vacancy.

(** The route parameter and the hooks of lines 72-73. [categoryName] is
    [None] once it has been set to [undefined] (a category reply without
    [name]). *)
Record State := mkState {
  vacancyId : option string;
  vacancy : option Vacancy;
  categoryName : option string
}.

Definition initial (route : option string) : State := mkState route None (Some "").

Definition setVacancyId v s := mkState v (vacancy s) (categoryName s).
Definition setVacancy v s := mkState (vacancyId s) v (categoryName s).
Definition setCategoryName v s := mkState (vacancyId s) (vacancy s) v.

(** Replies: a vacancy, a category object (its [name] possibly missing),
    or anything else ([null] included). *)
Inductive Body := VBody (v : Vacancy) | CatBody (name : option string) | Other.
Abbreviation P := (Prog unit Body State).

(** [`${vacancyId}`]: a missing parameter prints as [undefined]. *)
Definition param_str (o : option string) : string := default "undefined" o.

Definition vacancy_req (o : option string) : Request unit := GetReq ("/admin/vacancies/" ++ param_str o).
Definition category_req (cid : Z) : Request unit := GetReq ("/categories/" ++ z_to_string cid).

Definition name_of (b : Body) : option string := match b with CatBody n => n | _ => None end.

(** [fetchVacancy] (lines 89-106), with the parameter of its render. A
    reply that is not a vacancy is stored, and reading its [categoryId]
    throws into the catch. *)
Definition fetchVacancy (s : State) : P unit :=
  catch_
    (r <- axios (vacancy_req (vacancyId s)) ;;
     match r.2 with
     | VBody v =>
         set (setVacancy (Some v)) ;;
         if negb (categoryId v =? 0)%Z then
           c <- axios (category_req (categoryId v)) ;; set (setCategoryName (name_of c.2))
         else Ret tt
     | _ => set (setVacancy None) ;;
            Throw (TypeError "Cannot read properties of null (reading 'categoryId')")
     end)
    (fun _ => emit (Console "Failed to fetch vacancy or category details:")).

(** The effect of lines 88-110. *)
Definition effects (prev : option State) (s : State) : list (P unit) :=
  match prev with
  | None => [fetchVacancy s]
  | Some r => if decide (vacancyId r = vacancyId s) then [] else [fetchVacancy s]
  end.

(** Moving to another vacancy's URL, the edit button and the back link. *)
Inductive Event := RouteTo (id : option string) | EditVacancy | Back.

Definition offered (ev : Event) (s : State) : bool :=
  match ev with RouteTo o => bool_decide (o <> vacancyId s) | _ => true end.

(** [`${vacancy?.id}`] *)
Definition id_str (o : option Vacancy) : string :=
  match o with Some v => z_to_string (id v) | None => "undefined" end.

Definition handle (ev : Event) (s : State) : P unit :=
  match ev with
  | RouteTo o => set (setVacancyId o)
  | EditVacancy => emit (Navigate ("/admin/vacancies/" ++ id_str (vacancy s) ++ "/edit"))
  | Back => emit (Navigate "/admin/vacancies")
  end.

#[global] Instance component (route : option string) : Component unit Body State Event :=
  {| comp_init := initial route; comp_effects := effects;
     comp_offered := offered; comp_handle := handle |}.

(** ** The rendered page (lines 113-239) *)

(** [jobTypeLabels] and [seniorityLevelLabels] (lines 75-86). *)
Definition jobTypeLabel (k : string) : option string :=
  if k === "full-time" then Some "Full-time"
  else if k === "part-time" then Some "Part-time"
  else if k === "contract" then Some "Contract" else None.

Definition seniorityLevelLabel (k : string) : option string :=
  if k === "junior" then Some "Junior" else if k === "middle" then Some "Middle"
  else if k === "senior" then Some "Senior" else if k === "intern" then Some "Intern" else None.

(** [labels[x ?? ''] || x] as text: [undefined] renders nothing. *)
Definition label_or (lab : string -> option string) (o : option string) : string :=
  match lab (default "" o) with
  | Some l => l
  | None => default "" o
  end.

(** [Number.prototype.toLocaleString] of an integer in en-US: the digits
    grouped by three from the right with commas. *)
Fixpoint group_rev (l : list ascii) : list ascii :=
  match l with
  | a :: b :: c :: ((_ :: _) as rest) => a :: b :: c :: "," :: group_rev rest
  | _ => l
  end%char.

Definition group_digits (d : string) : string :=
  string_of_list_ascii (rev (group_rev (rev (list_ascii_of_string d)))).

Definition locale_int (n : Z) : string :=
  if (n <? 0)%Z then "-" ++ group_digits (z_to_string (- n)) else group_digits (z_to_string n).

(** The page's text, field by field: [vacancy?.x] of a missing vacancy
    renders nothing, inside a template literal it prints [undefined]. *)
Record Screen := mkScreen {
  sc_title : string;
  sc_badge : string;
  sc_id : string;
  sc_category : string;
  sc_jobType : string;
  sc_seniority : string;
  sc_location : string;
  sc_remote : string;
  sc_salary : string;
  sc_description : string;
  sc_lists : list (list string);
  sc_dates : string * string
}.

Definition tmpl (o : option string) : string := default "undefined" o.

Definition view (s : State) : Screen :=
  let v := vacancy s in
  mkScreen (default "" (option_map title v))
    (if default false (option_map isActive v) then "Active" else "Inactive")
    (match v with Some x => z_to_string (id x) | None => "" end)
    (match categoryName s with Some n => if truthy n then n else "Loading..." | None => "Loading..." end)
    (label_or jobTypeLabel (option_map jobType v))
    (label_or seniorityLevelLabel (option_map seniorityLevel v))
    (tmpl (option_map city v) ++ ", " ++ tmpl (option_map state v) ++ ", " ++ tmpl (option_map country v))
    (if default false (option_map isRemote v) then "Yes" else "No")
    (match v with Some x => if negb (salary x =? 0)%Z then "$" ++ locale_int (salary x) else "Not specified"
     | None => "Not specified" end)
    (match v with Some x => if truthy (description x) then description x else "Not specified"
     | None => "Not specified" end)
    (match v with Some x => [jobOverview x; jobRole x; jobResponsibilities x; youHaveText x] | None => [] end)
    (default "" (option_map createdAt v), default "" (option_map updatedAt v)).

(** ** Lemmas *)

Definition strip_commas (s : string) : string :=
  string_of_list_ascii (List.filter (fun c => negb (Ascii.eqb c ",")) (list_ascii_of_string s)).

Definition is_digit (c : ascii) : bool := (("0" <=? c)%char && (c <=? "9")%char)%bool.

Lemma group_rev_cons a b c d r :
  group_rev (a :: b :: c :: d :: r) = (a :: b :: c :: "," :: group_rev (d :: r))%char.
Proof. reflexivity. Qed.

Lemma filter_group_rev l :
  List.filter (fun c => negb (Ascii.eqb c ",")) (group_rev l) = List.filter (fun c => negb (Ascii.eqb c ",")) l.
Proof.
  induction l as [l IH] using (induction_ltof1 _ (@List.length _)); unfold ltof in IH.
  destruct l as [|a [|b [|c [|d r]]]]; try reflexivity.
  rewrite group_rev_cons.
  change (a :: b :: c :: "," :: group_rev (d :: r))%char with ([a; b; c] ++ [","%char] ++ group_rev (d :: r))%list.
  change (a :: b :: c :: d :: r) with ([a; b; c] ++ d :: r)%list.
  rewrite !List.filter_app.
  rewrite IH by (simpl; lia). reflexivity.
Qed.

Lemma string_of_uint_digits d :
  Forall (fun c => is_digit c = true) (list_ascii_of_string (NilZero.string_of_uint d)).
Proof.
  assert (H : Forall (fun c => is_digit c = true) (list_ascii_of_string (NilEmpty.string_of_uint d))).
  { induction d; simpl; repeat constructor; auto. }
  destruct d; [repeat constructor | exact H ..].
Qed.

Lemma z_to_string_nonneg_digits n :
  (0 <= n)%Z -> Forall (fun c => is_digit c = true) (list_ascii_of_string (z_to_string n)).
Proof.
  intros Hn. unfold z_to_string. destruct n as [|p|p]; [repeat constructor | | lia].
  simpl. apply string_of_uint_digits.
Qed.

Lemma filter_digits l :
  Forall (fun c => is_digit c = true) l -> List.filter (fun c => negb (Ascii.eqb c ",")) l = l.
Proof.
  induction 1 as [|c l Hc _ IH]; [done|]. simpl. rewrite IH.
  destruct (Ascii.eqb_spec c ","); [subst; discriminate | reflexivity].
Qed.

(** ** Theorems *)

(** The dependent fetch. A 2xx vacancy reply is stored; when its
    [categoryId] is not 0 the category is fetched next and its [name]
    stored (possibly [undefined]), a failed category request only logs.
    A reply that is not a vacancy clears the vacancy and logs; a failed
    vacancy request only logs. The page's promise never rejects. *)
Theorem fetchVacancy_run srv s s0 :
  run srv (fetchVacancy s) s0 =
    match axios_ok (srv (vacancy_req (vacancyId s))) with
    | Some (VBody v) =>
        if (categoryId v =? 0)%Z then mkRun (Done tt) (setVacancy (Some v) s0) [] [vacancy_req (vacancyId s)]
        else match axios_ok (srv (category_req (categoryId v))) with
             | Some b => mkRun (Done tt) (setCategoryName (name_of b) (setVacancy (Some v) s0)) []
                           [vacancy_req (vacancyId s); category_req (categoryId v)]
             | None => mkRun (Done tt) (setVacancy (Some v) s0)
                         [Console "Failed to fetch vacancy or category details:"]
                         [vacancy_req (vacancyId s); category_req (categoryId v)]
             end
    | Some _ => mkRun (Done tt) (setVacancy None s0)
                  [Console "Failed to fetch vacancy or category details:"] [vacancy_req (vacancyId s)]
    | None => mkRun (Done tt) s0 [Console "Failed to fetch vacancy or category details:"]
                [vacancy_req (vacancyId s)]
    end.
Proof.
  unfold fetchVacancy, axios_ok. cbn -[vacancy_req category_req].
  destruct (srv (vacancy_req (vacancyId s))) as [|st b]; [reflexivity|]. cbn -[vacancy_req category_req].
  destruct (is_2xx st); [|reflexivity]. destruct b as [v| |]; cbn -[vacancy_req category_req]; try reflexivity.
  destruct (categoryId v =? 0)%Z; cbn -[vacancy_req category_req]; [reflexivity|].
  destruct (srv (category_req (categoryId v))) as [|st' b']; [reflexivity|]. cbn -[vacancy_req category_req].
  destruct (is_2xx st'); reflexivity.
Qed.

(** The salary text of a positive salary reads back as the salary:
    removing the grouping commas gives the decimal digits of the
    number. *)
Theorem salary_text_roundtrip s v :
  vacancy s = Some v -> (0 < salary v)%Z ->
  sc_salary (view s) = "$" ++ locale_int (salary v) /\
  strip_commas (locale_int (salary v)) = z_to_string (salary v).
Proof.
  intros Hv Hp. split.
  - unfold view. rewrite Hv. cbn -[locale_int]. rewrite (proj2 (Z.eqb_neq (salary v) 0)) by lia. reflexivity.
  - unfold locale_int. rewrite (proj2 (Z.ltb_ge (salary v) 0)) by lia.
    unfold strip_commas, group_digits. rewrite list_ascii_of_string_of_list_ascii.
    rewrite <- (rev_involutive (List.filter _ (rev (group_rev _)))).
    rewrite <- filter_rev, rev_involutive, filter_group_rev, filter_rev.
    rewrite filter_digits by (apply z_to_string_nonneg_digits; lia).
    rewrite rev_involutive. apply string_of_list_ascii_of_string.
Qed.

Lemma salary_text_roundtrip_witness :
  let v := mkVacancy 1 1 0 false 1500000 "Dev" "" "full-time" "senior" "Baku" "AZ" "" [] [] true "" "" [] [] in
  let s := mkState (Some "1") (Some v) (Some "") in
  vacancy s = Some v /\ (0 < salary v)%Z /\
  sc_salary (view s) = "$" ++ locale_int (salary v) /\
  strip_commas (locale_int (salary v)) = z_to_string (salary v) /\
  sc_salary (view s) = "$1,500,000".
Proof.
  intros v s. destruct (salary_text_roundtrip s v eq_refl ltac:(reflexivity)) as [H1 H2].
  split_and!; [reflexivity | reflexivity | exact H1 | exact H2 | reflexivity].
Defined.

(** Two vacancies and a server for the execution below. *)
Definition vac1 : Vacancy := mkVacancy 1 1 5 false 0 "Designer" "" "full-time" "middle" "Baku" "AZ" "" [] [] true "" "" [] [].
Definition vac2 : Vacancy := mkVacancy 2 1 0 false 0 "Tester" "" "contract" "junior" "Baku" "AZ" "" [] [] true "" "" [] [].

Definition demo_srv (r : Request unit) : Response Body :=
  if req_url r =? "/admin/vacancies/1" then Reply 200 (VBody vac1)
  else if req_url r =? "/admin/vacancies/2" then Reply 200 (VBody vac2)
  else if req_url r =? "/categories/5" then Reply 200 (CatBody (Some "Design"))
  else Reply 404 Other.

(** C37: [categoryName] is never reset: after moving from a vacancy of
    the category [Design] to one whose [categoryId] is 0, the page shows
    the second vacancy under the category [Design]. *)
Theorem stale_category_after_route_change :
  exists w, @reachable _ _ _ _ (component (Some "1")) demo_srv w /\ w_pending w = [] /\
    vacancy (w_state w) = Some vac2 /\ categoryId vac2 = 0%Z /\
    sc_title (view (w_state w)) = "Tester" /\ sc_category (view (w_state w)) = "Design".
Proof.
  eexists. split.
  - unfold reachable. run_render. run_deliver 0%nat. run_deliver 0%nat. run_render.
    run_event (RouteTo (Some "2")). run_render. run_deliver 0%nat. run_render. apply rtc_refl.
  - split_and!; reflexivity.
Qed.

End VacancyViewAdmin.
