(* ===== verification/Browse.v ===== *)
(** * Browse: [Components/BrowseSturtups/Browse.jsx]

    The startup browser: a search box, a location box and radio filters
    (industry, stage, size, open to remote, funding) drive [companies],
    which GETs [/companies] with a [params] object; its effect runs at
    mount and when one of six filter hooks changes, and the [Search]
    button calls it too. The industry radios come from [fetchIndustries],
    which loads the industries and then the company count of each one.
    [Clear] resets the filters and shows the bundled [Companies.json]
    (not in the repository: a [Section] variable here).

    The request carries the [params] object as the code builds it
    ([JVal]: a string, [undefined] or an object); how axios serialises it
    is the library's. Two findings are modelled: the remote radio passes
    its change event to [setOpenToRemote], so [openToRemote] holds an
    event object, which is not a dependency of the effect; and
    [selectedFunding] is a dependency but is never sent. The counts are
    fetched under [Promise.all]; here the count requests are awaited one
    after the other, which sends the same requests in the same order and
    computes the same list under the sequential semantics [run] (the
    interleaving of the parallel requests with other events is not
    modelled). *)

From stdpp Require Import base list strings relations.
From Stdlib Require Import ZArith String Ascii.
From S2P Require Import Prelude Async Runtime Model.

Module Browse.

(** A value of the [params] object. *)
Inductive JVal := JStr (s : string) | JUndef | JEvent.

#[global] Instance JVal_eq_dec : EqDecision JVal.
Proof. solve_decision. Defined.

(** An industry radio's value: [''] or an industry id. *)
Inductive Role := NoRole | RoleId (id : Z).

#[global] Instance Role_eq_dec : EqDecision Role.
Proof. solve_decision. Defined.

Definition role_val (r : Role) : JVal :=
  match r with NoRole => JStr "" | RoleId i => JStr (z_to_string i) end.

(** The hooks of lines 6-14 ([filteredJobs] is [None] once it holds a
    reply that is not an array: the next render throws); [openToRemote] is [undefined] until the
    remote radio's change event is stored in it; [remoteChecked] is the
    radio's own state (it has no [checked] prop). *)
Record State := mkState {
  searchQuery : string;
  locationQuery : string;
  filteredJobs : option (list Company.Company);
  openToRemote : bool;
  selectedRole : Role;
  selectedLevel : string;
  selectedJobType : string;
  selectedFunding : string;
  industries : list (Industry.Industry * option Z);
  remoteChecked : bool
}.

Definition setSearchQuery v s := mkState v (locationQuery s) (filteredJobs s) (openToRemote s) (selectedRole s) (selectedLevel s) (selectedJobType s) (selectedFunding s) (industries s) (remoteChecked s).
Definition setLocationQuery v s := mkState (searchQuery s) v (filteredJobs s) (openToRemote s) (selectedRole s) (selectedLevel s) (selectedJobType s) (selectedFunding s) (industries s) (remoteChecked s).
Definition setFilteredJobs v s := mkState (searchQuery s) (locationQuery s) v (openToRemote s) (selectedRole s) (selectedLevel s) (selectedJobType s) (selectedFunding s) (industries s) (remoteChecked s).
Definition setOpenToRemote v s := mkState (searchQuery s) (locationQuery s) (filteredJobs s) v (selectedRole s) (selectedLevel s) (selectedJobType s) (selectedFunding s) (industries s) (remoteChecked s).
Definition setSelectedRole v s := mkState (searchQuery s) (locationQuery s) (filteredJobs s) (openToRemote s) v (selectedLevel s) (selectedJobType s) (selectedFunding s) (industries s) (remoteChecked s).
Definition setSelectedLevel v s := mkState (searchQuery s) (locationQuery s) (filteredJobs s) (openToRemote s) (selectedRole s) v (selectedJobType s) (selectedFunding s) (industries s) (remoteChecked s).
Definition setSelectedJobType v s := mkState (searchQuery s) (locationQuery s) (filteredJobs s) (openToRemote s) (selectedRole s) (selectedLevel s) v (selectedFunding s) (industries s) (remoteChecked s).
Definition setSelectedFunding v s := mkState (searchQuery s) (locationQuery s) (filteredJobs s) (openToRemote s) (selectedRole s) (selectedLevel s) (selectedJobType s) v (industries s) (remoteChecked s).
Definition setIndustries v s := mkState (searchQuery s) (locationQuery s) (filteredJobs s) (openToRemote s) (selectedRole s) (selectedLevel s) (selectedJobType s) (selectedFunding s) v (remoteChecked s).
Definition setRemoteChecked v s := mkState (searchQuery s) (locationQuery s) (filteredJobs s) (openToRemote s) (selectedRole s) (selectedLevel s) (selectedJobType s) (selectedFunding s) (industries s) v.

(** Replies: a list of companies, a list of industries, the object
    [{total}] of the count endpoint (its field possibly missing), or
    anything else. *)
Inductive Body :=
| CompanyList (l : list Company.Company)
| IndustryList (l : list Industry.Industry)
| CountReply (total : option Z)
| OtherJSON.

#[global] Instance State_eq_dec : EqDecision State.
Proof. solve_decision. Defined.

Abbreviation Q := (list (string * JVal)).
Abbreviation P := (Prog Q Body State).

Definition api : string := "http://127.0.0.1:8000/api".

(** The [params] object of [companies] (lines 61-71). *)
Definition params (s : State) : Q :=
  [("name", JStr (searchQuery s)); ("vacancyName", JStr (searchQuery s));
   ("vacancyCity", JStr (locationQuery s)); ("vacancyCountry", JStr (locationQuery s));
   ("industryId", role_val (selectedRole s)); ("startupStage", JStr (selectedLevel s));
   ("startupSize", JStr (selectedJobType s));
   ("openToRemote", if openToRemote s then JEvent else JUndef); ("sortBy", JStr "desc")].

Definition companies_req (s : State) : Request Q := mkRequest GET (api ++ "/companies") (Some (params s)).

(** [companies] (lines 60-84), with the hooks of its render. *)
Definition companies (s : State) : P unit :=
  catch_
    (r <- axios (companies_req s) ;;
     if (r.1 =? 200)%Z then
       set (setFilteredJobs (match r.2 with CompanyList l => Some l | _ => None end))
     else emit (Console "Failed to fetch companies"))
    (fun _ => emit (Console "Error fetching companies:")).

Definition industries_req : Request Q := GetReq (api ++ "/industries").
Definition count_req (id : Z) : Request Q := GetReq (api ++ "/industries/" ++ z_to_string id ++ "/companies").

(** The async callback of [industriesData.map] (lines 36-50). *)
Definition industry_count (i : Industry.Industry) : P (Industry.Industry * option Z) :=
  catch_
    (r <- axios (count_req (Industry.id i)) ;;
     Ret (i, match r.2 with CountReply t => t | _ => None end))
    (fun _ => emit (Console ("Error fetching count for industry " ++ z_to_string (Industry.id i) ++ ":")) ;;
              Ret (i, Some 0%Z)).

Fixpoint count_all (l : list Industry.Industry) : P (list (Industry.Industry * option Z)) :=
  match l with
  | [] => Ret []
  | i :: l' => x <- industry_count i ;; xs <- count_all l' ;; Ret (x :: xs)
  end.

(** [fetchIndustries] (lines 28-58). A reply that is not an array makes
    [industriesData.map] throw into the outer catch. *)
Definition fetchIndustries : P unit :=
  catch_
    (r <- axios industries_req ;;
     if (r.1 =? 200)%Z then
       match r.2 with
       | IndustryList l => xs <- count_all l ;; set (setIndustries xs)
       | _ => Throw (TypeError "industriesData.map is not a function")
       end
     else Ret tt)
    (fun _ => emit (Console "Error fetching industries:")).

(** The dependencies of the [companies] effect (line 22). *)
Definition companies_deps (s : State) :=
  (searchQuery s, locationQuery s, selectedRole s, selectedLevel s, selectedJobType s, selectedFunding s).

Definition effects (prev : option State) (s : State) : list (P unit) :=
  match prev with
  | None => [companies s; fetchIndustries]
  | Some r => if decide (companies_deps r = companies_deps s) then [] else [companies s]
  end.

(** The stage and size radios' values (lines 239-290). *)
Definition stages : list string := ["Idea"; "Product-or-prototype"; "Go-to-market"; "Growth-and-expansion"].
Definition sizes : list string := ["1-10"; "51-100"; "101-200"; "200+"].
Definition fundings : list string := ["Currently not looking for funding"; "Looking for funding"].

Inductive Event :=
| TypeSearch (v : string)
| TypeLocation (v : string)
| ClickSearch
| PickIndustry (id : Z)
| PickStage (v : string)
| PickSize (v : string)
| PickRemote
| PickFunding (v : string)
| ClearFilters.

(** A radio fires [onChange] only when it becomes checked; nothing is
    offered once a render has thrown ([filteredJobs.map] on a reply that
    is not an array unmounts the page). *)
Definition offered (ev : Event) (s : State) : bool :=
  bool_decide (filteredJobs s <> None) &&
  match ev with
  | TypeSearch v => negb (v === searchQuery s)
  | TypeLocation v => negb (v === locationQuery s)
  | ClickSearch | ClearFilters => true
  | PickIndustry i =>
      existsb (fun x => (Industry.id x.1 =? i)%Z) (industries s) && negb (bool_decide (selectedRole s = RoleId i))
  | PickStage v => bool_decide (v ∈ stages) && negb (v === selectedLevel s)
  | PickSize v => bool_decide (v ∈ sizes) && negb (v === selectedJobType s)
  | PickRemote => negb (remoteChecked s)
  | PickFunding v => bool_decide (v ∈ fundings) && negb (v === selectedFunding s)
  end.

Section Page.
(** The companies of [Companies.json]. *)
Variable CompaniesData : list Company.Company.

Definition initial : State := mkState "" "" (Some CompaniesData) false NoRole "" "" "" [] false.

(** [handleClearFilters] (lines 152-160). *)
Definition handleClearFilters : P unit :=
  set (setSelectedRole NoRole) ;; set (setSelectedLevel "") ;; set (setSearchQuery "") ;;
  set (setLocationQuery "") ;; set (setSelectedJobType "") ;; set (setSelectedFunding "") ;;
  set (setFilteredJobs (Some CompaniesData)).

(** The inputs' [onChange], [handleSearch], the filters' handlers
    (lines 96-144, 167-318); [handleOpenToRemote] receives the event. *)
Definition handle (ev : Event) (s : State) : P unit :=
  match ev with
  | TypeSearch v => set (setSearchQuery v)
  | TypeLocation v => set (setLocationQuery v)
  | ClickSearch => companies s
  | PickIndustry i => set (setSelectedRole (RoleId i))
  | PickStage v => set (setSelectedLevel v)
  | PickSize v => set (setSelectedJobType v)
  | PickRemote => set (setRemoteChecked true) ;; set (setOpenToRemote true)
  | PickFunding v => set (setSelectedFunding v)
  | ClearFilters => handleClearFilters
  end.

#[global] Instance component : Component Q Body State Event :=
  {| comp_init := initial; comp_effects := effects;
     comp_offered := offered; comp_handle := handle |}.
End Page.

(** The list as rendered (lines 177-205): the heading, then the cards or
    the empty message; [None] when the render throws. *)
Definition company_list (s : State) : option (string * list (string * string * string)) :=
  match filteredJobs s with
  | Some l =>
      Some ("Exciting Companies (" ++ z_to_string (Z.of_nat (List.length l)) ++ ")",
            map (fun c => (Company.name c, Company.description c,
                           z_to_string (Company.jobCount c) ++ " Jobs Available")) l)
  | None => None
  end.

(** The industry radios (lines 218-231): label and checked state. *)
Definition industry_labels (s : State) : list (string * bool) :=
  map (fun x => (Industry.name x.1 ++ " (" ++ match x.2 with Some n => z_to_string n | None => "" end ++ ")",
                 bool_decide (selectedRole s = RoleId (Industry.id x.1))))
    (industries s).

(** ** Lemmas *)

(** The count the page stores for an industry, and the log of a failed
    count request. *)
Definition count_of (srv : Request Q -> Response Body) (i : Industry.Industry) : option Z :=
  match srv (count_req (Industry.id i)) with
  | Reply st b => if is_2xx st then match b with CountReply t => t | _ => None end else Some 0%Z
  | NetworkFailure => Some 0%Z
  end.

Definition count_log (srv : Request Q -> Response Body) (i : Industry.Industry) : list Out :=
  match axios_ok (srv (count_req (Industry.id i))) with
  | Some _ => []
  | None => [Console ("Error fetching count for industry " ++ z_to_string (Industry.id i) ++ ":")]
  end.

(** Every thread of the page leaves a set remote filter set. *)
Definition remote_on (s : State) : Prop := openToRemote s = true /\ remoteChecked s = true.

Lemma industry_count_run srv i s :
  run srv (industry_count i) s =
    mkRun (Done (i, count_of srv i)) s (count_log srv i) [count_req (Industry.id i)].
Proof.
  unfold industry_count, count_of, count_log, axios_ok. cbn -[count_req].
  destruct (srv (count_req (Industry.id i))) as [|st b]; [reflexivity|].
  cbn -[count_req]. destruct (is_2xx st); [|reflexivity]. by destruct b.
Qed.

Lemma count_all_run srv l s :
  run srv (count_all l) s =
    mkRun (Done (map (fun i => (i, count_of srv i)) l)) s
      (List.concat (map (count_log srv) l)) (map (fun i => count_req (Industry.id i)) l).
Proof.
  revert s. induction l as [|i l IH]; intros s; [reflexivity|]. cbn [count_all].
  rewrite run_bind, industry_count_run. cbn -[count_req count_log count_of].
  rewrite run_bind, IH. unfold then_run. cbn -[count_req count_log count_of]. by rewrite !app_nil_r.
Qed.

Lemma count_all_preserves R l : preserves R (count_all l).
Proof.
  induction l as [|i l IH]; cbn [count_all]; [constructor|].
  unfold industry_count. prove_preserves. apply IH.
Qed.

Lemma threads_keep_remote CompaniesData ev s prev s' :
  preserves remote_on (handle CompaniesData ev s) /\ Forall (preserves remote_on) (effects prev s').
Proof.
  split.
  - destruct ev; unfold handle, handleClearFilters, companies; prove_preserves;
      unfold remote_on in *; cbn in *; naive_solver.
  - assert (Hc : preserves remote_on (companies s')).
    { unfold companies. prove_preserves; unfold remote_on in *; cbn in *; naive_solver. }
    assert (Hi : preserves remote_on fetchIndustries).
    { unfold fetchIndustries. prove_preserves; try apply count_all_preserves;
        unfold remote_on in *; cbn in *; naive_solver. }
    destruct prev; unfold effects; [case_decide|];
      repeat first [apply Forall_nil | apply Forall_cons; split]; auto.
Qed.

Lemma threads_keep_deps CompaniesData ev s prev s' d :
  resumes (fun x => companies_deps x = d) (handle CompaniesData ev s) /\
  Forall (preserves (fun x => companies_deps x = d)) (effects prev s').
Proof.
  assert (Hc : forall s, preserves (fun x => companies_deps x = d) (companies s)).
  { intros s0. unfold companies. prove_preserves; done. }
  assert (Hi : preserves (fun x => companies_deps x = d) fetchIndustries).
  { unfold fetchIndustries. prove_preserves; try apply count_all_preserves; done. }
  split.
  - destruct ev; try (apply preserves_resumes, Hc); cbn; repeat constructor.
  - destruct prev; unfold effects; [case_decide|];
      repeat first [apply Forall_nil | apply Forall_cons; split]; auto.
Qed.

(** ** Theorems *)

(** C19: when the industries request is answered 200 with an array, the
    page requests the count of every industry, in order, and stores each
    industry with its [total], [undefined] when the reply has none, and
    0 when its request failed (logging the failure). *)
Theorem fetchIndustries_run srv s l :
  srv industries_req = Reply 200 (IndustryList l) ->
  run srv fetchIndustries s =
    mkRun (Done tt) (setIndustries (map (fun i => (i, count_of srv i)) l) s)
      (List.concat (map (count_log srv) l))
      (industries_req :: map (fun i => count_req (Industry.id i)) l).
Proof.
  intros Hr. unfold fetchIndustries. cbn -[industries_req count_all]. rewrite Hr.
  cbn -[industries_req count_all]. rewrite run_catch, run_bind, count_all_run.
  cbn -[industries_req]. by rewrite !app_nil_r.
Qed.

Lemma fetchIndustries_run_witness :
  let it := Industry.mkIndustry 3 "Fintech" in
  let srv := fun r : Request Q =>
    (if req_url r =? req_url industries_req then Reply 200 (IndustryList [it])
     else Reply 200 (CountReply (Some 12%Z)))%string : Response Body in
  srv industries_req = Reply 200 (IndustryList [it]) /\
  run srv fetchIndustries (initial []) =
    mkRun (Done tt) (setIndustries (map (fun i => (i, count_of srv i)) [it]) (initial []))
      (List.concat (map (count_log srv) [it]))
      (industries_req :: map (fun i => count_req (Industry.id i)) [it]) /\
  industries (final (run srv fetchIndustries (initial []))) = [(it, Some 12%Z)].
Proof.
  intros it srv. assert (H : srv industries_req = Reply 200 (IndustryList [it])) by reflexivity.
  split_and!; [exact H | exact (fetchIndustries_run srv (initial []) [it] H) | reflexivity].
Defined.

(** C18: choosing a funding option changes a dependency of the
    [companies] effect, so the next render sends a request, but the
    funding is not among the [params]: the request is the one the page
    sent for the previous filters. *)
Theorem funding_refetches_same_request CompaniesData w v :
  w_rendered w = Some (w_state w) ->
  offered (PickFunding v) (w_state w) = true ->
  w_sent (@event_then_render _ _ _ _ (component CompaniesData) (PickFunding v) w) =
    (w_sent w ++ [companies_req (w_state w)])%list.
Proof.
  intros Hr Hoff. unfold offered in Hoff. bool_hyps.
  destruct w as [s rd pd o sn]; cbn in Hr; subst rd.
  cbn in *. unfold event_then_render. cbn -[companies_req decide].
  rewrite decide_False.
  - reflexivity.
  - destruct s; unfold companies_deps; cbn in *. intros Heq; simplify_eq.
    match goal with H : (?a === ?a) = false |- _ => by rewrite String.eqb_refl in H end.
Qed.

Lemma funding_refetches_same_request_witness :
  let w := mkWorld (initial []) (Some (initial [])) [] [] [] : World Q Body State in
  w_rendered w = Some (w_state w) /\ offered (PickFunding "Looking for funding") (w_state w) = true /\
  w_sent (@event_then_render _ _ _ _ (component []) (PickFunding "Looking for funding") w) =
    (w_sent w ++ [companies_req (w_state w)])%list.
Proof.
  intros w. split_and!; [reflexivity | reflexivity |].
  exact (funding_refetches_same_request [] w "Looking for funding" eq_refl eq_refl).
Defined.

(** C17: the remote radio has no [checked] prop and [Clear] does not
    touch [openToRemote]: once the remote filter is on, it stays on in
    every later state, whatever the user and the server do, and the
    radio, still checked, can never be chosen again. *)
Theorem remote_filter_sticky CompaniesData srv w w' :
  @reachable _ _ _ _ (component CompaniesData) srv w ->
  openToRemote (w_state w) = true -> remoteChecked (w_state w) = true ->
  rtc (@step _ _ _ _ (component CompaniesData) srv) w w' ->
  openToRemote (w_state w') = true /\ offered PickRemote (w_state w') = false.
Proof.
  intros Hreach Ho Hc Hsteps.
  assert (Hp : pending_ok remote_on w).
  { apply (@reachable_pending_ok _ _ _ _ (component CompaniesData) remote_on srv w); [| |exact Hreach].
    - intros ev s _. apply preserves_resumes, (threads_keep_remote CompaniesData ev s None s).
    - intros prev s. eapply Forall_impl; [apply (threads_keep_remote CompaniesData ClickSearch s prev s)|].
      intros; by apply preserves_resumes. }
  destruct (@invariant_from _ _ _ _ (component CompaniesData) remote_on srv w w') as [[Ho' Hc'] _];
    [ intros ev s _ _; apply (threads_keep_remote CompaniesData ev s None s)
    | intros prev s _; apply (threads_keep_remote CompaniesData ClickSearch s prev s)
    | split; done | done | done |].
  split; [done|]. unfold offered. by rewrite Hc', andb_false_r.
Qed.

Lemma remote_filter_sticky_witness :
  let srv := fun _ : Request Q => (NetworkFailure : Response Body) in
  exists w, @reachable _ _ _ _ (component []) srv w /\
    openToRemote (w_state w) = true /\ remoteChecked (w_state w) = true /\
    rtc (@step _ _ _ _ (component []) srv) w w /\
    openToRemote (w_state w) = true /\ offered PickRemote (w_state w) = false.
Proof.
  intros srv.
  assert (Hr : exists w, @reachable _ _ _ _ (component []) srv w /\
                 openToRemote (w_state w) = true /\ remoteChecked (w_state w) = true).
  { eexists. split; [|split].
    - unfold reachable. run_render. run_event PickRemote. run_render. run_event ClearFilters.
      apply rtc_refl.
    - reflexivity.
    - reflexivity. }
  destruct Hr as (w & Hreach & Ho & Hc). exists w. split_and!; [done | done | done | apply rtc_refl | |].
  - exact (proj1 (remote_filter_sticky [] srv w w Hreach Ho Hc (rtc_refl _ w))).
  - exact (proj2 (remote_filter_sticky [] srv w w Hreach Ho Hc (rtc_refl _ w))).
Defined.

(** C16: liveness: whatever the user has done, the page settles. From
    every reachable state the runtime delivers the responses, commits
    the render and reaches a world with no request pending and the
    current state on screen: the threads only store replies
    ([filteredJobs], [industries]), never a dependency of the effect,
    so the refetch loop stops after one round. *)
Theorem browse_settles CompaniesData srv w :
  @reachable _ _ _ _ (component CompaniesData) srv w ->
  exists w', rtc (@step _ _ _ _ (component CompaniesData) srv) w w' /\
    w_pending w' = [] /\ w_rendered w' = Some (w_state w').
Proof.
  intros Hreach. apply (@settles _ _ _ _ (component CompaniesData) _ _ companies_deps).
  - intros r s Hd. cbn. unfold effects. by rewrite decide_True.
  - intros prev s d. apply (threads_keep_deps CompaniesData ClickSearch s prev s d).
  - intros d. apply (@reachable_pending_ok _ _ _ _ (component CompaniesData) _ srv w); [| |exact Hreach].
    + intros ev s _. apply (threads_keep_deps CompaniesData ev s None s d).
    + intros prev s. eapply Forall_impl; [apply (threads_keep_deps CompaniesData ClickSearch s prev s d)|].
      intros; by apply preserves_resumes.
Qed.

Lemma browse_settles_witness :
  let srv := fun _ : Request Q => (Reply 200 (CompanyList []) : Response Body) in
  @reachable _ _ _ _ (component []) srv (@mount _ _ _ _ (component [])) /\
  exists w', rtc (@step _ _ _ _ (component []) srv) (@mount _ _ _ _ (component [])) w' /\
    w_pending w' = [] /\ w_rendered w' = Some (w_state w').
Proof.
  intros srv. assert (H : @reachable _ _ _ _ (component []) srv (@mount _ _ _ _ (component []))) by apply rtc_refl.
  split; [exact H | exact (browse_settles [] srv _ H)].
Defined.

End Browse.
