(* ===== verification/BlogAdmin.v ===== *)
(** * BlogAdmin: [Pages/Admin/BlogPage.tsx] and [Pages/Admin/BlogEditPage.tsx]

    The admin list of blogs and the blog editor. Both load with [fetch],
    test [response.ok] and parse with [response.json()].

    [BlogTable] ([BlogPage]) loads [GET /blogs] at mount into [blogs],
    shows a skeleton while [isLoading], the error text once [error] is
    set, and otherwise the table, whose [Edit] buttons navigate to the
    editor.

    [BlogEdit] ([BlogEditPage]) loads [GET /blogs/{id}] whenever the
    route's [id] changes, binds the title, content, image URL and
    category id inputs and the [Active] switch to the [blog] hook, and on
    submit sets [isSaving], PUTs [JSON.stringify(blog)] to [/blogs/{id}]
    and clears [isSaving] in a [finally]. The blog is kept as the code
    keeps it: [handleInputChange] stores the input's string under the
    field's name, so after an edit [categoryId] is a JSON string, not the
    number the server sent ([JV]).

    The theorems give every branch of the loads and of the save, show
    that at most one save is in flight and that [isSaving] says exactly
    whether one is, that the category id is sent as a string once edited,
    and that the editor can save a blog under another blog's id: the
    route may change while the old blog is still shown, since
    [isLoading] is never set back to [true]. The dates are shown through
    [date-fns]' [format(..., 'PPP')], which is locale dependent: the
    views keep the date strings as sent. *)

From stdpp Require Import base list strings relations.
From Stdlib Require Import ZArith String.
From S2P Require Import Prelude Async Runtime Model.

Module BlogTable.

(** [response.json()] of [GET /blogs]: an array of blogs or another
    JSON value; [None] when the body is not JSON. *)
Inductive Data := Blogs (l : list Blog.Blog) | OtherJSON.
Abbreviation Body := (option Data).

(** The hooks of lines 102-104. *)
Record State := mkState { blogs : Data; isLoading : bool; error : option string }.

Definition initial : State := mkState (Blogs []) true None.

Definition setBlogs v s := mkState v (isLoading s) (error s).
Definition setIsLoading v s := mkState (blogs s) v (error s).
Definition setError v s := mkState (blogs s) (isLoading s) v.

Abbreviation P := (Prog unit Body State).

Definition blogs_req : Request unit := GetReq "http://127.0.0.1:8000/api/blogs".

(** [fetchBlogs] of the mount effect (lines 106-123). *)
Definition fetchBlogs : P unit :=
  catch_
    (r <- fetch blogs_req ;;
     if negb (ok r.1) then Throw (ThrownError "Failed to fetch blogs") else
     (data <- json r.2 ;; set (setBlogs data) ;; set (setIsLoading false)))
    (fun _ => set (setError (Some "An error occurred while fetching blogs")) ;;
              set (setIsLoading false)).

Definition effects (prev : option State) (s : State) : list (P unit) :=
  match prev with None => [fetchBlogs] | Some _ => [] end.

(** The [Edit] button of a row (lines 82-92). *)
Inductive Event := Edit (id : Z).

(** A row per blog once the table is shown. *)
Definition offered (ev : Event) (s : State) : bool :=
  match ev, isLoading s, error s, blogs s with
  | Edit i, false, None, Blogs l => existsb (fun b => (Blog.id b =? i)%Z) l
  | _, _, _, _ => false
  end.

Definition handle (ev : Event) (s : State) : P unit :=
  match ev with Edit i => emit (Navigate ("/admin/blogs/edit/" ++ z_to_string i)) end.

#[global] Instance component : Component unit Body State Event :=
  {| comp_init := initial; comp_effects := effects;
     comp_offered := offered; comp_handle := handle |}.

(** What the page shows (lines 125-136): the skeleton, the error text,
    the rows (image, title, category, active, created), or nothing
    because [blogs.map] throws on a value that is not an array. *)
Inductive Screen :=
| Skeleton
| ErrorText (e : string)
| Table (rows : list (string * string * string * string * string))
| Throws.

Definition row (b : Blog.Blog) : string * string * string * string * string :=
  (Blog.imageUrl b, Blog.title b, Blog.categories_name b,
   if (Blog.isActive b =? 0)%Z then "No" else "Yes", Blog.createdAt b).

Definition view (s : State) : Screen :=
  if isLoading s then Skeleton else
  match error s, blogs s with
  | Some e, _ => ErrorText e
  | None, Blogs l => Table (map row l)
  | None, OtherJSON => Throws
  end.

(** The admin list's load on every branch: one [GET /blogs]; a 2xx
    JSON reply is stored as it is (an array is shown as the table,
    another value makes the render throw) and ends the loading; a
    non-2xx reply, a network failure or a body that is not JSON sets
    the error text and ends the loading. It never rejects. *)
Theorem admin_blogs_run srv s0 :
  run srv fetchBlogs s0 =
    match srv blogs_req with
    | Reply st (Some d) =>
        if ok st then mkRun (Done tt) (setIsLoading false (setBlogs d s0)) [] [blogs_req]
        else mkRun (Done tt) (setIsLoading false (setError (Some "An error occurred while fetching blogs") s0)) [] [blogs_req]
    | _ => mkRun (Done tt) (setIsLoading false (setError (Some "An error occurred while fetching blogs") s0)) [] [blogs_req]
    end.
Proof.
  unfold fetchBlogs. cbn -[blogs_req].
  destruct (srv blogs_req) as [|st [d|]]; cbn -[blogs_req]; [done| |]; by destruct (ok st).
Qed.

End BlogTable.

Module BlogEdit.

(** A field value of the edited blog: the number the server sent or the
    string an input stored. *)
Inductive JV := JNum (n : Z) | JStr (s : string).

#[global] Instance JV_eq_dec : EqDecision JV.
Proof. solve_decision. Defined.

(** [interface Blog] (lines 13-23) as the [blog] hook holds it. *)
Record EBlog := mkEBlog {
  id : Z;
  title : string;
  content : string;
  isActive : Z;
  imageUrl : string;
  categoryId : JV;
  categories_name : string;
  createdAt : string;
  updatedAt : string
}.

#[global] Instance EBlog_eq_dec : EqDecision EBlog.
Proof. solve_decision. Defined.

Definition of_blog (b : Blog.Blog) : EBlog :=
  mkEBlog (Blog.id b) (Blog.title b) (Blog.content b) (Blog.isActive b) (Blog.imageUrl b)
    (JNum (Blog.categoryId b)) (Blog.categories_name b) (Blog.createdAt b) (Blog.updatedAt b).

(** The inputs bound by [handleInputChange], by their [name]. *)
Inductive Field := Title | Content | ImageUrl | CategoryId.

(** [{ ...prevBlog, [name]: value }] (line 89). *)
Definition set_field (f : Field) (v : string) (b : EBlog) : EBlog :=
  match f with
  | Title => mkEBlog (id b) v (content b) (isActive b) (imageUrl b) (categoryId b)
               (categories_name b) (createdAt b) (updatedAt b)
  | Content => mkEBlog (id b) (title b) v (isActive b) (imageUrl b) (categoryId b)
                 (categories_name b) (createdAt b) (updatedAt b)
  | ImageUrl => mkEBlog (id b) (title b) (content b) (isActive b) v (categoryId b)
                  (categories_name b) (createdAt b) (updatedAt b)
  | CategoryId => mkEBlog (id b) (title b) (content b) (isActive b) (imageUrl b) (JStr v)
                    (categories_name b) (createdAt b) (updatedAt b)
  end.

(** [{ ...prevBlog, isActive: checked ? 1 : 0 }] (line 93). *)
Definition set_active (checked : bool) (b : EBlog) : EBlog :=
  mkEBlog (id b) (title b) (content b) (if checked then 1 else 0)%Z (imageUrl b) (categoryId b)
    (categories_name b) (createdAt b) (updatedAt b).

(** The text an input shows for a value. *)
Definition jv_text (v : JV) : string := match v with JNum n => z_to_string n | JStr s => s end.

(** [response.json()] of [GET /blogs/{id}]: a blog, [null], or another
    JSON value. *)
Inductive Data := BlogData (b : Blog.Blog) | NullJSON | OtherJSON.
Abbreviation Body := (option Data).

(** What [setBlog(data)] stores: nothing ([null]), a blog, or a value
    that is not one. *)
Inductive Held := NoBlog | Held_ (b : EBlog) | Junk.

#[global] Instance Held_eq_dec : EqDecision Held.
Proof. solve_decision. Defined.

Definition of_data (d : Data) : Held :=
  match d with BlogData b => Held_ (of_blog b) | NullJSON => NoBlog | OtherJSON => Junk end.

(** The route's [id] and the hooks of lines 28-30. *)
Record State := mkState { route : string; blog : Held; isLoading : bool; isSaving : bool }.

Definition initial (id : string) : State := mkState id NoBlog true false.

Definition setRoute v s := mkState v (blog s) (isLoading s) (isSaving s).
Definition setBlog v s := mkState (route s) v (isLoading s) (isSaving s).
Definition setIsLoading v s := mkState (route s) (blog s) v (isSaving s).
Definition setIsSaving v s := mkState (route s) (blog s) (isLoading s) v.

(** [setBlog(prevBlog => prevBlog ? f(prevBlog) : null)]. *)
Definition update_blog (f : EBlog -> EBlog) (h : Held) : Held :=
  match h with Held_ b => Held_ (f b) | NoBlog => NoBlog | Junk => Junk end.

Abbreviation Q := EBlog.
Abbreviation P := (Prog Q Body State).

Definition blog_url (id : string) : string := "http://127.0.0.1:8000/api/blogs/" ++ id.
Definition blog_req (id : string) : Request Q := GetReq (blog_url id).

(** [JSON.stringify(blog)] is sent; the form is only shown with a blog. *)
Definition put_req (id : string) (b : EBlog) : Request Q := mkRequest PUT (blog_url id) (Some b).

(** [fetchBlog] of the effect on [[id]] (lines 32-54). *)
Definition fetchBlog (id : string) : P unit :=
  catch_
    (r <- fetch (blog_req id) ;;
     if negb (ok r.1) then Throw (ThrownError "Failed to fetch blog") else
     (data <- json r.2 ;; set (setBlog (of_data data)) ;; set (setIsLoading false)))
    (fun _ => emit (Console "Error fetching blog:") ;; emit (Toast "Error" true) ;;
              set (setIsLoading false)).

(** [handleSubmit] (lines 56-85), with the [id] and [blog] of its render. *)
Definition handleSubmit (id : string) (b : EBlog) : P unit :=
  set (setIsSaving true) ;;
  finally_
    (catch_
       (r <- fetch (put_req id b) ;;
        if negb (ok r.1) then Throw (ThrownError "Failed to update blog") else
        (emit (Toast "Success" false) ;; emit (Navigate "/blogs")))
       (fun _ => emit (Console "Error updating blog:") ;; emit (Toast "Error" true)))
    (set (setIsSaving false)).

Definition effects (prev : option State) (s : State) : list (P unit) :=
  match prev with
  | None => [fetchBlog (route s)]
  | Some r => if decide (route r = route s) then [] else [fetchBlog (route s)]
  end.

(** A route change to another [/admin/blogs/edit/:id], the inputs, the
    switch, [Cancel] and the submit button (lines 131-200). *)
Inductive Event :=
| RouteTo (id : string)
| Input (f : Field) (v : string)
| Toggle (checked : bool)
| Cancel
| Submit.

Definition get_field (f : Field) (b : EBlog) : string :=
  match f with
  | Title => title b | Content => content b | ImageUrl => imageUrl b | CategoryId => jv_text (categoryId b)
  end.

(** The form is shown once loaded with a blog (lines 96-126); the
    browser submits it only with the [required] fields filled and not
    while the button is [disabled={isSaving}]. *)
Definition form_of (s : State) : option EBlog :=
  if isLoading s then None else match blog s with Held_ b => Some b | _ => None end.

Definition required_ok (b : EBlog) : bool :=
  truthy (title b) && truthy (content b) && truthy (jv_text (categoryId b)).

Definition offered (ev : Event) (s : State) : bool :=
  match ev, form_of s with
  | RouteTo i, _ => negb (i === route s) && negb (bool_decide (blog s = Junk /\ isLoading s = false))
  | Input f v, Some b => negb (v === get_field f b)
  | Toggle c, Some b => Bool.eqb c (negb (isActive b =? 1)%Z)
  | Cancel, Some _ => true
  | Submit, Some b => negb (isSaving s) && required_ok b
  | _, None => false
  end.

(** [handleInputChange], [handleSwitchChange], the [Cancel] button and
    [handleSubmit] (lines 56-94, 194). *)
Definition handle (ev : Event) (s : State) : P unit :=
  match ev with
  | RouteTo i => set (setRoute i)
  | Input f v => set (fun s => setBlog (update_blog (set_field f v) (blog s)) s)
  | Toggle c => set (fun s => setBlog (update_blog (set_active c) (blog s)) s)
  | Cancel => emit (Navigate "/admin/blogs")
  | Submit => match blog s with Held_ b => handleSubmit (route s) b | _ => Ret tt end
  end.

#[global] Instance component (id : string) : Component Q Body State Event :=
  {| comp_init := initial id; comp_effects := effects;
     comp_offered := offered; comp_handle := handle |}.

(** What the editor shows (lines 96-204): the skeleton, the error card,
    the form (title, content, active, image URL, category id, dates,
    button label and whether it is disabled), or nothing because the
    render throws on a value that is not a blog. *)
Inductive Screen :=
| Skeleton
| ErrorCard
| Form (title content : string) (active : bool) (imageUrl categoryId created updated : string)
       (button : string) (disabled : bool)
| Throws.

Definition view (s : State) : Screen :=
  if isLoading s then Skeleton else
  match blog s with
  | NoBlog => ErrorCard
  | Junk => Throws
  | Held_ b =>
      Form (title b) (content b) (isActive b =? 1)%Z (imageUrl b) (jv_text (categoryId b))
        (createdAt b) (updatedAt b) (if isSaving s then "Saving..." else "Save Changes") (isSaving s)
  end.

(** The continuations the two requests leave pending. *)
Definition fetchBlog_k : Response Body -> P unit :=
  match fetchBlog "" with Fetch _ k => k | _ => fun _ => Ret tt end.

Definition save_k : Response Body -> P unit :=
  match handleSubmit "" (of_blog (Blog.mkBlog 0 "" "" 0 "" 0 "" "" "")) with
  | Update _ (Fetch _ k) => k | _ => fun _ => Ret tt
  end.

(** The PUT requests among the pending ones. *)
Definition pending_puts (pd : list (Request Q * (Response Body -> P unit))) : nat :=
  List.length (List.filter (fun e => bool_decide (req_method e.1 = PUT)) pd).

(** The shape of a pending request of the editor, and what every sent
    PUT carries. *)
Definition pend_shape (e : Request Q * (Response Body -> P unit)) : Prop :=
  (exists i, e = (blog_req i, fetchBlog_k)) \/ (exists i b, e = (put_req i b, save_k) /\ required_ok b = true).

Definition Inv (w : World Q Body State) : Prop :=
  Forall pend_shape (w_pending w) /\
  pending_puts (w_pending w) = (if isSaving (w_state w) then 1 else 0)%nat /\
  Forall (fun r => req_method r = PUT -> exists b, req_body r = Some b /\ required_ok b = true) (w_sent w).

(** ** Lemmas *)

Lemma fetchBlog_eq i : fetchBlog i = Fetch (blog_req i) fetchBlog_k.
Proof. reflexivity. Qed.

Lemma handleSubmit_eq i b : handleSubmit i b = Update (setIsSaving true) (Fetch (put_req i b) save_k).
Proof. reflexivity. Qed.

Lemma fetchBlog_k_step srv x w :
  fetch_depth srv (fetchBlog_k x) = 0 /\ isSaving (w_state (advance (fetchBlog_k x) w)) = isSaving (w_state w).
Proof. destruct x as [|st [[b| |]|]]; cbn; [done|..]; destruct (ok st); done. Qed.

Lemma save_k_step srv x w :
  fetch_depth srv (save_k x) = 0 /\ isSaving (w_state (advance (save_k x) w)) = false.
Proof. destruct x as [|st b]; cbn; [done|]. destruct (ok st); done. Qed.

Lemma pending_puts_app pd e :
  pending_puts (pd ++ [e])%list = (pending_puts pd + if bool_decide (req_method e.1 = PUT) then 1 else 0)%nat.
Proof. unfold pending_puts. rewrite List.filter_app, List.length_app. cbn. by case_bool_decide. Qed.

Lemma pending_puts_delete pd i e :
  pd !! i = Some e ->
  pending_puts pd = (pending_puts (delete i pd) + if bool_decide (req_method e.1 = PUT) then 1 else 0)%nat.
Proof.
  revert i. induction pd as [|e' pd IH]; intros [|i] Hi; simplify_eq/=; unfold pending_puts in *; cbn.
  - case_bool_decide; cbn; lia.
  - specialize (IH i Hi). destruct (bool_decide (req_method e'.1 = PUT)); cbn; lia.
Qed.

Lemma edit_Inv_mount id : Inv (@mount _ _ _ _ (component id)).
Proof. split_and!; constructor. Qed.

Lemma Inv_fetchBlog i w : Inv w -> Inv (advance (fetchBlog i) w).
Proof.
  intros (Hsh & Hput & Hsent).
  assert (Ep : w_pending (advance (fetchBlog i) w) = (w_pending w ++ [(blog_req i, fetchBlog_k)])%list) by done.
  assert (Es : w_state (advance (fetchBlog i) w) = w_state w) by done.
  assert (Et : w_sent (advance (fetchBlog i) w) = (w_sent w ++ [blog_req i])%list) by done.
  unfold Inv. rewrite Ep, Es, Et. split_and!.
  - apply Forall_app; split; [done|]. apply Forall_singleton. left. by exists i.
  - by rewrite pending_puts_app, Hput.
  - apply Forall_app; split; [done|]. apply Forall_singleton. discriminate.
Qed.

Lemma edit_Inv_deliver srv w i r k :
  Inv w -> w_pending w !! i = Some (r, k) ->
  Inv (advance (k (srv r)) (with_pending (delete i (w_pending w)) w)).
Proof.
  intros (Hsh & Hput & Hsent) Hi.
  pose proof (pending_puts_delete _ _ _ Hi) as Hd.
  assert (Hsh' : Forall pend_shape (delete i (w_pending w))) by by apply Forall_delete.
  set (w1 := with_pending (delete i (w_pending w)) w).
  assert (E1 : w_pending w1 = delete i (w_pending w)) by reflexivity.
  assert (E2 : isSaving (w_state w1) = isSaving (w_state w)) by reflexivity.
  assert (E3 : w_sent w1 = w_sent w) by reflexivity.
  destruct (proj1 (Forall_lookup _ _) Hsh i _ Hi) as [[j He] | (j & b & He & _)]; simplify_eq.
  - destruct (fetchBlog_k_step srv (srv (blog_req j)) w1) as [H0 Hs].
    destruct (advance_nofetch srv _ w1 H0) as [Hp Hse].
    rewrite E1 in Hp. rewrite E3 in Hse. rewrite E2 in Hs.
    split_and!; rewrite ?Hp, ?Hse, ?Hs; [done | | done]. rewrite bool_decide_false in Hd by done. lia.
  - destruct (save_k_step srv (srv (put_req j b)) w1) as [H0 Hs].
    destruct (advance_nofetch srv _ w1 H0) as [Hp Hse].
    rewrite E1 in Hp. rewrite E3 in Hse.
    split_and!; rewrite ?Hp, ?Hse, ?Hs; [done | | done]. rewrite bool_decide_true in Hd by done.
    destruct (isSaving (w_state w)); lia.
Qed.

Lemma Inv_step id srv w w' : @step _ _ _ _ (component id) srv w w' -> Inv w -> Inv w'.
Proof.
  intros Hs HI. destruct Hs as [ev w Hr Hoff | w i r k Hi | w Hne].
  - destruct HI as (Hsh & Hput & Hsent). cbn in Hoff |- *.
    destruct ev as [j|f v|c| |]; cbn -[handleSubmit]; try (split_and!; done).
    unfold offered, form_of in Hoff. destruct (isLoading (w_state w)); simpl in Hoff; [discriminate|].
    destruct (blog (w_state w)) as [|b|] eqn:Hb; simpl in Hoff; try discriminate.
    apply andb_prop in Hoff as [Hns Hreq].
    set (q := put_req (route (w_state w)) b).
    assert (Ep : w_pending (advance (handleSubmit (route (w_state w)) b) w) = (w_pending w ++ [(q, save_k)])%list) by done.
    assert (Es : isSaving (w_state (advance (handleSubmit (route (w_state w)) b) w)) = true) by done.
    assert (Et : w_sent (advance (handleSubmit (route (w_state w)) b) w) = (w_sent w ++ [q])%list) by done.
    unfold Inv. rewrite Ep, Es, Et. split_and!.
    + apply Forall_app; split; [done|]. apply Forall_singleton. right. by exists (route (w_state w)), b.
    + rewrite pending_puts_app, Hput. destruct (isSaving (w_state w)); done.
    + apply Forall_app; split; [done|]. apply Forall_singleton. intros _. by exists b.
  - by apply edit_Inv_deliver.
  - cbn. destruct (w_rendered w) as [r|]; cbn; [case_decide; cbn|];
      [destruct HI as (? & ? & ?); split_and!; done | apply Inv_fetchBlog ..];
      destruct HI as (? & ? & ?); split_and!; done.
Qed.

Lemma Inv_reachable id srv w : @reachable _ _ _ _ (component id) srv w -> Inv w.
Proof.
  unfold reachable. intros Hr. remember (@mount _ _ _ _ (component id)) as w0 eqn:E.
  assert (H0 : Inv w0) by (subst; apply edit_Inv_mount). clear E.
  induction Hr as [|w1 w2 w3 Hs _ IH]; [done|]. apply IH. by apply (Inv_step id srv w1 w2).
Qed.

(** ** Theorems *)

(** The editor's load on every branch: one [GET /blogs/{id}]; a 2xx
    JSON reply is stored ([null] shows the error card) and ends the
    loading; on any failure the page logs, shows an error toast and ends
    the loading, but keeps the blog it held before. *)
Theorem fetchBlog_run srv i s0 :
  let fail := mkRun (Done tt) (setIsLoading false s0) [Console "Error fetching blog:"; Toast "Error" true]
                [blog_req i] in
  run srv (fetchBlog i) s0 =
    match srv (blog_req i) with
    | Reply st (Some d) =>
        if ok st then mkRun (Done tt) (setIsLoading false (setBlog (of_data d) s0)) [] [blog_req i] else fail
    | _ => fail
    end.
Proof.
  intros fail. subst fail. unfold fetchBlog. cbn -[blog_req].
  destruct (srv (blog_req i)) as [|st [d|]]; cbn -[blog_req]; [done| |]; by destruct (ok st).
Qed.

(** C23: saving on every branch: one PUT of the blog to [/blogs/{id}];
    a 2xx reply toasts success and navigates to the public [/blogs]
    (not back to the admin list that [Cancel] opens); any failure logs
    and toasts an error; in every case [isSaving] ends [false] and the
    promise resolves. *)
Theorem blogSave_run srv i b s0 :
  let q := put_req i b in
  run srv (handleSubmit i b) s0 =
    match srv q with
    | Reply st _ =>
        if ok st then mkRun (Done tt) (setIsSaving false s0) [Toast "Success" false; Navigate "/blogs"] [q]
        else mkRun (Done tt) (setIsSaving false s0) [Console "Error updating blog:"; Toast "Error" true] [q]
    | NetworkFailure =>
        mkRun (Done tt) (setIsSaving false s0) [Console "Error updating blog:"; Toast "Error" true] [q]
    end.
Proof.
  intros q. subst q. rewrite handleSubmit_eq. cbn -[put_req].
  destruct (srv (put_req i b)) as [|st d]; cbn -[put_req]; [done|]. by destruct (ok st).
Qed.

(** C20: the [Save Changes] button is disabled while saving, and the
    [finally] clears [isSaving] whatever the reply: in every reachable
    state at most one PUT is in flight, and one is exactly when
    [isSaving] is set (the button reads [Saving...]). *)
Theorem one_save_in_flight id srv w :
  @reachable _ _ _ _ (component id) srv w ->
  pending_puts (w_pending w) = (if isSaving (w_state w) then 1 else 0)%nat /\
  (pending_puts (w_pending w) <= 1)%nat.
Proof.
  intros Hr. destruct (Inv_reachable id srv w Hr) as (_ & Hput & _).
  rewrite Hput. split; [done|]. destruct (isSaving (w_state w)); lia.
Qed.

(** C22: type of the saved category: the server sends [categoryId] as
    a number, but [handleInputChange] stores the input's text, so once
    the category input of the loaded form is edited to [t] the form holds
    the string [t], and the next save PUTs the blog with [categoryId] the
    string [t] to the route's [/blogs/{id}]. *)
Theorem edited_categoryId_sent_as_string srv s b t :
  form_of s = Some b ->
  let s1 := final (run srv (handle (Input CategoryId t) s) s) in
  exists b1, form_of s1 = Some b1 /\ categoryId b1 = JStr t /\
    sent (run srv (handle Submit s1) s1) = [put_req (route s) b1].
Proof.
  intros Hf. cbv zeta. unfold form_of in *. exists (set_field CategoryId t b).
  destruct (isLoading s) eqn:Hl; [done|]. destruct (blog s) as [|b0|] eqn:Hb; [done| |done].
  injection Hf as ->. cbn -[handleSubmit put_req]. rewrite Hb, Hl. split_and!; [done..|].
  cbn [update_blog]. rewrite handleSubmit_eq. cbn -[put_req set_field].
  destruct (srv (put_req (route s) (set_field CategoryId t b))) as [|st r]; cbn; [done|].
  by destruct (ok st).
Qed.

Lemma one_save_in_flight_witness :
  let b1 := Blog.mkBlog 1 "Hello" "Body" 1 "/a.png" 5 "Tech" "2024-01-01" "2024-01-02" in
  let srv := fun _ : Request Q => (Reply 200 (Some (BlogData b1)) : Response Body) in
  exists w, @reachable _ _ _ _ (component "1") srv w /\ isSaving (w_state w) = true /\
    pending_puts (w_pending w) = (if isSaving (w_state w) then 1 else 0)%nat /\
    (pending_puts (w_pending w) <= 1)%nat.
Proof.
  intros b1 srv.
  assert (Hr : exists w, @reachable _ _ _ _ (component "1") srv w /\ isSaving (w_state w) = true).
  { eexists. split.
    - unfold reachable. run_render. run_deliver 0. run_render. run_event Submit. apply rtc_refl.
    - reflexivity. }
  destruct Hr as (w & Hr & Hs). exists w. split_and!; [done | done | |].
  - exact (proj1 (one_save_in_flight "1" srv w Hr)).
  - exact (proj2 (one_save_in_flight "1" srv w Hr)).
Defined.

Lemma edited_categoryId_sent_as_string_witness :
  let b1 := Blog.mkBlog 1 "Hello" "Body" 1 "/a.png" 5 "Tech" "2024-01-01" "2024-01-02" in
  let s := mkState "1" (Held_ (of_blog b1)) false false in
  let srv := fun _ : Request Q => (Reply 200 (Some (BlogData b1)) : Response Body) in
  form_of s = Some (of_blog b1) /\
  let s1 := final (run srv (handle (Input CategoryId "7") s) s) in
  exists b, form_of s1 = Some b /\ categoryId b = JStr "7" /\
    sent (run srv (handle Submit s1) s1) = [put_req "1" b].
Proof.
  intros b1 s srv. split; [reflexivity|].
  exact (edited_categoryId_sent_as_string srv s (of_blog b1) "7" eq_refl).
Defined.

(** C21: the editor saves a blog under another blog's id. [isLoading] is
    never set back to [true] and the failed load of the new id keeps the
    old [blog]: after the route moves from blog 1 to blog 2 and blog 2
    fails to load, the form still shows blog 1, and saving PUTs blog 1's
    content to [/blogs/2]. *)
Theorem stale_blog_saved_to_new_id :
  let b1 := Blog.mkBlog 1 "Hello" "Body" 1 "/a.png" 5 "Tech" "2024-01-01" "2024-01-02" in
  let srv := fun r : Request Q =>
    (if req_url r =? blog_url "1" then Reply 200 (Some (BlogData b1)) else NetworkFailure)%string
      : Response Body in
  exists w, @reachable _ _ _ _ (component "1") srv w /\ route (w_state w) = "2" /\
    Toast "Error" true ∈ w_out w /\ In (put_req "2" (of_blog b1)) (w_sent w) /\
    id (of_blog b1) = 1%Z.
Proof.
  intros b1 srv. eexists. split.
  - unfold reachable. run_render. run_deliver 0. run_render. run_event (RouteTo "2"). run_render.
    run_deliver 0. run_event Submit. apply rtc_refl.
  - split_and!; [reflexivity | decide_closed | simpl; auto 10 | reflexivity].
Qed.

End BlogEdit.
