(* ===== verification/VacancyForms.v ===== *)
(** * VacancyForms: [Pages/AddVacancy.tsx] and the form operations it
    shares with [Pages/VacancyEdit.tsx]

    Both pages keep a vacancy form in one hook and update it with the
    same handlers: [handleInputChange] and [handleSelectChange] store a
    string under the field's name (choosing a country stores both the
    code and [countryMapping[code]]), [handleSwitchChange] a boolean, and
    the list fields are edited by index: [handleArrayChange] maps
    [(item, i) => i === index ? value : item], [removeArrayItem] filters
    [(_, i) => i !== index], [addArrayItem] appends [''].

    [FormOps] holds the country table and the index operations, written
    as the code writes them, with the theorems that they are stdpp's
    [<[i:=v]>] and [delete i] (out of range they leave the list alone).
    [parseFloat] of the salary is [parse_float], exact on the decimal
    literals a number input holds.

    [AddVacancy] is the creation page: the form, its handlers, the
    payload [handleSubmit] builds (blank items of three lists dropped,
    [countryCode] taken from [formData.country]), the POST with its 201
    test, and the category list loaded at mount. *)

From stdpp Require Import base list strings relations.
From Stdlib Require Import ZArith String Ascii QArith.
From S2P Require Import Prelude Async Runtime.

Module FormOps.

(** [countryMapping] (AddVacancy.tsx lines 148-189, VacancyEdit.tsx
    lines 18-59), in its order. *)
Definition countryMapping : list (string * string) :=
  [("US", "United States"); ("AZ", "Azerbaijan"); ("UK", "United Kingdom"); ("CA", "Canada");
   ("AU", "Australia"); ("DE", "Germany"); ("FR", "France"); ("ES", "Spain"); ("IT", "Italy");
   ("BR", "Brazil"); ("IN", "India"); ("JP", "Japan"); ("CN", "China"); ("RU", "Russia");
   ("MX", "Mexico"); ("ZA", "South Africa"); ("AR", "Argentina"); ("NG", "Nigeria");
   ("AE", "United Arab Emirates"); ("TR", "Turkey"); ("SA", "Saudi Arabia"); ("NL", "Netherlands");
   ("SE", "Sweden"); ("CH", "Switzerland"); ("BE", "Belgium"); ("AT", "Austria"); ("DK", "Denmark");
   ("FI", "Finland"); ("NO", "Norway"); ("PL", "Poland"); ("PT", "Portugal"); ("GR", "Greece");
   ("IE", "Ireland"); ("SG", "Singapore"); ("MY", "Malaysia"); ("TH", "Thailand");
   ("PH", "Philippines"); ("ID", "Indonesia"); ("NZ", "New Zealand"); ("KR", "South Korea")].

(** [countryMapping[code]]: [undefined] ([None]) for a code not in it. *)
Definition country_of (code : string) : option string :=
  option_map snd (List.find (fun p => p.1 === code) countryMapping).

(** [list.map((item, i) => i === index ? value : item)], the index
    counted from [k]. *)
Fixpoint map_at (k index : nat) (value : string) (l : list string) : list string :=
  match l with
  | [] => []
  | item :: r => (if Nat.eqb k index then value else item) :: map_at (S k) index value r
  end.

(** [list.filter((_, i) => i !== index)], the index counted from [k]. *)
Fixpoint filter_at (k index : nat) (l : list string) : list string :=
  match l with
  | [] => []
  | item :: r => if Nat.eqb k index then filter_at (S k) index r else item :: filter_at (S k) index r
  end.

Definition set_item (index : nat) (value : string) (l : list string) : list string := map_at 0 index value l.
Definition remove_item (index : nat) (l : list string) : list string := filter_at 0 index l.
Definition add_item (l : list string) : list string := l ++ [""].

(** [list.filter((item) => item.trim() !== '')]. *)
Definition drop_blank (l : list string) : list string := List.filter (fun item => negb (trim item === "")) l.

(** [parseFloat(s)]: leading blanks skipped, an optional sign, digits
    with an optional fraction, and an optional exponent, the longest such
    prefix read exactly as a rational; no digit gives [NaN] ([None]).
    The [Infinity] literal and the rounding to a double are not
    modelled. *)
Fixpoint digits10 (acc : Z) (n : nat) (s : string) : Z * nat * string :=
  match s with
  | String c r =>
      match digit_value c with
      | Some d => if (d <? 10)%Z then digits10 (10 * acc + d)%Z (S n) r else (acc, n, s)
      | None => (acc, n, s)
      end
  | EmptyString => (acc, n, s)
  end.

Definition read_sign (s : string) : Z * string :=
  match s with String "-" r => ((-1)%Z, r) | String "+" r => (1%Z, r) | _ => (1%Z, s) end.

Definition read_exponent (s : string) : Z :=
  match s with
  | String e r =>
      if (e =? "e")%char || (e =? "E")%char then
        let '(es, r') := read_sign r in
        let '(ev, ne, _) := digits10 0 0 r' in
        if (ne =? 0)%nat then 0%Z else (es * ev)%Z
      else 0%Z
  | EmptyString => 0%Z
  end.

Definition parse_float (s : string) : option Q :=
  let '(sign, s2) := read_sign (trim_start s) in
  let '(ip, ni, s3) := digits10 0 0 s2 in
  let '(fp, nf, s4) := match s3 with String "." r => digits10 0 0 r | _ => (0%Z, 0%nat, s3) end in
  if (ni + nf =? 0)%nat then None
  else Some ((inject_Z (sign * (ip * 10 ^ Z.of_nat nf + fp)) / inject_Z (10 ^ Z.of_nat nf)) *
             Qpower (inject_Z 10) (read_exponent s4))%Q.

(** ** Lemmas and theorems of the form operations *)

Lemma map_at_above k i v l : (i < k)%nat -> map_at k i v l = l.
Proof.
  revert k. induction l as [|x r IH]; intros k Hi; [done|]. cbn.
  rewrite (proj2 (Nat.eqb_neq k i)) by lia. f_equal. apply IH. lia.
Qed.

Lemma map_at_shift k j v l : map_at k (k + j) v l = <[j:=v]> l.
Proof.
  revert k j. induction l as [|x r IH]; intros k j; [done|]. cbn.
  destruct j as [|j]; cbn.
  - rewrite Nat.add_0_r, Nat.eqb_refl. f_equal. apply map_at_above. lia.
  - rewrite (proj2 (Nat.eqb_neq k (k + S j))) by lia. f_equal.
    replace (k + S j)%nat with (S k + j)%nat by lia. apply IH.
Qed.

Lemma filter_at_above k i l : (i < k)%nat -> filter_at k i l = l.
Proof.
  revert k. induction l as [|x r IH]; intros k Hi; [done|]. cbn.
  rewrite (proj2 (Nat.eqb_neq k i)) by lia. f_equal. apply IH. lia.
Qed.

Lemma filter_at_shift k j l : filter_at k (k + j) l = delete j l.
Proof.
  revert k j. induction l as [|x r IH]; intros k j; [done|]. cbn.
  destruct j as [|j]; cbn.
  - rewrite Nat.add_0_r, Nat.eqb_refl. apply filter_at_above. lia.
  - rewrite (proj2 (Nat.eqb_neq k (k + S j))) by lia. f_equal.
    replace (k + S j)%nat with (S k + j)%nat by lia. apply IH.
Qed.

Lemma country_names_differ : Forall (fun p => p.1 <> p.2) countryMapping.
Proof. repeat constructor; cbn; discriminate. Qed.

Lemma country_of_Some c name : country_of c = Some name -> In (c, name) countryMapping.
Proof.
  unfold country_of. destruct (List.find _ _) as [[c' n']|] eqn:Hf; [|done]. intros [= <-].
  apply List.find_some in Hf as [Hin Heq]. cbn in Heq. apply String.eqb_eq in Heq. by subst.
Qed.

(** The index operations, written as the code writes
    them ([map] with [i === index], [filter] with [i !== index]), are
    stdpp's [<[index:=value]>] and [delete index]: the item at [index]
    is replaced or removed, every other item stays in place, and an
    index out of range changes nothing. *)
Theorem index_ops_equiv index value l :
  set_item index value l = <[index:=value]> l /\ remove_item index l = delete index l.
Proof. split; [apply (map_at_shift 0) | apply (filter_at_shift 0)]. Qed.

End FormOps.

Module AddVacancy.
Import FormOps.

(** [formData] (lines 18-36); [country] is [undefined] ([None]) once a
    code outside [countryMapping] is chosen. *)
Record Form := mkForm {
  title : string;
  categoryId : string;
  isRemote : bool;
  isActive : bool;
  jobType : string;
  seniorityLevel : string;
  salary : string;
  jobOverview : list string;
  city : string;
  country : option string;
  description : string;
  countryCode : string;
  state : string;
  jobRole : list string;
  jobResponsibilities : list string;
  youHaveText : list string;
  requirements : list string
}.

Definition initial_form : Form :=
  mkForm "" "" false true "" "" "" [""] "" (Some "") "" "" "" [""] [""] [""] [""].

(** The inputs of [handleInputChange], the selects of
    [handleSelectChange], the switches and the list fields, by name. *)
Inductive TextField := FTitle | FSalary | FState | FCity | FDescription.
Inductive SelectField := SCategoryId | SJobType | SSeniorityLevel | SCountryCode.
Inductive SwitchField := WRemote | WActive.
Inductive ArrayField := AOverview | ARole | AResponsibilities | AYouHave | ARequirements.

(** [setFormData(prev => ({...prev, [name]: value}))] (lines 38-41). *)
Definition set_text (f : TextField) (v : string) (p : Form) : Form :=
  match f with
  | FTitle => mkForm v (categoryId p) (isRemote p) (isActive p) (jobType p) (seniorityLevel p) (salary p)
      (jobOverview p) (city p) (country p) (description p) (countryCode p) (state p) (jobRole p)
      (jobResponsibilities p) (youHaveText p) (requirements p)
  | FSalary => mkForm (title p) (categoryId p) (isRemote p) (isActive p) (jobType p) (seniorityLevel p) v
      (jobOverview p) (city p) (country p) (description p) (countryCode p) (state p) (jobRole p)
      (jobResponsibilities p) (youHaveText p) (requirements p)
  | FState => mkForm (title p) (categoryId p) (isRemote p) (isActive p) (jobType p) (seniorityLevel p) (salary p)
      (jobOverview p) (city p) (country p) (description p) (countryCode p) v (jobRole p)
      (jobResponsibilities p) (youHaveText p) (requirements p)
  | FCity => mkForm (title p) (categoryId p) (isRemote p) (isActive p) (jobType p) (seniorityLevel p) (salary p)
      (jobOverview p) v (country p) (description p) (countryCode p) (state p) (jobRole p)
      (jobResponsibilities p) (youHaveText p) (requirements p)
  | FDescription => mkForm (title p) (categoryId p) (isRemote p) (isActive p) (jobType p) (seniorityLevel p) (salary p)
      (jobOverview p) (city p) (country p) v (countryCode p) (state p) (jobRole p)
      (jobResponsibilities p) (youHaveText p) (requirements p)
  end.

(** [handleSelectChange] (lines 43-63): a country code also stores
    [countryMapping[value]] as [country]. *)
Definition set_select (f : SelectField) (v : string) (p : Form) : Form :=
  match f with
  | SCategoryId => mkForm (title p) v (isRemote p) (isActive p) (jobType p) (seniorityLevel p) (salary p)
      (jobOverview p) (city p) (country p) (description p) (countryCode p) (state p) (jobRole p)
      (jobResponsibilities p) (youHaveText p) (requirements p)
  | SJobType => mkForm (title p) (categoryId p) (isRemote p) (isActive p) v (seniorityLevel p) (salary p)
      (jobOverview p) (city p) (country p) (description p) (countryCode p) (state p) (jobRole p)
      (jobResponsibilities p) (youHaveText p) (requirements p)
  | SSeniorityLevel => mkForm (title p) (categoryId p) (isRemote p) (isActive p) (jobType p) v (salary p)
      (jobOverview p) (city p) (country p) (description p) (countryCode p) (state p) (jobRole p)
      (jobResponsibilities p) (youHaveText p) (requirements p)
  | SCountryCode => mkForm (title p) (categoryId p) (isRemote p) (isActive p) (jobType p) (seniorityLevel p) (salary p)
      (jobOverview p) (city p) (country_of v) (description p) v (state p) (jobRole p)
      (jobResponsibilities p) (youHaveText p) (requirements p)
  end.

(** [handleSwitchChange] (lines 65-67). *)
Definition set_switch (f : SwitchField) (c : bool) (p : Form) : Form :=
  match f with
  | WRemote => mkForm (title p) (categoryId p) c (isActive p) (jobType p) (seniorityLevel p) (salary p)
      (jobOverview p) (city p) (country p) (description p) (countryCode p) (state p) (jobRole p)
      (jobResponsibilities p) (youHaveText p) (requirements p)
  | WActive => mkForm (title p) (categoryId p) (isRemote p) c (jobType p) (seniorityLevel p) (salary p)
      (jobOverview p) (city p) (country p) (description p) (countryCode p) (state p) (jobRole p)
      (jobResponsibilities p) (youHaveText p) (requirements p)
  end.

Definition get_array (f : ArrayField) (p : Form) : list string :=
  match f with
  | AOverview => jobOverview p | ARole => jobRole p | AResponsibilities => jobResponsibilities p
  | AYouHave => youHaveText p | ARequirements => requirements p
  end.

(** [{...prev, [field]: l}] for a list field. *)
Definition set_array (f : ArrayField) (l : list string) (p : Form) : Form :=
  let o := if f is AOverview then l else jobOverview p in
  let r := if f is ARole then l else jobRole p in
  let j := if f is AResponsibilities then l else jobResponsibilities p in
  let y := if f is AYouHave then l else youHaveText p in
  let q := if f is ARequirements then l else requirements p in
  mkForm (title p) (categoryId p) (isRemote p) (isActive p) (jobType p) (seniorityLevel p) (salary p)
    o (city p) (country p) (description p) (countryCode p) (state p) r j y q.

(** [handleArrayChange], [addArrayItem], [removeArrayItem] (lines 69-88). *)
Definition handleArrayChange (index : nat) (v : string) (f : ArrayField) (p : Form) : Form :=
  set_array f (set_item index v (get_array f p)) p.
Definition addArrayItem (f : ArrayField) (p : Form) : Form := set_array f (add_item (get_array f p)) p.
Definition removeArrayItem (index : nat) (f : ArrayField) (p : Form) : Form :=
  set_array f (remove_item index (get_array f p)) p.

(** The [payload] of [handleSubmit] (lines 95-113): [countryCode] is
    [formData.country]; [salary] is [parseFloat(salary)] when the text is
    not empty and [null] otherwise ([NaN] is sent as [null] too). *)
Record Payload := mkPayload {
  pl_categoryId : string;
  pl_title : string;
  pl_isRemote : bool;
  pl_city : string;
  pl_state : string;
  pl_country : option string;
  pl_countryCode : option string;
  pl_jobType : string;
  pl_description : string;
  pl_seniorityLevel : string;
  pl_salary : option Q;
  pl_jobOverview : list string;
  pl_jobRole : list string;
  pl_jobResponsibilities : list string;
  pl_youHaveText : list string;
  pl_requirements : list string;
  pl_isActive : bool
}.

Definition payload (p : Form) : Payload :=
  mkPayload (categoryId p) (title p) (isRemote p) (city p) (state p) (country p) (country p)
    (jobType p) (description p) (seniorityLevel p)
    (if truthy (salary p) then parse_float (salary p) else None)
    (jobOverview p) (jobRole p) (drop_blank (jobResponsibilities p)) (drop_blank (youHaveText p))
    (drop_blank (requirements p)) (isActive p).

(** [categories] (line 131): the array the server sent, or another JSON
    value, which makes [categories.map] throw at the next render. *)
Inductive Cats := CatList (l : list (Z * string)) | CatOther.

Record State := mkState { formData : Form; categories : Cats }.

Definition initial : State := mkState initial_form (CatList []).

Definition setFormData (f : Form -> Form) (s : State) : State := mkState (f (formData s)) (categories s).
Definition setCategories (c : Cats) (s : State) : State := mkState (formData s) c.

(** Replies: the category list, the created vacancy, or another value. *)
Inductive Body := CategoryList (l : list (Z * string)) | Created | OtherJSON.
Abbreviation P := (Prog Payload Body State).

Definition categories_req : Request Payload := GetReq "http://127.0.0.1:8000/api/categories".
Definition post_req (pl : Payload) : Request Payload :=
  mkRequest POST "http://127.0.0.1:8000/api/vacancies" (Some pl).

(** [fetchCategories] of the mount effect (lines 133-146). *)
Definition fetchCategories : P unit :=
  catch_
    (r <- axios categories_req ;;
     if (r.1 =? 200)%Z
     then set (setCategories (match r.2 with CategoryList l => CatList l | _ => CatOther end))
     else Ret tt)
    (fun _ => emit (Console "Failed to fetch categories:")).

(** [handleSubmit] (lines 91-129), with the [formData] of its render. *)
Definition handleSubmit (s : State) : P unit :=
  catch_
    (r <- axios (post_req (payload (formData s))) ;;
     if (r.1 =? 201)%Z
     then emit (Console "Vacancy created successfully:") ;; emit (Navigate "/company/vacancies")
     else emit (Console "Failed to create vacancy:"))
    (fun _ => emit (Console "Error while creating vacancy:")).

Definition effects (prev : option State) (s : State) : list (P unit) :=
  match prev with None => [fetchCategories] | Some _ => [] end.

(** The controls of the form (lines 191-392). *)
Inductive Event :=
| Input (f : TextField) (v : string)
| Select (f : SelectField) (v : string)
| Switch (f : SwitchField) (checked : bool)
| ArrEdit (f : ArrayField) (index : nat) (v : string)
| ArrAdd (f : ArrayField)
| ArrRemove (f : ArrayField) (index : nat)
| Submit
| Back.

Definition get_text (f : TextField) (p : Form) : string :=
  match f with
  | FTitle => title p | FSalary => salary p | FState => state p | FCity => city p
  | FDescription => description p
  end.

Definition select_value (f : SelectField) (p : Form) : string :=
  match f with
  | SCategoryId => categoryId p | SJobType => jobType p | SSeniorityLevel => seniorityLevel p
  | SCountryCode => countryCode p
  end.

(** The items each select offers (lines 210-273). *)
Definition select_items (f : SelectField) (c : list (Z * string)) : list string :=
  match f with
  | SCategoryId => map (fun x => z_to_string x.1) c
  | SJobType => ["full-time"; "part-time"; "contract"; "internship"]
  | SSeniorityLevel => ["intern"; "junior"; "middle"; "senior"; "lead"]
  | SCountryCode => map fst countryMapping
  end.

Definition switch_value (f : SwitchField) (p : Form) : bool :=
  match f with WRemote => isRemote p | WActive => isActive p end.

(** The four list fields that have inputs; [requirements] has none. *)
Definition rendered_array (f : ArrayField) : bool := if f is ARequirements then false else true.

(** The browser's check of the [required] controls before [onSubmit]. *)
Definition required_ok (p : Form) : bool :=
  truthy (title p) && truthy (categoryId p) && truthy (jobType p) && truthy (seniorityLevel p) &&
  truthy (state p) && truthy (description p) &&
  forallb truthy (jobOverview p ++ jobRole p ++ jobResponsibilities p ++ youHaveText p).

Definition offered (ev : Event) (s : State) : bool :=
  match categories s with
  | CatOther => false
  | CatList c =>
      let p := formData s in
      match ev with
      | Input f v => negb (v === get_text f p)
      | Select f v => bool_decide (v ∈ select_items f c) && negb (v === select_value f p)
      | Switch f b => Bool.eqb b (negb (switch_value f p))
      | ArrEdit f i v =>
          rendered_array f && match get_array f p !! i with Some x => negb (v === x) | None => false end
      | ArrAdd f => rendered_array f
      | ArrRemove f i => rendered_array f && bool_decide (i < List.length (get_array f p))%nat
      | Submit => required_ok p
      | Back => true
      end
  end.

(** The handlers update the latest form ([setFormData(prev => ...)]). *)
Definition handle (ev : Event) (s : State) : P unit :=
  match ev with
  | Input f v => set (setFormData (set_text f v))
  | Select f v => set (setFormData (set_select f v))
  | Switch f b => set (setFormData (set_switch f b))
  | ArrEdit f i v => set (setFormData (handleArrayChange i v f))
  | ArrAdd f => set (setFormData (addArrayItem f))
  | ArrRemove f i => set (setFormData (removeArrayItem i f))
  | Submit => handleSubmit s
  | Back => emit (Navigate "/company/vacancies")
  end.

#[global] Instance component : Component Payload Body State Event :=
  {| comp_init := initial; comp_effects := effects;
     comp_offered := offered; comp_handle := handle |}.

(** ** Theorems *)

(** C25: choosing a country stores its code in [countryCode] and its
    name in [country], but the payload takes [countryCode] from
    [formData.country]: the server receives the country's name, never
    the code, in both fields. *)
Theorem payload_countryCode_is_name p code name :
  country_of code = Some name ->
  countryCode (set_select SCountryCode code p) = code /\
  pl_countryCode (payload (set_select SCountryCode code p)) = Some name /\
  pl_country (payload (set_select SCountryCode code p)) = Some name /\ name <> code.
Proof.
  intros Hc. cbn. rewrite Hc. split_and!; [done..|].
  apply country_of_Some in Hc.
  pose proof (proj1 (List.Forall_forall _ _) country_names_differ _ Hc) as Hne. cbn in Hne. congruence.
Qed.

Lemma payload_countryCode_is_name_witness :
  country_of "AZ" = Some "Azerbaijan" /\
  countryCode (set_select SCountryCode "AZ" initial_form) = "AZ" /\
  pl_countryCode (payload (set_select SCountryCode "AZ" initial_form)) = Some "Azerbaijan" /\
  pl_country (payload (set_select SCountryCode "AZ" initial_form)) = Some "Azerbaijan" /\
  "Azerbaijan" <> "AZ".
Proof.
  split; [reflexivity|]. exact (payload_countryCode_is_name initial_form "AZ" "Azerbaijan" eq_refl).
Defined.

(** C26: [requirements] has no input on the page: in every reachable
    state it is still [['']], so every vacancy the page can post has an
    empty [requirements] list. *)
Theorem requirements_never_sent srv w :
  @reachable _ _ _ _ component srv w ->
  requirements (formData (w_state w)) = [""] /\ pl_requirements (payload (formData (w_state w))) = [].
Proof.
  intros Hr.
  assert (H : requirements (formData (w_state w)) = [""]).
  { apply (state_invariant (fun s => requirements (formData s) = [""]) srv w); [done | | | exact Hr].
    - intros ev s Hs Hoff. change (offered ev s = true) in Hoff. change (preserves (fun s => requirements (formData s) = [""]) (handle ev s)).
      unfold offered in Hoff. destruct (categories s); [|done].
      destruct ev as [f v|f v|f b|f i v|f|f i| |]; cbn -[handleSubmit];
        [..|unfold handleSubmit|]; prove_preserves; cbn in *; try done;
        destruct f; cbn in *; done.
    - intros prev s _. destruct prev; cbn -[fetchCategories]; [constructor|].
      apply Forall_singleton. unfold fetchCategories. prove_preserves; cbn in *; done. }
  split; [done|]. cbn. by rewrite H.
Qed.

Lemma requirements_never_sent_witness :
  let srv := fun _ : Request Payload => (Reply 200 (CategoryList [(3%Z, "IT")]) : Response Body) in
  exists w, @reachable _ _ _ _ component srv w /\
    requirements (formData (w_state w)) = [""] /\ pl_requirements (payload (formData (w_state w))) = [].
Proof.
  intros srv. assert (Hr : exists w, @reachable _ _ _ _ component srv w).
  { eexists. unfold reachable. run_render. run_deliver 0%nat. run_render. run_event (ArrAdd AResponsibilities).
    apply rtc_refl. }
  destruct Hr as [w Hr]. exists w. split; [done|]. exact (requirements_never_sent srv w Hr).
Defined.

(** Creating a vacancy on every branch: one POST of the payload of
    the render's form; only a 201 reply navigates to the vacancy list,
    another 2xx reply only logs, and a failure is logged; the state is
    not changed and the promise resolves. *)
Theorem addVacancy_submit_run srv s s0 :
  let q := post_req (payload (formData s)) in
  run srv (handleSubmit s) s0 =
    match srv q with
    | Reply st _ =>
        if is_2xx st then
          if (st =? 201)%Z then mkRun (Done tt) s0 [Console "Vacancy created successfully:"; Navigate "/company/vacancies"] [q]
          else mkRun (Done tt) s0 [Console "Failed to create vacancy:"] [q]
        else mkRun (Done tt) s0 [Console "Error while creating vacancy:"] [q]
    | NetworkFailure => mkRun (Done tt) s0 [Console "Error while creating vacancy:"] [q]
    end.
Proof.
  intros q. subst q. unfold handleSubmit. cbn -[post_req payload].
  destruct (srv _) as [|st b]; cbn -[post_req payload]; [done|].
  destruct (is_2xx st); cbn; [|done]. by destruct (st =? 201)%Z.
Qed.

End AddVacancy.
