(* ===== verification/VacancyEdit.v ===== *)
(** * VacancyEdit: [Pages/VacancyEdit.tsx]

    The company's vacancy editor at [/company/vacancies/:vacancyId/edit].
    The effect on [[vacancyId]] loads the vacancy into the [vacancy] hook
    (or only warns when the parameter is missing), a mount effect loads
    the categories, the inputs, selects, switches and list items update
    the hook with the handlers of [VacancyForms.FormOps] ([prev ? ... :
    prev]: nothing happens before the vacancy is loaded), and
    [handleSubmit] PUTs [JSON.stringify(updatedData)] to
    [/vacancies/{id}], toasting and navigating on a 200 reply.

    The hook keeps what the handlers store: [salary] is the number the
    server sent until the salary input is edited, and a string after
    ([Salary]). The PUT body is the object [updatedData] that the code
    passes to [JSON.stringify]; what axios does with the resulting string
    (its content type) is the library's. The theorems give every branch
    of the save, including its guard, and show that an edited salary is
    sent as a string. *)

From stdpp Require Import base list strings relations.
From Stdlib Require Import ZArith String Ascii.
From S2P Require Import Prelude Async Runtime VacancyForms.

Module VacancyEdit.
Import FormOps.

(** [salary]: the server's number or the input's string. *)
Inductive Salary := SNum (n : Z) | SStr (s : string).

(** [type Vacancy] (lines 61-79). *)
Record Vacancy := mkVacancy {
  id : Z;
  title : string;
  categoryId : string;
  isRemote : bool;
  isActive : bool;
  jobType : string;
  seniorityLevel : string;
  city : string;
  state : string;
  country : option string;
  description : string;
  countryCode : string;
  salary : Salary;
  jobOverview : string;
  jobRole : string;
  jobResponsibilities : list string;
  youHaveText : list string
}.

(** The inputs and textareas of [handleInputChange], the selects, the
    switches and the two list fields, by name. *)
Inductive TextField := FTitle | FSalary | FState | FCity | FDescription | FOverview | FRole.
Inductive SelectField := SCategoryId | SJobType | SSeniorityLevel | SCountryCode.
Inductive SwitchField := WRemote | WActive.
Inductive ArrayField := AResponsibilities | AYouHave.

(** [{ ...prev, [name]: value }] (lines 110-113). *)
Definition set_text (f : TextField) (x : string) (v : Vacancy) : Vacancy :=
  let t := if f is FTitle then x else title v in
  let sl := if f is FSalary then SStr x else salary v in
  let st := if f is FState then x else state v in
  let c := if f is FCity then x else city v in
  let d := if f is FDescription then x else description v in
  let o := if f is FOverview then x else jobOverview v in
  let r := if f is FRole then x else jobRole v in
  mkVacancy (id v) t (categoryId v) (isRemote v) (isActive v) (jobType v) (seniorityLevel v) c st
    (country v) d (countryCode v) sl o r (jobResponsibilities v) (youHaveText v).

(** [handleSelectChange] (lines 115-135). *)
Definition set_select (f : SelectField) (x : string) (v : Vacancy) : Vacancy :=
  let cat := if f is SCategoryId then x else categoryId v in
  let jt := if f is SJobType then x else jobType v in
  let sen := if f is SSeniorityLevel then x else seniorityLevel v in
  let co := if f is SCountryCode then country_of x else country v in
  let cc := if f is SCountryCode then x else countryCode v in
  mkVacancy (id v) (title v) cat (isRemote v) (isActive v) jt sen (city v) (state v) co
    (description v) cc (salary v) (jobOverview v) (jobRole v) (jobResponsibilities v) (youHaveText v).

(** [handleSwitchChange] (lines 137-142). *)
Definition set_switch (f : SwitchField) (b : bool) (v : Vacancy) : Vacancy :=
  mkVacancy (id v) (title v) (categoryId v) (if f is WRemote then b else isRemote v)
    (if f is WActive then b else isActive v) (jobType v) (seniorityLevel v) (city v) (state v)
    (country v) (description v) (countryCode v) (salary v) (jobOverview v) (jobRole v)
    (jobResponsibilities v) (youHaveText v).

Definition get_array (f : ArrayField) (v : Vacancy) : list string :=
  match f with AResponsibilities => jobResponsibilities v | AYouHave => youHaveText v end.

Definition set_array (f : ArrayField) (l : list string) (v : Vacancy) : Vacancy :=
  mkVacancy (id v) (title v) (categoryId v) (isRemote v) (isActive v) (jobType v) (seniorityLevel v)
    (city v) (state v) (country v) (description v) (countryCode v) (salary v) (jobOverview v) (jobRole v)
    (if f is AResponsibilities then l else jobResponsibilities v)
    (if f is AYouHave then l else youHaveText v).

(** What [setVacancy(response.data)] stores: nothing yet ([null]), a
    vacancy, or a value that is not one (its render throws). *)
Inductive Hold := NoVac | Vac (v : Vacancy) | Junk.

(** [setVacancy((prev) => prev ? f(prev) : prev)]. *)
Definition update (f : Vacancy -> Vacancy) (h : Hold) : Hold :=
  match h with Vac v => Vac (f v) | _ => h end.

(** [updatedData] (lines 188-205): the vacancy without its [id]. *)
Record Updated := mkUpdated {
  u_title : string; u_categoryId : string; u_isRemote : bool; u_isActive : bool;
  u_jobType : string; u_seniorityLevel : string; u_city : string; u_description : string;
  u_state : string; u_country : option string; u_countryCode : string; u_salary : Salary;
  u_jobOverview : string; u_jobRole : string; u_jobResponsibilities : list string;
  u_youHaveText : list string
}.

Definition updatedData (v : Vacancy) : Updated :=
  mkUpdated (title v) (categoryId v) (isRemote v) (isActive v) (jobType v) (seniorityLevel v)
    (city v) (description v) (state v) (country v) (countryCode v) (salary v) (jobOverview v)
    (jobRole v) (jobResponsibilities v) (youHaveText v).

(** [categories] (line 228): the array sent, or another value. *)
Inductive Cats := CatList (l : list (Z * string)) | CatOther.

(** The route parameter and the hooks of lines 84 and 228. *)
Record State := mkState { vacancyId : option string; vacancy : Hold; categories : Cats }.

Definition initial (route : option string) : State := mkState route NoVac (CatList []).

Definition setVacancyId r s := mkState r (vacancy s) (categories s).
Definition setVacancy (f : Hold -> Hold) s := mkState (vacancyId s) (f (vacancy s)) (categories s).
Definition setCategories c s := mkState (vacancyId s) (vacancy s) c.

(** Replies: a vacancy, the categories, or another value. *)
Inductive Body := VacancyData (v : Vacancy) | CategoryList (l : list (Z * string)) | OtherJSON.
Abbreviation P := (Prog Updated Body State).

Definition api : string := "http://127.0.0.1:8000/api".
Definition vacancy_req (i : string) : Request Updated := GetReq (api ++ "/companies/vacancies/" ++ i).
Definition categories_req : Request Updated := GetReq (api ++ "/categories").
Definition put_req (i : string) (v : Vacancy) : Request Updated :=
  mkRequest PUT (api ++ "/vacancies/" ++ i) (Some (updatedData v)).

(** [if (!vacancyId)]: a missing or empty parameter. *)
Definition route_id (o : option string) : option string :=
  match o with Some i => if truthy i then Some i else None | None => None end.

(** [fetchVacancy] (lines 94-105). *)
Definition fetchVacancy (i : string) : P unit :=
  catch_ (r <- axios (vacancy_req i) ;;
          set (setVacancy (fun _ => match r.2 with VacancyData v => Vac v | _ => Junk end)))
         (fun _ => emit (Toast "Error" true)).

(** [fetchCategories] (lines 234-243). *)
Definition fetchCategories : P unit :=
  catch_ (r <- axios categories_req ;;
          if (r.1 =? 200)%Z
          then set (setCategories (match r.2 with CategoryList l => CatList l | _ => CatOther end))
          else Ret tt)
         (fun _ => emit (Console "Failed to fetch categories:")).

(** The effect on [[vacancyId]] (lines 88-108). *)
Definition vacancyEffect (s : State) : P unit :=
  match route_id (vacancyId s) with
  | Some i => fetchVacancy i
  | None => emit (Console "vacancyId is missing.")
  end.

(** Both effects at mount, the first again when [vacancyId] changes. *)
Definition effects (prev : option State) (s : State) : list (P unit) :=
  match prev with
  | None => [vacancyEffect s; fetchCategories]
  | Some r => if decide (vacancyId r = vacancyId s) then [] else [vacancyEffect s]
  end.

(** [handleSubmit] (lines 174-226), with the hooks of its render; the
    form is not rendered for a value that is not a vacancy. *)
Definition handleSubmit (s : State) : P unit :=
  match vacancy s, route_id (vacancyId s) with
  | Vac v, Some i =>
      catch_
        (r <- axios (put_req i v) ;;
         if (r.1 =? 200)%Z
         then emit (Toast "Success" false) ;; emit (Navigate ("/company/vacancies/" ++ i))
         else Ret tt)
        (fun _ => emit (Console "Failed to update vacancy:") ;; emit (Toast "Error" true))
  | _, _ => emit (Toast "Error" true)
  end.

(** A route change, the controls of the form, [Cancel] and the back
    link (lines 245-434). *)
Inductive Event :=
| RouteTo (r : option string)
| Input (f : TextField) (x : string)
| Select (f : SelectField) (x : string)
| Switch (f : SwitchField) (b : bool)
| ArrEdit (f : ArrayField) (index : nat) (x : string)
| ArrAdd (f : ArrayField)
| ArrRemove (f : ArrayField) (index : nat)
| Submit
| Cancel
| Back.

Definition salary_text (x : Salary) : string := match x with SNum n => z_to_string n | SStr t => t end.

Definition get_text (f : TextField) (v : Vacancy) : string :=
  match f with
  | FTitle => title v | FSalary => salary_text (salary v) | FState => state v | FCity => city v
  | FDescription => description v | FOverview => jobOverview v | FRole => jobRole v
  end.

Definition select_value (f : SelectField) (v : Vacancy) : string :=
  match f with
  | SCategoryId => categoryId v | SJobType => jobType v | SSeniorityLevel => seniorityLevel v
  | SCountryCode => countryCode v
  end.

Definition select_items (f : SelectField) (c : list (Z * string)) : list string :=
  match f with
  | SCategoryId => map (fun x => z_to_string x.1) c
  | SJobType => ["full-time"; "part-time"; "contract"; "internship"]
  | SSeniorityLevel => ["intern"; "junior"; "middle"; "senior"; "lead"]
  | SCountryCode => map fst countryMapping
  end.

(** The browser's check of the [required] controls. *)
Definition required_ok (v : Vacancy) : bool :=
  truthy (title v) && truthy (state v) && truthy (jobOverview v) && truthy (jobRole v) &&
  forallb truthy (jobResponsibilities v ++ youHaveText v).

(** Before the vacancy is loaded the inputs are uncontrolled and the
    list items are not rendered; a value that is not a vacancy, or
    categories that are not an array, make the render throw. *)
Definition offered (ev : Event) (s : State) : bool :=
  match categories s, vacancy s with
  | CatOther, _ | _, Junk => false
  | CatList c, h =>
      match ev, h with
      | RouteTo r, _ => negb (bool_decide (r = vacancyId s))
      | Input _ _, NoVac | Select _ _, NoVac | Switch _ _, NoVac | ArrAdd _, NoVac => true
      | Input f x, Vac v => negb (x === get_text f v)
      | Select f x, Vac v => bool_decide (x ∈ select_items f c) && negb (x === select_value f v)
      | Switch f b, Vac v => Bool.eqb b (negb (if f is WRemote then isRemote v else isActive v))
      | ArrEdit f i x, Vac v => match get_array f v !! i with Some y => negb (x === y) | None => false end
      | ArrAdd _, Vac _ => true
      | ArrRemove f i, Vac v => bool_decide (i < List.length (get_array f v))%nat
      | Submit, Vac v => required_ok v
      | Submit, NoVac | Cancel, _ | Back, _ => true
      | _, _ => false
      end
  end.

(** The handlers (lines 110-172, 248, 425). *)
Definition handle (ev : Event) (s : State) : P unit :=
  match ev with
  | RouteTo r => set (setVacancyId r)
  | Input f x => set (setVacancy (update (set_text f x)))
  | Select f x => set (setVacancy (update (set_select f x)))
  | Switch f b => set (setVacancy (update (set_switch f b)))
  | ArrEdit f i x => set (setVacancy (update (fun v => set_array f (set_item i x (get_array f v)) v)))
  | ArrAdd f => set (setVacancy (update (fun v => set_array f (add_item (get_array f v)) v)))
  | ArrRemove f i => set (setVacancy (update (fun v => set_array f (remove_item i (get_array f v)) v)))
  | Submit => handleSubmit s
  | Cancel | Back => emit (Navigate "/company/vacancies")
  end.

#[global] Instance component (route : option string) : Component Updated Body State Event :=
  {| comp_init := initial route; comp_effects := effects;
     comp_offered := offered; comp_handle := handle |}.

(** ** Theorems *)

(** C27: saving on every branch: without a loaded vacancy or a route id
    it only shows an error toast; otherwise one PUT of [updatedData] to
    [/vacancies/{id}]; a 200 reply toasts and navigates to the vacancy,
    another 2xx reply does nothing visible, a failure logs and toasts.
    The state is never changed. *)
Theorem editVacancy_submit_run srv s s0 :
  run srv (handleSubmit s) s0 =
    match vacancy s, route_id (vacancyId s) with
    | Vac v, Some i =>
        match srv (put_req i v) with
        | Reply st _ =>
            if is_2xx st then
              if (st =? 200)%Z
              then mkRun (Done tt) s0 [Toast "Success" false; Navigate ("/company/vacancies/" ++ i)] [put_req i v]
              else mkRun (Done tt) s0 [] [put_req i v]
            else mkRun (Done tt) s0 [Console "Failed to update vacancy:"; Toast "Error" true] [put_req i v]
        | NetworkFailure => mkRun (Done tt) s0 [Console "Failed to update vacancy:"; Toast "Error" true] [put_req i v]
        end
    | _, _ => mkRun (Done tt) s0 [Toast "Error" true] []
    end.
Proof.
  unfold handleSubmit. destruct (vacancy s) as [|v|]; [done| |done].
  destruct (route_id (vacancyId s)) as [i|]; [|done]. cbn -[put_req].
  destruct (srv (put_req i v)) as [|st b]; cbn -[put_req]; [done|].
  destruct (is_2xx st); cbn; [|done]. by destruct (st =? 200)%Z.
Qed.

(** C28: type of the saved salary: the server sends [salary] as a
    number, but once the salary input is edited the hook holds the
    input's string, and the next save sends that string. *)
Theorem edited_salary_sent_as_string srv s v i x :
  vacancy s = Vac v -> route_id (vacancyId s) = Some i ->
  let s1 := final (run srv (handle (Input FSalary x) s) s) in
  exists v1, vacancy s1 = Vac v1 /\ u_salary (updatedData v1) = SStr x /\
    sent (run srv (handleSubmit s1) s1) = [put_req i v1].
Proof.
  intros Hv Hi s1. exists (set_text FSalary x v). subst s1. cbn -[put_req handleSubmit]. rewrite Hv.
  split; [reflexivity|]. split; [reflexivity|].
  unfold handleSubmit. cbn -[put_req]. rewrite Hv, Hi. cbn -[put_req].
  destruct (srv (put_req i (set_text FSalary x v))) as [|st b]; cbn -[put_req]; [done|].
  destruct (is_2xx st); cbn; [|done]. by destruct (st =? 200)%Z.
Qed.

Lemma edited_salary_sent_as_string_witness :
  let v := mkVacancy 4 "Dev" "2" false true "full-time" "senior" "Baku" "Baku" (Some "Azerbaijan")
             "" "AZ" (SNum 1500) "o" "r" ["a"] ["b"] in
  let s := mkState (Some "4") (Vac v) (CatList []) in
  let srv := fun _ : Request Updated => (Reply 200 OtherJSON : Response Body) in
  vacancy s = Vac v /\ route_id (vacancyId s) = Some "4" /\
  let s1 := final (run srv (handle (Input FSalary "2000") s) s) in
  exists v1, vacancy s1 = Vac v1 /\ u_salary (updatedData v1) = SStr "2000" /\
    sent (run srv (handleSubmit s1) s1) = [put_req "4" v1].
Proof.
  intros v s srv. split; [reflexivity|]. split; [reflexivity|].
  exact (edited_salary_sent_as_string srv s v "4" "2000" eq_refl eq_refl).
Defined.

End VacancyEdit.
