(* ===== verification/Navbar.v ===== *)
(** * Navbar: [Components/Navbar.jsx]

    The navigation bar: the logo, the desktop and mobile link lists, the
    menu icon that opens the mobile menu, and the right-hand buttons,
    which depend on the [user] of [AuthContext] (not in the repository:
    a [Section] variable here). The mount effect registers a document
    [mousedown] listener that closes the menu on a press outside the
    [.nav] element. The menu icon carries the class [hidden] while the
    menu is open, so it only opens the menu.

    The lemmas show that the open menu closes only on a press outside
    the bar (following a link keeps it open) and that the two link lists
    disagree on the company page. *)

From stdpp Require Import base list strings.
From Stdlib Require Import ZArith String.
From S2P Require Import Prelude Async Runtime.

Module Navbar.

(** The [user] of [AuthContext] (lines 7, 56-58). *)
Record User := mkUser { token : string; role : string }.

Record State := mkState { isMenuOpen : bool }.

Abbreviation P := (Prog unit unit State).

(** The [NavLink]s of lines 34-41 and 48-53. *)
Definition desktop_links : list string :=
  ["/"; "/investor"; "/startups"; "/jobs"; "/browsestartups"; "/seekfunding"; "/companies"].
Definition mobile_links : list string :=
  ["/investor"; "/startups"; "/jobs"; "/browsestartups"; "/seekfunding"; "/company"].

(** The menu icon, a press anywhere ([inside] the [.nav] element or
    not), a link, and the right-hand buttons. *)
Inductive Event := ToggleMenu | MouseDown (inside : bool) | Follow (path : string)
                 | Dashboard | LogIn | SignUp.

Section Page.
Variable user : option User.

(** [user && user.token]. *)
Definition logged_in : bool := match user with Some u => truthy (token u) | None => false end.

(** The [Dashboard] target (line 58). *)
Definition dashboard_path : string :=
  match user with
  | Some u => if role u === "company" then "/company/dashboard" else "/admin/dashboard"
  | None => "/admin/dashboard"
  end.

Definition offered (ev : Event) (s : State) : bool :=
  match ev with
  | ToggleMenu => negb (isMenuOpen s)
  | MouseDown _ => true
  | Follow p => bool_decide (p ∈ desktop_links) || (isMenuOpen s && bool_decide (p ∈ mobile_links))
  | Dashboard => logged_in
  | LogIn | SignUp => negb logged_in
  end.

(** [toggleMenu], [handleClickOutside], the links and the buttons
    (lines 10-23, 57-64); a press on a link is a press inside the bar. *)
Definition handle (ev : Event) (s : State) : P unit :=
  match ev with
  | ToggleMenu => set (fun _ => mkState (negb (isMenuOpen s)))
  | MouseDown inside => if inside then Ret tt else set (fun _ => mkState false)
  | Follow p => emit (Navigate p)
  | Dashboard => emit (Navigate dashboard_path)
  | LogIn => emit (Navigate "/login")
  | SignUp => emit (Navigate "/register")
  end.

(** The listener is registered by the mount effect and runs in the
    handler of [MouseDown]; no effect sends a request. *)
Definition effects (prev : option State) (s : State) : list (P unit) := [].

#[global] Instance component : Component unit unit State Event :=
  {| comp_init := mkState false; comp_effects := effects;
     comp_offered := offered; comp_handle := handle |}.

(** ** Lemmas *)

(** The open menu is closed only by a press outside the bar. *)
Lemma menu_closes_only_outside srv ev s :
  isMenuOpen s = true -> offered ev s = true ->
  isMenuOpen (final (run srv (handle ev s) s)) = false <-> ev = MouseDown false.
Proof.
  intros Ho Hoff. destruct ev as [|[]| | | |]; cbn in *; rewrite ?Ho in *; try done; split; congruence.
Qed.

End Page.

(** The desktop list links to [/companies], the mobile list to
    [/company]. *)
Lemma company_links_differ :
  "/companies" ∈ desktop_links /\ "/companies" ∉ mobile_links /\ "/company" ∈ mobile_links.
Proof. split_and!; decide_closed. Qed.

End Navbar.
